(** * PaintWiser Growth Worker: market analysis, plan derivation and quota gate

    A shallow embedding of the TypeScript sources of the growth worker,
    the properties its specification states about them, and further
    properties of the code: the estimate and Keyword Planner providers,
    the competitor search, the CRM snapshot, the middlewares, the routes
    and what the two services write.

    Conventions of the embedding.
    - A JavaScript [number] is an exact rational ([Q]); [NaN], the
      infinities and binary rounding error are outside the model.
      [Math.round] is [floor (x + 1/2)], as ECMAScript defines it.
    - A JavaScript string is a [string] of bytes; [toLowerCase] acts on the
      ASCII letters and [trim] removes ASCII white space.
    - An [async] function returns a [Promise]: fulfilled with a value or
      rejected with an error.  Code that reads or writes the database or
      the console runs in the monad [M] over a [World]; the readings of
      the clock are arguments.
    - External collaborators (Google Ads, Google Places, Serper, OpenAI,
      the fetch of a website, Supabase faults) are oracles: functions or
      fields that say what the collaborator answers.
    - [console.log] lines and the console lines of the provider adapters
      carry no behaviour and are left out; the [console.error] lines of
      the database layer, the services, the middleware and the routes are
      recorded in the trace, next to the database queries. *)

From Stdlib Require Import QArith Qround Qminmax ZArith List String Ascii Bool Lia Lqa.
From Stdlib Require Import Sorting.Sorted Sorting.Permutation.
From Stdlib Require Import DecimalString.
Import ListNotations.

Set Warnings "-register-all".

Local Open Scope string_scope.
Local Open Scope Q_scope.

(* ------------------------------------------------------------------ *)
(** ** JavaScript values *)

Module Js.

Definition number := Q.

(** [Math.round]: the integer nearest to [x], ties towards plus infinity. *)
Definition Math_round (x : number) : number := inject_Z (Qfloor (x + (1 # 2))).

Definition Math_min (x y : number) : number := Qmin x y.
Definition Math_max (x y : number) : number := Qmax x y.

(** The outcome of awaiting a promise. *)
Inductive Promise (A : Type) : Type :=
| Fulfilled (a : A)
| Rejected (message : string).
Arguments Fulfilled {A} a.
Arguments Rejected {A} message.

(** [p.catch(err => { console.error(...); return fallback; })], without
    the console line. *)
Definition catch_value {A : Type} (p : Promise A) (fallback : A) : A :=
  match p with
  | Fulfilled a => a
  | Rejected _ => fallback
  end.

Definition toLowerCase_ascii (c : ascii) : ascii :=
  let n := nat_of_ascii c in
  if (65 <=? n)%nat && (n <=? 90)%nat then ascii_of_nat (n + 32) else c.

Fixpoint toLowerCase (s : string) : string :=
  match s with
  | EmptyString => EmptyString
  | String c rest => String (toLowerCase_ascii c) (toLowerCase rest)
  end.

(** [s.includes(sub)] *)
Fixpoint includes (s sub : string) : bool :=
  String.prefix sub s
  || match s with
     | EmptyString => false
     | String _ rest => includes rest sub
     end.

(** Truthiness of a string: only the empty string is falsy. *)
Definition truthy_string (s : string) : bool :=
  match s with EmptyString => false | _ => true end.

End Js.

(* ------------------------------------------------------------------ *)
(** ** JSON values *)

Module Json.
Import Js.

(** A value [JSON.parse] can return, or a [jsonb] column can hold. *)
Inductive json : Type :=
| JNull
| JBool (b : bool)
| JNumber (n : number)
| JString (s : string)
| JArray (items : list json)
| JObject (members : list (string * json)).

(** A JavaScript value read from such a tree: [None] is [undefined]. *)
Definition value := option json.

(** The member an object holds under [key]; of two members with one key
    the later one counts. *)
Fixpoint member (key : string) (members : list (string * json)) : value :=
  match members with
  | [] => None
  | (k, v) :: rest =>
      match member key rest with
      | Some later => Some later
      | None => if String.eqb k key then Some v else None
      end
  end.

(** [v.key], for the property names this program reads (none of them is a
    member of a built-in prototype): reading from [null] throws, an object
    gives its member, every other value gives [undefined]. *)
Definition get (v : json) (key : string) : Promise value :=
  match v with
  | JNull => Rejected ("TypeError: Cannot read properties of null (reading '" ++ key ++ "')")
  | JObject members => Fulfilled (member key members)
  | _ => Fulfilled None
  end.

(** Truthiness. *)
Definition truthy (v : value) : bool :=
  match v with
  | None => false
  | Some JNull => false
  | Some (JBool b) => b
  | Some (JNumber n) => negb (Qeq_bool n 0)
  | Some (JString s) => truthy_string s
  | Some (JArray _) => true
  | Some (JObject _) => true
  end.

(** [v || fallback] *)
Definition or_else (v : value) (fallback : json) : json :=
  match v with
  | Some j => if truthy v then j else fallback
  | None => fallback
  end.

(** An object literal as [JSON.stringify] writes it: members whose value
    is [undefined] are left out. *)
Fixpoint object_of (fields : list (string * value)) : list (string * json) :=
  match fields with
  | [] => []
  | (k, Some v) :: rest => (k, v) :: object_of rest
  | (_, None) :: rest => object_of rest
  end.

Definition strings (l : list string) : json := JArray (map JString l).

(** The text of a chat completion, seen through [JSON.parse]: either a
    text [JSON.parse] rejects, or a text that denotes a JSON value. *)
Inductive Content : Type :=
| NotJson (text : string)
| JsonText (denotes : json).

(** [!content] for a content that is a string. *)
Definition is_empty (c : Content) : bool :=
  match c with
  | NotJson text => negb (truthy_string text)
  | JsonText _ => false
  end.

Definition JSON_parse (c : Content) : Promise json :=
  match c with
  | NotJson _ => Rejected "SyntaxError: Unexpected token in JSON"
  | JsonText j => Fulfilled j
  end.

End Json.

(* ------------------------------------------------------------------ *)
(** ** Shared types (types.ts) *)

Module Types.
Import Js.

Inductive Competition : Type := low | medium | high.

(** [KeywordData]: raw keyword data from Keyword Planner or estimates. *)
Record KeywordData : Type := mkKeywordData {
  kd_keyword : string;
  kd_monthlySearches : number;
  kd_avgCpc : number;
  kd_competition : Competition;
  kd_service : string;
  kd_city : option string
}.

(** [MarketAnalysisRequest]: what the app sends to POST /api/analyze. *)
Record MarketAnalysisRequest : Type := mkMarketAnalysisRequest {
  rq_services : list string;
  rq_zipCode : string;
  rq_targetCities : option (list string);
  rq_radiusMiles : option number;
  rq_websiteUrl : option string
}.

(** [PlacesCompetitor]: raw competitor data from Google Places. *)
Record PlacesCompetitor : Type := mkPlacesCompetitor {
  pc_placeId : string;
  pc_name : string;
  pc_rating : option number;
  pc_reviewCount : option number;
  pc_address : option string;
  pc_lat : number;
  pc_lng : number;
  pc_types : list string
}.

Record SerpAd : Type := mkSerpAd {
  ad_title : string; ad_description : string; ad_displayUrl : string; ad_position : number
}.
Record SerpOrganic : Type := mkSerpOrganic {
  og_title : string; og_url : string; og_snippet : string; og_position : number
}.
Record SerpLocalPack : Type := mkSerpLocalPack {
  lp_name : string; lp_rating : option number; lp_reviewCount : option number;
  lp_address : option string
}.

(** [SerpResult]: raw SERP data from Serper.dev. *)
Record SerpResult : Type := mkSerpResult {
  sr_query : string;
  sr_ads : list SerpAd;
  sr_organic : list SerpOrganic;
  sr_localPack : list SerpLocalPack
}.

Record CrmServiceBreakdown : Type := mkCrmServiceBreakdown {
  sb_service : string; sb_quoteCount : number; sb_winRate : number;
  sb_avgDealSize : number; sb_totalRevenue : number
}.
Record CrmCityCount : Type := mkCrmCityCount {
  cc_city : string; cc_quoteCount : number
}.

Record CrmSnapshot : Type := mkCrmSnapshot {
  crm_totalQuotes : number;
  crm_wonQuotes : number;
  crm_totalRevenue : number;
  crm_avgDealSize : number;
  crm_serviceBreakdown : list CrmServiceBreakdown;
  crm_topCities : list CrmCityCount
}.

(** An ISO date string, kept as the instant it denotes; [EmptyDate] is
    the empty string. *)
Inductive DateString : Type :=
| Iso (instant : Z)
| EmptyDate.

Record UsageQuota : Type := mkUsageQuota {
  used : Z;
  limit : Z;
  remaining : Z;
  periodStart : DateString;
  periodEnd : DateString
}.

(** [PlanGenerationRequest]: what the app sends to POST /api/plan
    ([businessHours] is carried by the request and read by no code). *)
Record PlanGenerationRequest : Type := mkPlanGenerationRequest {
  pr_analysisId : string;
  pr_selectedServices : list string;
  pr_selectedCities : list string;
  pr_dailyBudget : number;
  pr_hardCap : number;
  pr_phoneNumber : string
}.

End Types.

(* ------------------------------------------------------------------ *)
(** ** Keyword estimates provider (providers/keyword-estimates.ts) *)

Module KeywordEstimates.
Import Js Types.

Record ServiceEstimate : Type := mkServiceEstimate {
  cpcRange : number * number;
  volumeRange : number * number;
  competition : Competition;
  keywords : list string
}.

Definition SERVICE_ESTIMATES : list (string * ServiceEstimate) :=
  [ ("exterior painting",
     mkServiceEstimate (12, 32) (400, 2400) high
       [ "exterior painting"; "exterior house painting";
         "exterior painter near me"; "outside house painting";
         "home exterior painting"; "house painting" ]);
    ("interior painting",
     mkServiceEstimate (8, 22) (300, 1800) medium
       [ "interior painting"; "interior house painting";
         "interior painter near me"; "room painting";
         "indoor painting"; "house painting interior" ]);
    ("cabinet painting",
     mkServiceEstimate (6, 18) (120, 700) low
       [ "cabinet painting"; "kitchen cabinet painting";
         "cabinet refinishing"; "cabinet painter near me";
         "paint kitchen cabinets" ]);
    ("commercial painting",
     mkServiceEstimate (10, 28) (80, 500) medium
       [ "commercial painting"; "commercial painter"; "office painting";
         "business painting"; "commercial painting contractor" ]);
    ("deck staining",
     mkServiceEstimate (5, 15) (100, 600) low
       [ "deck staining"; "deck refinishing"; "deck stain near me";
         "wood deck staining"; "deck restoration" ]) ].

Definition MAX_COMPETITORS_SIGNAL : number := 20.
Definition MAX_AVG_REVIEWS_SIGNAL : number := 400.
Definition COMPETITOR_COUNT_WEIGHT : number := 0.35.
Definition REVIEW_DENSITY_WEIGHT : number := 0.65.

Definition calculateMarketFactor (competitorCount avgReviewCount : number) : number :=
  let countFactor := Math_min (competitorCount / MAX_COMPETITORS_SIGNAL) 1 in
  let reviewFactor := Math_min (avgReviewCount / MAX_AVG_REVIEWS_SIGNAL) 1 in
  Math_round ((countFactor * COMPETITOR_COUNT_WEIGHT
               + reviewFactor * REVIEW_DENSITY_WEIGHT) * 100) / 100.

Definition interpolate (range : number * number) (factor : number) : number :=
  Math_round ((fst range + (snd range - fst range) * factor) * 100) / 100.

(** The provider object: its only field is [marketFactor]. *)
Record EstimateMarketDataProvider : Type := mkProvider {
  marketFactor : number
}.

(** [new EstimateMarketDataProvider()]: [marketFactor = 0.5]. *)
Definition new_EstimateMarketDataProvider : EstimateMarketDataProvider :=
  mkProvider 0.5.

Definition setMarketFactor (this : EstimateMarketDataProvider) (factor : number)
  : EstimateMarketDataProvider :=
  mkProvider (Math_max 0 (Math_min 1 factor)).

(** What [SERVICE_ESTIMATES[key]] evaluates to.  The table is an object
    literal, so besides its own five keys the lookup also reaches the
    members of [Object.prototype]; of those only the names left unchanged by
    [toLowerCase] can be asked for here, and both are truthy values without
    a [cpcRange]. *)
Inductive TableEntry : Type :=
| OwnEntry (e : ServiceEstimate)
| PrototypeMember
| NoEntry.

Fixpoint assoc (key : string) (table : list (string * ServiceEstimate))
  : option ServiceEstimate :=
  match table with
  | [] => None
  | (k, e) :: rest => if String.eqb k key then Some e else assoc key rest
  end.

Definition table_get (key : string) : TableEntry :=
  match assoc key SERVICE_ESTIMATES with
  | Some e => OwnEntry e
  | None =>
      if String.eqb key "constructor" || String.eqb key "__proto__"
      then PrototypeMember else NoEntry
  end.

Definition findServiceEstimates (normalizedService : string) : TableEntry :=
  match table_get normalizedService with
  | NoEntry =>
      match find (fun entry => includes normalizedService (fst entry)
                               || includes (fst entry) normalizedService)
                 SERVICE_ESTIMATES with
      | Some m => OwnEntry (snd m)
      | None => NoEntry
      end
  | hit => hit
  end.

Definition GENERIC_CPC_RANGE : number * number := (8, 20).
Definition GENERIC_VOLUME_RANGE : number * number := (80, 400).
Definition CITY_CPC_UPLIFT : number := 1.15.
Definition CITY_VOLUME_FRACTION : number := 0.25.
Definition CITY_VOLUME_BASE : number := 0.20.
Definition CITY_VOLUME_FACTOR : number := 0.15.

Definition generateGenericEstimates (this : EstimateMarketDataProvider)
    (service : string) (cities : list string) : list KeywordData :=
  let factor := marketFactor this in
  let baseCpc := interpolate GENERIC_CPC_RANGE factor in
  let baseVolume := Math_round (interpolate GENERIC_VOLUME_RANGE factor) in
  let baseKeywords :=
    [ toLowerCase service;
      toLowerCase service ++ " near me";
      toLowerCase service ++ " contractor";
      toLowerCase service ++ " services" ]%string in
  flat_map (fun keyword =>
      mkKeywordData keyword baseVolume baseCpc medium service None
      :: map (fun city =>
            mkKeywordData (keyword ++ " " ++ city)%string
              (Math_round (baseVolume * CITY_VOLUME_FRACTION))
              (Math_round (baseCpc * CITY_CPC_UPLIFT * 100) / 100)
              medium service (Some city))
           cities)
    baseKeywords.

(** The entries pushed for a service with a template. *)
Definition templateEstimates (factor : number) (estimates : ServiceEstimate)
    (service : string) (cities : list string) : list KeywordData :=
  let baseCpc := interpolate (cpcRange estimates) factor in
  let baseVolume := Math_round (interpolate (volumeRange estimates) factor) in
  flat_map (fun keyword =>
      mkKeywordData keyword baseVolume baseCpc (competition estimates) service None
      :: map (fun city =>
            let cityFraction := CITY_VOLUME_BASE + factor * CITY_VOLUME_FACTOR in
            mkKeywordData (keyword ++ " " ++ city)%string
              (Math_round (baseVolume * cityFraction))
              (Math_round (baseCpc * CITY_CPC_UPLIFT * 100) / 100)
              (competition estimates) service (Some city))
           cities)
    (keywords estimates).

(** The [for (const service of services)] loop of [getKeywordData];
    [results] is the array built so far. *)
Fixpoint getKeywordData_loop (this : EstimateMarketDataProvider)
    (cities : list string) (services : list string) (results : list KeywordData)
  : Promise (list KeywordData) :=
  match services with
  | [] => Fulfilled results
  | service :: rest =>
      match findServiceEstimates (toLowerCase service) with
      | NoEntry =>
          getKeywordData_loop this cities rest
            (results ++ generateGenericEstimates this service cities)
      | PrototypeMember =>
          Rejected "TypeError: Cannot read properties of undefined (reading '0')"
      | OwnEntry estimates =>
          getKeywordData_loop this cities rest
            (results ++ templateEstimates (marketFactor this) estimates service cities)
      end
  end.

Definition getKeywordData (this : EstimateMarketDataProvider)
    (services cities : list string) (_state : string)
  : Promise (list KeywordData) :=
  getKeywordData_loop this cities services [].

End KeywordEstimates.

(* ------------------------------------------------------------------ *)
(** ** The world a request runs in: database, faults, console *)

Module Runtime.
Import Js Json Types.

(** Rows of [growth_usage_log], [growth_market_analyses] and
    [growth_campaign_plans] (the columns the worker reads or writes). *)
Record UsageRow : Type := mkUsageRow {
  ul_account_id : string;
  ul_user_id : string;
  ul_event_type : string;
  ul_metadata : json;
  ul_created_at : Z
}.

Record AnalysisRow : Type := mkAnalysisRow {
  ma_id : string;
  ma_account_id : string;
  ma_user_id : string;
  ma_request_data : MarketAnalysisRequest;
  ma_result_data : json;
  ma_created_at : Z
}.

Record PlanRow : Type := mkPlanRow {
  cp_id : string;
  cp_account_id : string;
  cp_user_id : string;
  cp_analysis_id : string;
  cp_plan_data : json;
  cp_created_at : Z
}.

Record Database : Type := mkDatabase {
  growth_usage_log : list UsageRow;
  growth_market_analyses : list AnalysisRow;
  growth_campaign_plans : list PlanRow
}.

Inductive Event : Type :=
| console_error (line : string)
| db_query (table verb : string) (account : string) (error : option string).

(** [supabase] is the module-level client of db.ts: [None] until [initDb]
    ran.  [fault table verb] is the error, if any, with which the database
    answers a query of that kind.  [gen_random_uuid] and [uuid_calls] give
    the primary keys, [db_now] the [now()] of inserted rows. *)
Record World : Type := mkWorld {
  supabase : option Database;
  fault : string -> string -> option string;
  gen_random_uuid : nat -> string;
  uuid_calls : nat;
  db_now : Z;
  trace : list Event
}.

Definition M (A : Type) : Type := World -> Promise A * World.

Definition ret {A : Type} (a : A) : M A := fun w => (Fulfilled a, w).

Definition throw {A : Type} (message : string) : M A :=
  fun w => (Rejected message, w).

Definition bind {A B : Type} (m : M A) (k : A -> M B) : M B :=
  fun w =>
    match m w with
    | (Fulfilled a, w') => k a w'
    | (Rejected e, w') => (Rejected e, w')
    end.

(** [try { m } catch (err) { handler(err) }] *)
Definition try_catch {A : Type} (m : M A) (handler : string -> M A) : M A :=
  fun w =>
    match m w with
    | (Fulfilled a, w') => (Fulfilled a, w')
    | (Rejected e, w') => handler e w'
    end.

(** Awaiting a promise whose outcome an oracle gives. *)
Definition await {A : Type} (p : Promise A) : M A := fun w => (p, w).

(** The world with [events] added to its trace. *)
Definition logged (w : World) (events : list Event) : World :=
  mkWorld (supabase w) (fault w) (gen_random_uuid w) (uuid_calls w)
          (db_now w) (trace w ++ events).

Definition emit (e : Event) : M unit :=
  fun w => (Fulfilled tt, logged w [e]).

(** The events a computation adds to the trace of the world it starts in. *)
Definition events_of {A : Type} (m : M A) (w : World) : list Event :=
  skipn (List.length (trace w)) (trace (snd (m w))).

Definition set_database (db : Database) : M unit :=
  fun w => (Fulfilled tt,
            mkWorld (Some db) (fault w) (gen_random_uuid w) (uuid_calls w)
                    (db_now w) (trace w)).

Definition fresh_uuid : M string :=
  fun w => (Fulfilled (gen_random_uuid w (uuid_calls w)),
            mkWorld (supabase w) (fault w) (gen_random_uuid w) (S (uuid_calls w))
                    (db_now w) (trace w)).

Definition get_fault (table verb : string) : M (option string) :=
  fun w => (Fulfilled (fault w table verb), w).

Definition get_db_now : M Z := fun w => (Fulfilled (db_now w), w).

End Runtime.

Declare Scope js_scope.
Delimit Scope js_scope with js.
Notation "x <- m ;; k" := (Runtime.bind m (fun x => k))
  (at level 61, m at next level, right associativity) : js_scope.
Notation "m ;;; k" := (Runtime.bind m (fun _ => k))
  (at level 61, right associativity) : js_scope.

(* ------------------------------------------------------------------ *)
(** ** Database access (db.ts) *)

Module Db.
Import Js Json Types Runtime.
Local Open Scope js_scope.

(** Monthly analysis quota per account. *)
Definition DEFAULT_MONTHLY_QUOTA : Z := 10.

Definition getDb : M Database :=
  fun w =>
    match supabase w with
    | Some db => (Fulfilled db, w)
    | None => (Rejected "DB not initialized — call initDb() first", w)
    end.

(** The current calendar month as [getUsageQuota] computes it from
    [new Date()]: its first instant and its last day. *)
Record Month : Type := mkMonth {
  startOfMonth : Z;
  endOfMonth : Z
}.

(** [select('id', { count: 'exact', head: true }).eq('account_id', a)
    .gte('created_at', start)] *)
Definition count_usage (db : Database) (accountId : string) (start : Z) : Z :=
  Z.of_nat (List.length
    (filter (fun r => String.eqb (ul_account_id r) accountId
                      && (start <=? ul_created_at r)%Z)
            (growth_usage_log db))).

Definition getUsageQuota (month : Month) (accountId : string) : M UsageQuota :=
  db <- getDb ;;
  error <- get_fault "growth_usage_log" "select" ;;
  emit (db_query "growth_usage_log" "select" accountId error) ;;;
  match error with
  | Some message =>
      emit (console_error ("[Usage] CRITICAL: Error checking quota: " ++ message)) ;;;
      (* Fail closed - deny access when we can't verify quota *)
      ret (mkUsageQuota DEFAULT_MONTHLY_QUOTA DEFAULT_MONTHLY_QUOTA 0
                        (Iso (startOfMonth month)) EmptyDate)
  | None =>
      let limit := DEFAULT_MONTHLY_QUOTA in
      (* count || 0 *)
      let used := count_usage db accountId (startOfMonth month) in
      ret (mkUsageQuota used limit (Z.max 0 (limit - used))
                        (Iso (startOfMonth month)) (Iso (endOfMonth month)))
  end.

Definition logUsageEvent (accountId userId eventType : string) (metadata : json)
  : M unit :=
  db <- getDb ;;
  error <- get_fault "growth_usage_log" "insert" ;;
  emit (db_query "growth_usage_log" "insert" accountId error) ;;;
  match error with
  | Some message =>
      emit (console_error ("[Usage] Error logging event: " ++ message))
  | None =>
      now <- get_db_now ;;
      set_database
        (mkDatabase
           (growth_usage_log db ++ [mkUsageRow accountId userId eventType metadata now])
           (growth_market_analyses db)
           (growth_campaign_plans db))
  end.

(** [data?.id || null] for the inserted row. *)
Definition id_or_null (id : string) : option string :=
  if truthy_string id then Some id else None.

Definition saveMarketAnalysis (accountId userId : string)
    (requestData : MarketAnalysisRequest) (resultData : json)
  : M (option string) :=
  db <- getDb ;;
  error <- get_fault "growth_market_analyses" "insert" ;;
  emit (db_query "growth_market_analyses" "insert" accountId error) ;;;
  match error with
  | Some message =>
      emit (console_error ("[DB] Error saving analysis: " ++ message)) ;;;
      ret None
  | None =>
      id <- fresh_uuid ;;
      now <- get_db_now ;;
      set_database
        (mkDatabase
           (growth_usage_log db)
           (growth_market_analyses db
              ++ [mkAnalysisRow id accountId userId requestData resultData now])
           (growth_campaign_plans db)) ;;;
      ret (id_or_null id)
  end.

Definition saveCampaignPlan (accountId userId analysisId : string) (planData : json)
  : M (option string) :=
  db <- getDb ;;
  error <- get_fault "growth_campaign_plans" "insert" ;;
  emit (db_query "growth_campaign_plans" "insert" accountId error) ;;;
  match error with
  | Some message =>
      emit (console_error ("[DB] Error saving plan: " ++ message)) ;;;
      ret None
  | None =>
      id <- fresh_uuid ;;
      now <- get_db_now ;;
      set_database
        (mkDatabase
           (growth_usage_log db)
           (growth_market_analyses db)
           (growth_campaign_plans db
              ++ [mkPlanRow id accountId userId analysisId planData now])) ;;;
      ret (id_or_null id)
  end.

(** [from('growth_market_analyses').select(...).eq('id', id)
    .eq('account_id', accountId).single()]: the row, or an error when the
    database faults or the filter does not leave exactly one row. *)
Definition select_analysis_single (analysisId accountId : string)
  : M (option AnalysisRow * option string) :=
  db <- getDb ;;
  error <- get_fault "growth_market_analyses" "select" ;;
  let outcome :=
    match error with
    | Some message => (None, Some message)
    | None =>
        match filter (fun r => String.eqb (ma_id r) analysisId
                               && String.eqb (ma_account_id r) accountId)
                     (growth_market_analyses db) with
        | [row] => (Some row, None)
        | _ => (None, Some "JSON object requested, multiple (or no) rows returned")
        end
    end in
  emit (db_query "growth_market_analyses" "select" accountId (snd outcome)) ;;;
  ret outcome.

End Db.

(* ------------------------------------------------------------------ *)
(** ** Usage/quota middleware (middleware/usage.ts) *)

Module Usage.
Import Js Json Types Runtime Db.
Local Open Scope js_scope.

Record AuthContext : Type := mkAuthContext {
  accountId : string;
  userId : string
}.

(** What the middleware did with the request: called [next()], or sent a
    response.  [attached] is [req.usageQuota] afterwards. *)
Inductive Outcome : Type :=
| next (attached : option UsageQuota)
| respond (status : Z) (body : json) (attached : option UsageQuota).

Definition quota_exceeded_body (quota : UsageQuota) : json :=
  JObject
    [ ("error", JString "Monthly analysis quota exceeded");
      ("quota",
       JObject
         [ ("used", JNumber (inject_Z (used quota)));
           ("limit", JNumber (inject_Z (limit quota)));
           ("resetsAt",
            match periodEnd quota with
            | Iso t => JNumber (inject_Z t)
            | EmptyDate => JString ""
            end) ]) ].

(** [process.env.NAME === text] *)
Definition env_is (variable : option string) (text : string) : bool :=
  match variable with
  | Some v => String.eqb v text
  | None => false
  end.

(** [DEV_BYPASS_AUTH] is [process.env.DEV_BYPASS_AUTH]; [auth] is
    [req.auth], set by the auth middleware that runs before this one. *)
Definition createUsageMiddleware (DEV_BYPASS_AUTH : option string) (month : Month)
    (auth : option AuthContext) : M Outcome :=
  try_catch
    (if env_is DEV_BYPASS_AUTH "true" then
       (* Skip quota checks in dev bypass mode *)
       ret (next (Some (mkUsageQuota 0 999 999 EmptyDate EmptyDate)))
     else
       match auth with
       | None =>
           ret (respond 401 (JObject [("error", JString "Not authenticated")]) None)
       | Some a =>
           quota <- getUsageQuota month (accountId a) ;;
           (* Attach quota info to request for route handlers *)
           if (remaining quota <=? 0)%Z
           then ret (respond 429 (quota_exceeded_body quota) (Some quota))
           else ret (next (Some quota))
       end)
    (fun err =>
       emit (console_error ("[Usage] Middleware error: " ++ err)) ;;;
       (* Fail open - don't block the user if quota check fails *)
       ret (next None)).

End Usage.

(* ------------------------------------------------------------------ *)
(** ** Provider interfaces (providers/interfaces.ts) *)

Module Interfaces.
Import Js Json Types.

Record MarketDataProvider : Type := mkMarketDataProvider {
  getKeywordData : list string -> list string -> string -> Promise (list KeywordData)
}.

(** [getSerpResults] is an optional method: [None] when the object has
    none. *)
Record CompetitorProvider : Type := mkCompetitorProvider {
  getCompetitors : string -> option number -> Promise (list PlacesCompetitor);
  getSerpResults : option (string -> string -> Promise (option SerpResult))
}.

Record LlmMarketAnalysisInput : Type := mkLlmMarketAnalysisInput {
  in_services : list string;
  in_zipCode : string;
  in_keywords : list KeywordData;
  in_competitors : list PlacesCompetitor;
  in_serpResults : list SerpResult;
  in_crmData : option CrmSnapshot;
  in_websiteUrl : option string;
  in_websiteContent : option string
}.

(** The [marketAnalysis] member of [LlmPlanInput]; its members hold
    whatever the stored analysis holds. *)
Record PlanMarketAnalysis : Type := mkPlanMarketAnalysis {
  pm_summary : json;
  pm_serviceOpportunities : json;
  pm_competitors : json;
  pm_budgetRecommendation : json
}.

Record LlmPlanInput : Type := mkLlmPlanInput {
  pi_marketAnalysis : PlanMarketAnalysis;
  pi_selectedServices : list string;
  pi_selectedCities : list string;
  pi_dailyBudget : number;
  pi_hardCap : number;
  pi_phoneNumber : string
}.

(** The outputs are declared as [LlmMarketAnalysisOutput] and
    [LlmPlanOutput]; at run time they are what [JSON.parse] returned. *)
Record LlmProvider : Type := mkLlmProvider {
  synthesizeMarketAnalysis : LlmMarketAnalysisInput -> Promise json;
  generateCampaignPlan : LlmPlanInput -> Promise json
}.

End Interfaces.

(* ------------------------------------------------------------------ *)
(** ** OpenAI provider (providers/openai-llm.ts) *)

Module OpenAiLlm.
Import Js Json Types Interfaces.

Definition sum (l : list number) : number := fold_left Qplus l 0.

(** [Math.min(...l)] and [Math.max(...l)] for a non-empty [l]. *)
Definition min_of (l : list number) : option number :=
  match l with
  | [] => None
  | x :: rest => Some (fold_left Math_min rest x)
  end.
Definition max_of (l : list number) : option number :=
  match l with
  | [] => None
  | x :: rest => Some (fold_left Math_max rest x)
  end.

(** The numeric guidance computed from the keyword CPCs and written into
    the prompt. *)
Record Guidance : Type := mkGuidance {
  hasKeywordData : bool;
  avgCpc : option number;
  minCpc : option number;
  maxCpc : option number;
  suggestedDailyLow : option number;
  suggestedDailyHigh : option number
}.

Definition guidance (input : LlmMarketAnalysisInput) : Guidance :=
  let cpcValues :=
    filter (fun c => negb (Qle_bool c 0)) (map kd_avgCpc (in_keywords input)) in
  let hasKeywordData := (0 <? List.length cpcValues)%nat in
  let avgCpc :=
    if hasKeywordData
    then Some (Math_round (sum cpcValues / inject_Z (Z.of_nat (List.length cpcValues)) * 100) / 100)
    else None in
  let scaled (k : number) :=
    match avgCpc with
    | Some a => if Qeq_bool a 0 then None else Some (Math_round (a * k))
    | None => None
    end in
  mkGuidance hasKeywordData avgCpc
    (if hasKeywordData then min_of cpcValues else None)
    (if hasKeywordData then max_of cpcValues else None)
    (scaled 3) (scaled 8).

(** [response.choices[0]?.message?.content] and what follows it. *)
Definition read_completion (response : Promise (option Content)) : Promise json :=
  match response with
  | Rejected e => Rejected e
  | Fulfilled None => Rejected "LLM returned empty response"
  | Fulfilled (Some content) =>
      if is_empty content then Rejected "LLM returned empty response"
      else JSON_parse content
  end.

(** The chat-completions endpoint, as an oracle: the content of the first
    choice for the prompt built from the guidance and the input ([None]
    when a link of [choices[0]?.message?.content] is missing). *)
Record OpenAiClient : Type := mkOpenAiClient {
  create_analysis : Guidance -> LlmMarketAnalysisInput -> Promise (option Content);
  create_plan : list json -> LlmPlanInput -> Promise (option Content)
}.

Definition synthesizeMarketAnalysis (client : OpenAiClient)
    (input : LlmMarketAnalysisInput) : Promise json :=
  read_completion (create_analysis client (guidance input) input).

(** [competitors.filter(c => c.insight)]: the receiver must be an array,
    and reading [insight] from a [null] element throws. *)
Fixpoint filter_insight (items : list json) : Promise (list json) :=
  match items with
  | [] => Fulfilled []
  | c :: rest =>
      match get c "insight" with
      | Rejected e => Rejected e
      | Fulfilled insight =>
          match filter_insight rest with
          | Rejected e => Rejected e
          | Fulfilled kept => Fulfilled (if truthy insight then c :: kept else kept)
          end
      end
  end.

Definition competitorInsights (competitors : json) : Promise (list json) :=
  match competitors with
  | JArray items => filter_insight items
  | _ => Rejected "TypeError: input.marketAnalysis.competitors.filter is not a function"
  end.

Definition generateCampaignPlan (client : OpenAiClient) (input : LlmPlanInput)
  : Promise json :=
  match competitorInsights (pm_competitors (pi_marketAnalysis input)) with
  | Rejected e => Rejected e
  | Fulfilled insights => read_completion (create_plan client insights input)
  end.

Definition OpenAiLlmProvider (client : OpenAiClient) : LlmProvider :=
  mkLlmProvider (synthesizeMarketAnalysis client) (generateCampaignPlan client).

End OpenAiLlm.

(* ------------------------------------------------------------------ *)
(** ** Configuration (config.ts) *)

Module Configuration.

Record Config : Type := mkConfig {
  openaiApiKey : string;
  openaiModel : string;
  googlePlacesApiKey : string;
  googleAdsDeveloperToken : string;
  googleAdsClientId : string;
  googleAdsClientSecret : string;
  googleAdsRefreshToken : string;
  googleAdsMccCustomerId : string;
  serperApiKey : string;
  serpEnabled : bool
}.

End Configuration.

(* ------------------------------------------------------------------ *)
(** ** Google Ads Keyword Planner provider
       (providers/google-ads-keyword-planner.ts) *)

Module GoogleAdsKeywordPlanner.
Import Js Json Types Interfaces Configuration.

Definition US_GEO_TARGET : string := "geoTargetConstants/2840".

(** [enums.KeywordPlanCompetitionLevel] of the google-ads-api package. *)
Definition LEVEL_LOW : Z := 2.
Definition LEVEL_MEDIUM : Z := 3.
Definition LEVEL_HIGH : Z := 4.

Definition mapCompetition (level : option Z) : Competition :=
  match level with
  | Some l =>
      if (l =? LEVEL_LOW)%Z then low
      else if (l =? LEVEL_MEDIUM)%Z then medium
      else if (l =? LEVEL_HIGH)%Z then high
      else medium
  | None => medium
  end.

Definition microsToDollars (micros : option Z) : number :=
  match micros with
  | None => 0
  | Some m =>
      if (m =? 0)%Z then 0
      else Math_round ((inject_Z m / 1000000) * 100) / 100
  end.

Definition PAINTING_SEED_KEYWORDS : list (string * list string) :=
  [ ("exterior painting", ["exterior painting"; "house painting exterior"; "exterior painter"]);
    ("interior painting", ["interior painting"; "house painting interior"; "interior painter"]);
    ("cabinet painting", ["cabinet painting"; "kitchen cabinet painting"; "cabinet refinishing"]);
    ("commercial painting", ["commercial painting"; "commercial painter"; "office painting"]);
    ("deck staining", ["deck staining"; "deck refinishing"; "deck restoration"]);
    ("pressure washing", ["pressure washing"; "power washing"; "pressure washing service"]);
    ("drywall repair", ["drywall repair"; "drywall contractor"; "drywall patching"]);
    ("wallpaper", ["wallpaper installation"; "wallpaper removal"; "wallpaper hanger"]);
    ("epoxy flooring", ["epoxy flooring"; "garage floor epoxy"; "epoxy coating"]);
    ("stucco", ["stucco repair"; "stucco painting"; "stucco contractor"]) ].

Record KeywordIdeaMetrics : Type := mkKeywordIdeaMetrics {
  average_cpc_micros : option Z;
  avg_monthly_searches : option Z;
  competition : option Z
}.

Record KeywordIdea : Type := mkKeywordIdea {
  text : option string;
  keyword_idea_metrics : option KeywordIdeaMetrics
}.

(** The Google Ads API as an oracle, called with the credentials of
    [config].  [generateKeywordIdeas config seeds geoTargets] is the
    [results] of the response ([None] when the response or its [results] is
    missing); [suggestGeoTargetConstants config city] is the resource name
    of the first suggestion, if there is one. *)
Record GoogleAdsApi : Type := mkGoogleAdsApi {
  generateKeywordIdeas :
    Config -> list string -> list string -> Promise (option (list KeywordIdea));
  suggestGeoTargetConstants : Config -> string -> Promise (option string)
}.

Definition isConfigured (config : Config) : bool :=
  truthy_string (googleAdsDeveloperToken config)
  && truthy_string (googleAdsClientId config)
  && truthy_string (googleAdsClientSecret config)
  && truthy_string (googleAdsRefreshToken config)
  && truthy_string (googleAdsMccCustomerId config).

Fixpoint seeds_assoc (key : string) (table : list (string * list string))
  : option (list string) :=
  match table with
  | [] => None
  | (k, v) :: rest => if String.eqb k key then Some v else seeds_assoc key rest
  end.

(** [getSeedKeywords]; [None] is the case where the direct lookup lands on
    a member of [Object.prototype], which is returned as if it were the
    seed list. *)
Definition getSeedKeywords (service : string) : option (list string) :=
  let normalized := toLowerCase service in
  match seeds_assoc normalized PAINTING_SEED_KEYWORDS with
  | Some seeds => Some seeds
  | None =>
      if String.eqb normalized "constructor" || String.eqb normalized "__proto__"
      then None
      else
        match find (fun entry => includes normalized (fst entry)
                                 || includes (fst entry) normalized)
                   PAINTING_SEED_KEYWORDS with
        | Some m => Some (snd m)
        | None =>
            Some [ normalized; normalized ++ " near me";
                   normalized ++ " contractor" ]%string
        end
  end.

(** The geo-target cache of the provider object: city to resource name. *)
Definition GeoTargetCache := list (string * string).

Fixpoint cache_get (city : string) (cache : GeoTargetCache) : option string :=
  match cache with
  | [] => None
  | (k, v) :: rest => if String.eqb k city then Some v else cache_get city rest
  end.

Fixpoint resolveGeoTargets_loop (api : GoogleAdsApi) (config : Config)
    (cities : list string) (cache : GeoTargetCache) (resolved : list string)
  : list string * GeoTargetCache :=
  match cities with
  | [] => (resolved, cache)
  | city :: rest =>
      match cache_get city cache with
      | Some hit => resolveGeoTargets_loop api config rest cache (resolved ++ [hit])
      | None =>
          match suggestGeoTargetConstants api config city with
          | Fulfilled (Some resourceName) =>
              if truthy_string resourceName
              then resolveGeoTargets_loop api config rest
                     ((city, resourceName) :: cache) (resolved ++ [resourceName])
              else resolveGeoTargets_loop api config rest cache resolved
          | Fulfilled None => resolveGeoTargets_loop api config rest cache resolved
          | Rejected _ => resolveGeoTargets_loop api config rest cache resolved
          end
      end
  end.

Definition resolveGeoTargets (api : GoogleAdsApi) (config : Config)
    (cities : list string) (cache : GeoTargetCache) : list string * GeoTargetCache :=
  resolveGeoTargets_loop api config cities cache [].

(** The entry pushed for one keyword idea, if any. *)
Definition idea_entry (cities : list string) (service : string) (idea : KeywordIdea)
  : option KeywordData :=
  match keyword_idea_metrics idea with
  | None => None
  | Some metrics =>
      let keyword := match text idea with Some t => t | None => "" end in
      let avgCpc := microsToDollars (average_cpc_micros metrics) in
      let monthlySearches :=
        inject_Z (match avg_monthly_searches metrics with Some n => n | None => 0%Z end) in
      if Qeq_bool monthlySearches 0 && Qeq_bool avgCpc 0 then None
      else
        let matchedCity :=
          find (fun city => includes (toLowerCase keyword) (toLowerCase city)) cities in
        Some (mkKeywordData keyword monthlySearches avgCpc
                (mapCompetition (competition metrics)) service
                (match matchedCity with
                 | Some c => if truthy_string c then Some c else None
                 | None => None
                 end))
  end.

Fixpoint ideas_entries (cities : list string) (service : string)
    (ideas : list KeywordIdea) : list KeywordData :=
  match ideas with
  | [] => []
  | idea :: rest =>
      match idea_entry cities service idea with
      | Some entry => entry :: ideas_entries cities service rest
      | None => ideas_entries cities service rest
      end
  end.

(** The [for (const service of services)] loop; a fault inside the [try]
    (the request is rejected, or the seed list is no array and cannot be
    joined) leaves the results as they are and goes on with the next
    service. *)
Fixpoint keywordIdeas_loop (api : GoogleAdsApi) (config : Config)
    (geoTargetConstants cities services : list string) (results : list KeywordData)
  : list KeywordData :=
  match services with
  | [] => results
  | service :: rest =>
      match getSeedKeywords service with
      | None => keywordIdeas_loop api config geoTargetConstants cities rest results
      | Some seedKeywords =>
          match generateKeywordIdeas api config seedKeywords geoTargetConstants with
          | Fulfilled (Some (idea :: ideas)) =>
              keywordIdeas_loop api config geoTargetConstants cities rest
                (results ++ ideas_entries cities service (idea :: ideas))
          | _ => keywordIdeas_loop api config geoTargetConstants cities rest results
          end
      end
  end.

(** [getKeywordData], for a client whose [Customer] constructor returns
    and an API whose errors are [Error] objects with a string message, so
    that the [catch] blocks run through: what is thrown otherwise is not
    part of the model. *)
Definition getKeywordData (api : GoogleAdsApi) (config : Config)
    (cache : GeoTargetCache) (services cities : list string) (_state : string)
  : Promise (list KeywordData) * GeoTargetCache :=
  let (geoTargets, cache') := resolveGeoTargets api config cities cache in
  let geoTargetConstants :=
    match geoTargets with [] => [US_GEO_TARGET] | _ => geoTargets end in
  (Fulfilled (keywordIdeas_loop api config geoTargetConstants cities services []),
   cache').

(** The provider as the analysis service sees it, for a given state of the
    cache. *)
Definition GoogleAdsKeywordPlannerProvider (api : GoogleAdsApi) (config : Config)
    (cache : GeoTargetCache) : MarketDataProvider :=
  mkMarketDataProvider
    (fun services cities state => fst (getKeywordData api config cache services cities state)).

End GoogleAdsKeywordPlanner.

(* ------------------------------------------------------------------ *)
(** ** Competitor providers (providers/google-places.ts, providers/serper.ts) *)

Module CompetitorProviders.
Import Js Json Types Interfaces Configuration.

(** [places zipCode radiusMeters] is the outcome of the geocoding and
    nearby-search requests made inside the [try] of [getCompetitors]. *)
Definition GooglePlacesCompetitorProvider (config : Config)
    (places : string -> number -> Promise (list PlacesCompetitor))
  : CompetitorProvider :=
  mkCompetitorProvider
    (fun zipCode radiusMiles =>
       if negb (truthy_string (googlePlacesApiKey config)) then Fulfilled []
       else
         let miles := match radiusMiles with Some r => r | None => 25 end in
         Fulfilled (catch_value (places zipCode (Math_round (miles * 1609.34))) []))
    (Some (fun _ _ => Fulfilled None)).

(** [serper query location] is the outcome of the search request made
    inside the [try] of [getSerpResults]. *)
Definition SerperCompetitorProvider (config : Config)
    (serper : string -> string -> Promise (option SerpResult))
  : CompetitorProvider :=
  mkCompetitorProvider
    (fun _ _ => Fulfilled [])
    (Some (fun query location =>
       if negb (serpEnabled config) || negb (truthy_string (serperApiKey config))
       then Fulfilled None
       else Fulfilled (catch_value (serper query location) None))).

End CompetitorProviders.

(* ------------------------------------------------------------------ *)
(** ** Website analyzer (services/website-analyzer.ts) *)

Module WebsiteAnalyzer.
Import Js.

(** The line feed of the template literals. *)
Definition LF : string := String (ascii_of_nat 10) EmptyString.

(** [parts.join(separator)] *)
Fixpoint join (separator : string) (parts : list string) : string :=
  match parts with
  | [] => ""
  | [part] => part
  | part :: rest => part ++ separator ++ join separator rest
  end.

(** A whole number as a template literal prints it. *)
Definition decimal (n : nat) : string := NilZero.string_of_uint (Nat.to_uint n).

Definition is_space (c : ascii) : bool :=
  let n := nat_of_ascii c in
  ((9 <=? n)%nat && (n <=? 13)%nat) || (n =? 32)%nat.

Fixpoint trimStart (s : string) : string :=
  match s with
  | EmptyString => EmptyString
  | String c rest => if is_space c then trimStart rest else s
  end.

Fixpoint trimEnd (s : string) : string :=
  match s with
  | EmptyString => EmptyString
  | String c rest =>
      match trimEnd rest with
      | EmptyString => if is_space c then EmptyString else String c EmptyString
      | kept => String c kept
      end
  end.

(** [s.trim()] *)
Definition trim (s : string) : string := trimEnd (trimStart s).

Record Link : Type := mkLink {
  link_text : string;
  link_href : string
}.

(** [WebsiteAnalysisResult]; [error] is [None] while the member is unset. *)
Record WebsiteAnalysisResult : Type := mkWebsiteAnalysisResult {
  url : string;
  title : string;
  metaDescription : string;
  headings : list string;
  navigationLinks : list Link;
  servicePages : list string;
  cityMentions : list string;
  socialProof : list string;
  contactInfo : list string;
  ctaButtons : list string;
  bodyTextSample : string;
  error : option string
}.

(** What the regular expressions of the [try] block took from the HTML
    of a page: the members as the block leaves them.  The matching itself
    is not modelled. *)
Record Extracted : Type := mkExtracted {
  ex_title : string;
  ex_metaDescription : string;
  ex_headings : list string;
  ex_navigationLinks : list Link;
  ex_servicePages : list string;
  ex_socialProof : list string;
  ex_contactInfo : list string;
  ex_ctaButtons : list string;
  ex_bodyTextSample : string
}.

(** A value thrown inside the [try] block: an [Error] with its name and
    message, or something else. *)
Inductive Thrown : Type :=
| an_Error (name message : string)
| not_an_Error.

(** How the [try] block ends for a URL: the response was ok and its text
    was read and searched; the response was not ok; [fetch] or
    [response.text()] threw (a network failure, an invalid URL, the abort
    after ten seconds). *)
Inductive Fetched : Type :=
| page (content : Extracted)
| not_ok (status : nat)
| threw (err : Thrown).

Definition Fetcher : Type := string -> Fetched.

(** The result [analyzeWebsite] starts from. *)
Definition blank (url : string) (error : option string) : WebsiteAnalysisResult :=
  mkWebsiteAnalysisResult url "" "" [] [] [] [] [] [] [] "" error.

(** [analyzeWebsite]: every ending of the [try] block returns the
    result, a failure as its [error] member. *)
Definition analyzeWebsite (fetch : Fetcher) (inputUrl : string)
  : Promise WebsiteAnalysisResult :=
  let url := trim inputUrl in
  let url :=
    if negb (String.prefix "http://" url) && negb (String.prefix "https://" url)
    then "https://" ++ url
    else url in
  match fetch url with
  | not_ok status => Fulfilled (blank url (Some ("HTTP " ++ decimal status)))
  | page content =>
      Fulfilled
        (mkWebsiteAnalysisResult url
           (ex_title content) (ex_metaDescription content) (ex_headings content)
           (ex_navigationLinks content) (ex_servicePages content) []
           (ex_socialProof content) (ex_contactInfo content) (ex_ctaButtons content)
           (ex_bodyTextSample content) None)
  | threw (an_Error name message) =>
      Fulfilled
        (blank url (Some (if String.eqb name "AbortError" then "Timeout (10s)"
                          else message)))
  | threw not_an_Error => Fulfilled (blank url (Some "Unknown error fetching website"))
  end.

Definition truthy_error (error : option string) : bool :=
  match error with
  | Some message => truthy_string message
  | None => false
  end.

Definition link_label (l : Link) : string :=
  link_text l ++ " (" ++ link_href l ++ ")".

Definition is_city_link (l : Link) : bool :=
  includes (toLowerCase (link_href l)) "area"
  || includes (toLowerCase (link_href l)) "city"
  || includes (toLowerCase (link_href l)) "location"
  || includes (toLowerCase (link_href l)) "service-area".

(** The [sections] array of [formatWebsiteForPrompt] before it is
    joined. *)
Definition sections (analysis : WebsiteAnalysisResult) : list string :=
  let cityLinks := filter is_city_link (navigationLinks analysis) in
  ["Website: " ++ url analysis]
  ++ (if truthy_string (title analysis)
      then ["Page Title: " ++ title analysis] else [])
  ++ (if truthy_string (metaDescription analysis)
      then ["Meta Description: " ++ metaDescription analysis] else [])
  ++ (if (0 <? List.length (servicePages analysis))%nat
      then (LF ++ "Service Pages Found ("
               ++ decimal (List.length (servicePages analysis)) ++ "):")
           :: map (fun page => "  - " ++ page) (servicePages analysis)
      else [LF ++ "Service Pages: NONE FOUND"])
  ++ (if (0 <? List.length (headings analysis))%nat
      then (LF ++ "Page Headings:")
           :: map (fun h => "  - " ++ h) (firstn 15 (headings analysis))
      else [])
  ++ (if (0 <? List.length (ctaButtons analysis))%nat
      then [LF ++ "CTAs/Buttons: " ++ join ", " (ctaButtons analysis)]
      else [LF ++ "CTAs/Buttons: NONE FOUND"])
  ++ (if (0 <? List.length (socialProof analysis))%nat
      then [LF ++ "Social Proof/Trust Signals: " ++ join ", " (socialProof analysis)]
      else [LF ++ "Social Proof: NONE FOUND on homepage"])
  ++ (if (0 <? List.length (contactInfo analysis))%nat
      then [LF ++ "Contact Info: " ++ join ", " (contactInfo analysis)]
      else [])
  ++ (if (0 <? List.length cityLinks)%nat
      then [LF ++ "City/Area Pages: " ++ join ", " (map link_label cityLinks)]
      else [])
  ++ (if truthy_string (bodyTextSample analysis)
      then [LF ++ "Page Content Sample:" ++ LF
               ++ substring 0 800 (bodyTextSample analysis)]
      else []).

(** The text [formatWebsiteForPrompt] returns for a result with a truthy
    [error]. *)
Definition error_report (url message : string) : string :=
  "Website: " ++ url ++ LF ++ "Error fetching: " ++ message ++ LF
  ++ "Note: Could not analyze the website. Provide general recommendations.".

Definition formatWebsiteForPrompt (analysis : WebsiteAnalysisResult) : string :=
  match error analysis with
  | Some message =>
      if truthy_string message then error_report (url analysis) message
      else join LF (sections analysis)
  | None => join LF (sections analysis)
  end.

End WebsiteAnalyzer.

(* ------------------------------------------------------------------ *)
(** ** Market analysis service (services/market-analysis.ts) *)

Module MarketAnalysisService.
Import Js Json Types Runtime Db Interfaces.
Local Open Scope js_scope.

(** [getCrmSnapshot] of db.ts is an oracle here, and so is what [fetch]
    answers to [analyzeWebsite]: the quotes tables and the fetched pages
    are not part of the model. *)
Record MarketAnalysisServiceDeps : Type := mkDeps {
  marketData : MarketDataProvider;
  competitors : CompetitorProvider;
  serpProvider : option CompetitorProvider;
  llm : LlmProvider;
  getCrmSnapshot : string -> Promise (option CrmSnapshot);
  fetch : WebsiteAnalyzer.Fetcher
}.

(** [analyzeWebsite(request.websiteUrl).then(result =>
    formatWebsiteForPrompt(result))] *)
Definition websiteReport (deps : MarketAnalysisServiceDeps) (websiteUrl : string)
  : Promise string :=
  match WebsiteAnalyzer.analyzeWebsite (fetch deps) websiteUrl with
  | Fulfilled result => Fulfilled (WebsiteAnalyzer.formatWebsiteForPrompt result)
  | Rejected e => Rejected e
  end.

(** The readings of the clock during one call. *)
Record Clock : Type := mkClock {
  startTime : Z;
  generatedAtTime : Z;
  endTime : Z
}.

Record MarketOverview : Type := mkMarketOverview {
  ov_summary : value;
  ov_competitionLevel : value;
  ov_marketInsight : value;
  ov_websiteAnalysis : value
}.

(** The object [analyze] builds.  Its members are declared with the types
    of types.ts and hold whatever the parsed response holds.  [id] is
    [None] until the identifier is attached; [Some None] is [id: null]. *)
Record MarketAnalysis : Type := mkMarketAnalysis {
  overview : MarketOverview;
  serviceOpportunities : value;
  competitorSnapshots : value;
  recommendedCities : value;
  budgetRecommendation : value;
  dataSourcesUsed : list string;
  generatedAt : DateString;
  id : option (option string)
}.

Definition date_json (d : DateString) : json :=
  match d with
  | Iso t => JNumber (inject_Z t)
  | EmptyDate => JString ""
  end.

Definition nullable_string (s : option string) : json :=
  match s with
  | Some text => JString text
  | None => JNull
  end.

(** The analysis as JSON: what is persisted and what is sent. *)
Definition MarketAnalysis_json (a : MarketAnalysis) : json :=
  JObject (object_of
    [ ("overview",
       Some (JObject (object_of
         [ ("summary", ov_summary (overview a));
           ("competitionLevel", ov_competitionLevel (overview a));
           ("marketInsight", ov_marketInsight (overview a));
           ("websiteAnalysis", ov_websiteAnalysis (overview a)) ])));
      ("serviceOpportunities", serviceOpportunities a);
      ("competitors", competitorSnapshots a);
      ("recommendedCities", recommendedCities a);
      ("budgetRecommendation", budgetRecommendation a);
      ("dataSourcesUsed", Some (strings (dataSourcesUsed a)));
      ("generatedAt", Some (date_json (generatedAt a)));
      ("id", option_map nullable_string (id a)) ]).

Definition getDataSourcesUsed (keywordCount competitorCount serpCount : nat)
    (hasCrm : bool) : list string :=
  (if (0 <? keywordCount)%nat then ["google_ads_keyword_planner"] else [])
  ++ (if (0 <? competitorCount)%nat then ["google_places"] else [])
  ++ (if (0 <? serpCount)%nat then ["serper_serp"] else [])
  ++ (if hasCrm then ["crm_data"] else [])
  ++ ["openai_llm"].

(** [for (const query of queries.slice(0, 3))] *)
Fixpoint serp_loop (getSerpResults : option (string -> string -> Promise (option SerpResult)))
    (zipCode : string) (queries : list string) (results : list SerpResult)
  : Promise (list SerpResult) :=
  match queries with
  | [] => Fulfilled results
  | query :: rest =>
      match getSerpResults with
      | None => serp_loop getSerpResults zipCode rest results
      | Some method =>
          match method query zipCode with
          | Rejected e => Rejected e
          | Fulfilled (Some result) =>
              serp_loop getSerpResults zipCode rest (results ++ [result])
          | Fulfilled None => serp_loop getSerpResults zipCode rest results
          end
      end
  end.

Definition serp_queries (request : MarketAnalysisRequest) : list string :=
  flat_map (fun service =>
      (service ++ " " ++ rq_zipCode request)%string
      :: match rq_targetCities request with
         | Some (city :: _) =>
             if truthy_string city then [(service ++ " " ++ city)%string] else []
         | _ => []
         end)
    (firstn 3 (rq_services request)).

Definition gatherSerpResults (deps : MarketAnalysisServiceDeps)
    (request : MarketAnalysisRequest) : Promise (list SerpResult) :=
  match serpProvider deps with
  | None => Fulfilled []
  | Some provider =>
      serp_loop (getSerpResults provider) (rq_zipCode request)
        (firstn 3 (serp_queries request)) []
  end.

(** [p.catch(err => { console.error(line, err); return fallback; })] *)
Definition catch_log {A : Type} (p : Promise A) (line : string) (fallback : A) : M A :=
  match p with
  | Fulfilled a => ret a
  | Rejected e => emit (console_error (line ++ " " ++ e)) ;;; ret fallback
  end.

(** Steps 1 and 2 of [analyze]: the data-gathering branches, each with its
    fallback, and the payload built from them. *)
Definition gather (deps : MarketAnalysisServiceDeps) (request : MarketAnalysisRequest)
    (accountId : string) : M LlmMarketAnalysisInput :=
  competitors <-
    catch_log (getCompetitors (competitors deps) (rq_zipCode request) (rq_radiusMiles request))
      "[Analysis] Competitor data error:" [] ;;
  serpResults <-
    catch_log (gatherSerpResults deps request) "[Analysis] SERP data error:" [] ;;
  crmData <-
    catch_log (getCrmSnapshot deps accountId) "[Analysis] CRM data error:" None ;;
  websiteData <-
    match rq_websiteUrl request with
    | Some url =>
        if truthy_string url
        then catch_log
               (match websiteReport deps url with
                | Fulfilled formatted => Fulfilled (Some formatted)
                | Rejected e => Rejected e
                end)
               "[Analysis] Website fetch error:" None
        else ret None
    | None => ret None
    end ;;
  keywords <-
    catch_log
      (getKeywordData (marketData deps) (rq_services request)
         (match rq_targetCities request with Some cities => cities | None => [] end)
         "")
      "[Analysis] Keyword data error:" [] ;;
  ret (mkLlmMarketAnalysisInput
         (rq_services request) (rq_zipCode request)
         keywords competitors serpResults crmData
         (rq_websiteUrl request)
         (match websiteData with
          | Some content => if truthy_string content then Some content else None
          | None => None
          end)).

(** Step 5 of [analyze]: the analysis assembled from the parsed response. *)
Definition assemble (llmInput : LlmMarketAnalysisInput) (llmOutput : json)
    (clock : Clock) : M MarketAnalysis :=
  summary <- await (get llmOutput "summary") ;;
  competitionLevel <- await (get llmOutput "competitionLevel") ;;
  marketInsight <- await (get llmOutput "marketInsight") ;;
  websiteAnalysis <- await (get llmOutput "websiteAnalysis") ;;
  serviceOpportunities <- await (get llmOutput "serviceOpportunities") ;;
  competitorSnapshots <- await (get llmOutput "competitorSnapshots") ;;
  recommendedCities <- await (get llmOutput "recommendedCities") ;;
  budgetRecommendation <- await (get llmOutput "budgetRecommendation") ;;
  ret (mkMarketAnalysis
         (mkMarketOverview summary competitionLevel marketInsight
            (if truthy websiteAnalysis then websiteAnalysis else None))
         serviceOpportunities competitorSnapshots recommendedCities
         budgetRecommendation
         (getDataSourcesUsed
            (List.length (in_keywords llmInput))
            (List.length (in_competitors llmInput))
            (List.length (in_serpResults llmInput))
            (match in_crmData llmInput with Some _ => true | None => false end))
         (Iso (generatedAtTime clock))
         None).

Definition usage_metadata (request : MarketAnalysisRequest) (elapsed : Z)
    (analysisId : option string) : json :=
  JObject
    [ ("zipCode", JString (rq_zipCode request));
      ("services", strings (rq_services request));
      ("elapsedMs", JNumber (inject_Z elapsed));
      ("analysisId", nullable_string analysisId) ].

Definition with_id (a : MarketAnalysis) (analysisId : option string) : MarketAnalysis :=
  mkMarketAnalysis (overview a) (serviceOpportunities a) (competitorSnapshots a)
    (recommendedCities a) (budgetRecommendation a) (dataSourcesUsed a)
    (generatedAt a) (Some analysisId).

Definition analyze (deps : MarketAnalysisServiceDeps) (clock : Clock)
    (request : MarketAnalysisRequest) (accountId userId : string)
  : M MarketAnalysis :=
  llmInput <- gather deps request accountId ;;
  (* Step 4: LLM synthesis *)
  llmOutput <- await (synthesizeMarketAnalysis (llm deps) llmInput) ;;
  (* Step 5: Assemble the final MarketAnalysis *)
  analysis <- assemble llmInput llmOutput clock ;;
  let elapsed := (endTime clock - startTime clock)%Z in
  (* Step 6: Store and log *)
  analysisId <- saveMarketAnalysis accountId userId request (MarketAnalysis_json analysis) ;;
  logUsageEvent accountId userId "market_analysis"
    (usage_metadata request elapsed analysisId) ;;;
  (* Attach the ID so the frontend can reference it *)
  ret (with_id analysis analysisId).

End MarketAnalysisService.

(* ------------------------------------------------------------------ *)
(** ** Plan generation service (services/plan-generation.ts) *)

Module PlanGenerationService.
Import Js Json Types Runtime Db Interfaces.
Local Open Scope js_scope.

(** A campaign of the plan; the members hold whatever the parsed response
    holds. *)
Record PlannedCampaign : Type := mkPlannedCampaign {
  name : value;
  service : value;
  targetCity : value;
  dailyBudget : value;
  keywords : value;
  negativeKeywords : json;
  adCopy : value;
  estimatedClicksPerDay : value;
  estimatedCostPerClick : value
}.

Record CampaignPlan : Type := mkCampaignPlan {
  analysisId : string;
  campaigns : list PlannedCampaign;
  totalDailyBudget : number;
  hardCap : number;
  summary : value;
  generatedAt : DateString;
  id : option (option string)
}.

Definition PlannedCampaign_json (c : PlannedCampaign) : json :=
  JObject (object_of
    [ ("name", name c);
      ("service", service c);
      ("targetCity", targetCity c);
      ("dailyBudget", dailyBudget c);
      ("keywords", keywords c);
      ("negativeKeywords", Some (negativeKeywords c));
      ("adCopy", adCopy c);
      ("estimatedClicksPerDay", estimatedClicksPerDay c);
      ("estimatedCostPerClick", estimatedCostPerClick c) ]).

Definition CampaignPlan_json (p : CampaignPlan) : json :=
  JObject (object_of
    [ ("analysisId", Some (JString (analysisId p)));
      ("campaigns", Some (JArray (map PlannedCampaign_json (campaigns p))));
      ("totalDailyBudget", Some (JNumber (totalDailyBudget p)));
      ("hardCap", Some (JNumber (hardCap p)));
      ("summary", summary p);
      ("generatedAt", Some (MarketAnalysisService.date_json (generatedAt p)));
      ("id", option_map MarketAnalysisService.nullable_string (id p)) ]).

(** The callback of [llmOutput.campaigns.map]. *)
Definition campaign_of (c : json) : Promise PlannedCampaign :=
  match c with
  | JNull => Rejected "TypeError: Cannot read properties of null (reading 'name')"
  | _ =>
      let field key := catch_value (get c key) None in
      Fulfilled (mkPlannedCampaign
        (field "name") (field "service") (field "targetCity") (field "dailyBudget")
        (field "keywords") (or_else (field "negativeKeywords") (JArray []))
        (field "adCopy") (field "estimatedClicksPerDay")
        (field "estimatedCostPerClick"))
  end.

Fixpoint map_campaigns (items : list json) : Promise (list PlannedCampaign) :=
  match items with
  | [] => Fulfilled []
  | c :: rest =>
      match campaign_of c with
      | Rejected e => Rejected e
      | Fulfilled campaign =>
          match map_campaigns rest with
          | Rejected e => Rejected e
          | Fulfilled others => Fulfilled (campaign :: others)
          end
      end
  end.

(** [llmOutput.campaigns.map(...)]: the receiver must be an array. *)
Definition campaigns_of (llmOutput : json) : Promise (list PlannedCampaign) :=
  match get llmOutput "campaigns" with
  | Rejected e => Rejected e
  | Fulfilled (Some (JArray items)) => map_campaigns items
  | Fulfilled _ => Rejected "TypeError: llmOutput.campaigns.map is not a function"
  end.

(** Step 2 of [generatePlan]: the reasoning-engine input built from the
    stored analysis and the user selections. *)
Definition build_input (marketAnalysis : json) (request : PlanGenerationRequest)
  : Promise LlmPlanInput :=
  match get marketAnalysis "overview" with
  | Rejected e => Rejected e
  | Fulfilled overview =>
      let summary :=
        match overview with
        | None => None
        | Some JNull => None
        | Some o => catch_value (get o "summary") None
        end in
      let field key := catch_value (get marketAnalysis key) None in
      Fulfilled (mkLlmPlanInput
        (mkPlanMarketAnalysis
           (or_else summary (JString ""))
           (or_else (field "serviceOpportunities") (JArray []))
           (or_else (field "competitors") (JArray []))
           (or_else (field "budgetRecommendation") (JObject [])))
        (pr_selectedServices request) (pr_selectedCities request)
        (pr_dailyBudget request) (pr_hardCap request) (pr_phoneNumber request))
  end.

Definition plan_usage_metadata (request : PlanGenerationRequest) (campaignCount : nat)
    (elapsed : Z) (planId : option string) : json :=
  JObject
    [ ("analysisId", JString (pr_analysisId request));
      ("campaignCount", JNumber (inject_Z (Z.of_nat campaignCount)));
      ("elapsedMs", JNumber (inject_Z elapsed));
      ("planId", MarketAnalysisService.nullable_string planId) ].

Definition plan_with_id (p : CampaignPlan) (planId : option string) : CampaignPlan :=
  mkCampaignPlan (analysisId p) (campaigns p) (totalDailyBudget p) (hardCap p)
    (summary p) (generatedAt p) (Some planId).

Definition generatePlan (llm : LlmProvider) (clock : MarketAnalysisService.Clock)
    (request : PlanGenerationRequest) (accountId userId : string)
  : M CampaignPlan :=
  (* Step 1: Load the stored market analysis *)
  loaded <- select_analysis_single (pr_analysisId request) accountId ;;
  match loaded with
  | (Some analysis, None) =>
      let marketAnalysis := ma_result_data analysis in
      (* Step 2: Build LLM input *)
      llmInput <- await (build_input marketAnalysis request) ;;
      (* Step 3: Generate via LLM *)
      llmOutput <- await (generateCampaignPlan llm llmInput) ;;
      (* Step 4: Assemble the CampaignPlan *)
      campaigns <- await (campaigns_of llmOutput) ;;
      summary <- await (get llmOutput "summary") ;;
      let plan :=
        mkCampaignPlan (pr_analysisId request) campaigns
          (pr_dailyBudget request) (pr_hardCap request) summary
          (Iso (MarketAnalysisService.generatedAtTime clock)) None in
      let elapsed :=
        (MarketAnalysisService.endTime clock - MarketAnalysisService.startTime clock)%Z in
      (* Step 5: Store and log *)
      planId <- saveCampaignPlan accountId userId (pr_analysisId request)
                  (CampaignPlan_json plan) ;;
      logUsageEvent accountId userId "plan_generation"
        (plan_usage_metadata request (List.length campaigns) elapsed planId) ;;;
      (* Attach plan ID *)
      ret (plan_with_id plan planId)
  | _ => throw ("Market analysis not found: " ++ pr_analysisId request)
  end.

End PlanGenerationService.

(* ------------------------------------------------------------------ *)
(** ** Routes (routes/analysis.ts, routes/plan.ts) and wiring (index.ts) *)

Module Routes.
Import Js Json Types Runtime Db Interfaces Usage.
Local Open Scope js_scope.

Inductive HttpResponse : Type :=
| res_json (status : Z) (body : json).

(** [Partial<MarketAnalysisRequest>], the body of POST /api/analyze. *)
Record AnalyzeBody : Type := mkAnalyzeBody {
  body_zipCode : option string;
  body_services : option (list string);
  body_targetCities : option (list string);
  body_radiusMiles : option number;
  body_websiteUrl : option string
}.

Definition failure (error message : string) : json :=
  JObject [("error", JString error); ("message", JString message)].

(** [const { accountId, userId } = req.auth!] *)
Definition auth_of (auth : option AuthContext) : M AuthContext :=
  match auth with
  | Some a => ret a
  | None => throw "TypeError: Cannot destructure property 'accountId' of 'req.auth' as it is undefined."
  end.

(** POST /api/analyze *)
Definition post_analyze (deps : MarketAnalysisService.MarketAnalysisServiceDeps)
    (clock : MarketAnalysisService.Clock) (auth : option AuthContext)
    (body : AnalyzeBody) : M HttpResponse :=
  try_catch
    (a <- auth_of auth ;;
     match body_zipCode body, body_services body with
     | Some zipCode, Some (s :: services) =>
         if truthy_string zipCode then
           let request :=
             mkMarketAnalysisRequest (s :: services) zipCode
               (Some (match body_targetCities body with Some c => c | None => [] end))
               (Some (match body_radiusMiles body with
                      | Some r => if Qeq_bool r 0 then 25 else r
                      | None => 25
                      end))
               (match body_websiteUrl body with
                | Some u => if truthy_string u then Some u else None
                | None => None
                end) in
           analysis <- MarketAnalysisService.analyze deps clock request
                         (accountId a) (userId a) ;;
           ret (res_json 200
                  (JObject [("success", JBool true);
                            ("data", MarketAnalysisService.MarketAnalysis_json analysis)]))
         else
           ret (res_json 400
                  (JObject [("error", JString "Missing required fields: zipCode and services[]")]))
     | _, _ =>
         ret (res_json 400
                (JObject [("error", JString "Missing required fields: zipCode and services[]")]))
     end)
    (fun err =>
       emit (console_error ("[Route] Analysis error: " ++ err)) ;;;
       ret (res_json 500 (failure "Market analysis failed" err))).

(** The members [...data.result_data] spreads into the response; the
    worker only ever writes objects into the column. *)
Definition spread (j : json) : list (string * json) :=
  match j with
  | JObject members => members
  | _ => []
  end.

(** GET /api/analyze/:id *)
Definition get_analysis (auth : option AuthContext) (analysisId : string)
  : M HttpResponse :=
  try_catch
    (a <- auth_of auth ;;
     loaded <- select_analysis_single analysisId (accountId a) ;;
     match loaded with
     | (Some data, None) =>
         ret (res_json 200
                (JObject
                   [("success", JBool true);
                    ("data",
                     JObject ([("id", JString (ma_id data))]
                              ++ spread (ma_result_data data)
                              ++ [("createdAt", JNumber (inject_Z (ma_created_at data)))]))]))
     | _ => ret (res_json 404 (JObject [("error", JString "Analysis not found")]))
     end)
    (fun err =>
       emit (console_error ("[Route] Get analysis error: " ++ err)) ;;;
       ret (res_json 500 (JObject [("error", JString "Failed to retrieve analysis")]))).

(** POST /api/plan, for a body that passed the field checks. *)
Definition post_plan (llm : LlmProvider) (clock : MarketAnalysisService.Clock)
    (auth : option AuthContext) (request : PlanGenerationRequest) : M HttpResponse :=
  try_catch
    (a <- auth_of auth ;;
     plan <- PlanGenerationService.generatePlan llm clock request
               (accountId a) (userId a) ;;
     ret (res_json 200
            (JObject [("success", JBool true);
                      ("data", PlanGenerationService.CampaignPlan_json plan)])))
    (fun err =>
       emit (console_error ("[Route] Plan generation error: " ++ err)) ;;;
       ret (res_json 500 (failure "Plan generation failed" err))).

(** [app.use(path, usageMiddleware, router)]: the router runs only when
    the middleware calls [next()]. *)
Definition gated (DEV_BYPASS_AUTH : option string) (month : Month)
    (auth : option AuthContext) (handler : M HttpResponse) : M HttpResponse :=
  outcome <- createUsageMiddleware DEV_BYPASS_AUTH month auth ;;
  match outcome with
  | next _ => handler
  | respond status body _ => ret (res_json status body)
  end.

(** The oracles behind the providers [main] constructs. *)
Record Externals : Type := mkExternals {
  googleAds : GoogleAdsKeywordPlanner.GoogleAdsApi;
  geoTargetCache : GoogleAdsKeywordPlanner.GeoTargetCache;
  places : string -> number -> Promise (list PlacesCompetitor);
  serper : string -> string -> Promise (option SerpResult);
  openai : OpenAiLlm.OpenAiClient;
  crm : string -> Promise (option CrmSnapshot);
  website : WebsiteAnalyzer.Fetcher
}.

(** The dependencies [main] hands to [MarketAnalysisService]: the keyword
    provider is the Keyword Planner provider whether or not it is
    configured ("REAL data only, no template fallbacks"). *)
Definition main (config : Configuration.Config) (ext : Externals)
  : MarketAnalysisService.MarketAnalysisServiceDeps :=
  MarketAnalysisService.mkDeps
    (GoogleAdsKeywordPlanner.GoogleAdsKeywordPlannerProvider
       (googleAds ext) config (geoTargetCache ext))
    (CompetitorProviders.GooglePlacesCompetitorProvider config (places ext))
    (if Configuration.serpEnabled config
     then Some (CompetitorProviders.SerperCompetitorProvider config (serper ext))
     else None)
    (OpenAiLlm.OpenAiLlmProvider (openai ext))
    (crm ext) (website ext).

(** The keyword provider of the earlier revision of index.ts that the
    sources still carry: the Keyword Planner provider with the estimate
    provider as fallback when it is configured, the estimate provider
    alone when it is not.  Nothing calls [setMarketFactor], so the
    estimate provider keeps the factor it was constructed with. *)
Definition marketDataProvider_with_fallback (config : Configuration.Config)
    (ext : Externals) : MarketDataProvider :=
  let estimateProvider := KeywordEstimates.new_EstimateMarketDataProvider in
  if GoogleAdsKeywordPlanner.isConfigured config then
    mkMarketDataProvider (fun services cities state =>
      match fst (GoogleAdsKeywordPlanner.getKeywordData (googleAds ext) config
                   (geoTargetCache ext) services cities state) with
      | Fulfilled (k :: realData) => Fulfilled (k :: realData)
      | _ => KeywordEstimates.getKeywordData estimateProvider services cities state
      end)
  else
    mkMarketDataProvider (KeywordEstimates.getKeywordData estimateProvider).

Definition main_with_fallback (config : Configuration.Config) (ext : Externals)
  : MarketAnalysisService.MarketAnalysisServiceDeps :=
  MarketAnalysisService.mkDeps
    (marketDataProvider_with_fallback config ext)
    (CompetitorProviders.GooglePlacesCompetitorProvider config (places ext))
    (if Configuration.serpEnabled config
     then Some (CompetitorProviders.SerperCompetitorProvider config (serper ext))
     else None)
    (OpenAiLlm.OpenAiLlmProvider (openai ext))
    (crm ext) (website ext).

End Routes.

(* ------------------------------------------------------------------ *)
(** ** Statements of the specification *)

Module Spec.
Import Js Json Types.

Definition round_to_cents (x : number) : number := Math_round (x * 100) / 100.

(** [kd] is the variant of [base] for city [c]: same service, the keyword
    of [base] followed by the city, a monthly volume between 0.20 and 0.35
    of the base volume up to [tol], and a CPC of 1.15 times the base CPC
    rounded to cents. *)
Definition city_variant_within (tol : number) (base kd : KeywordData) (c : string)
  : Prop :=
  kd_city base = None
  /\ kd_service base = kd_service kd
  /\ kd_keyword kd = (kd_keyword base ++ " " ++ c)%string
  /\ (0.20 * kd_monthlySearches base - tol <= kd_monthlySearches kd
      /\ kd_monthlySearches kd <= 0.35 * kd_monthlySearches base + tol)
  /\ kd_avgCpc kd == round_to_cents (1.15 * kd_avgCpc base).

(** Every city-qualified keyword the estimate provider produces at market
    factor [f] is such a variant of a base keyword it produces. *)
Definition city_keywords_spec (tol f : number) (services cities : list string) : Prop :=
  forall results,
    KeywordEstimates.getKeywordData (KeywordEstimates.mkProvider f) services cities ""
    = Fulfilled results ->
    forall kd c, In kd results -> kd_city kd = Some c ->
    exists base, In base results /\ city_variant_within tol base kd c.






(** *** The analysis pipeline *)

(** What the website branch contributes: the text of the analyzer, when a
    URL was supplied and the text is not empty. *)
Definition website_content (deps : MarketAnalysisService.MarketAnalysisServiceDeps)
    (request : MarketAnalysisRequest) : option string :=
  match rq_websiteUrl request with
  | Some url =>
      if truthy_string url
      then match MarketAnalysisService.websiteReport deps url with
           | Fulfilled content => if truthy_string content then Some content else None
           | Rejected _ => None
           end
      else None
  | None => None
  end.

(** The payload [gather] hands to the synthesis: every branch with its
    fallback. *)
Definition payload (deps : MarketAnalysisService.MarketAnalysisServiceDeps)
    (request : MarketAnalysisRequest) (accountId : string)
  : Interfaces.LlmMarketAnalysisInput :=
  Interfaces.mkLlmMarketAnalysisInput
    (rq_services request) (rq_zipCode request)
    (catch_value
       (Interfaces.getKeywordData (MarketAnalysisService.marketData deps)
          (rq_services request)
          (match rq_targetCities request with Some cities => cities | None => [] end)
          "")
       [])
    (catch_value
       (Interfaces.getCompetitors (MarketAnalysisService.competitors deps)
          (rq_zipCode request) (rq_radiusMiles request))
       [])
    (catch_value (MarketAnalysisService.gatherSerpResults deps request) [])
    (catch_value (MarketAnalysisService.getCrmSnapshot deps accountId) None)
    (rq_websiteUrl request)
    (website_content deps request).

(** The payload in which no branch contributed anything. *)
Definition empty_payload (request : MarketAnalysisRequest)
  : Interfaces.LlmMarketAnalysisInput :=
  Interfaces.mkLlmMarketAnalysisInput
    (rq_services request) (rq_zipCode request) [] [] [] None
    (rq_websiteUrl request) None.

(** A branch that failed or returned nothing. *)
Definition nothing {A : Type} (branch : Promise (list A)) : Prop :=
  catch_value branch [] = [].

(** No website URL was sent: the member is missing or the empty string. *)
Definition no_website (request : MarketAnalysisRequest) : Prop :=
  match rq_websiteUrl request with
  | Some url => truthy_string url = false
  | None => True
  end.

(** The website could not be fetched: if a URL was sent, the result of
    [analyzeWebsite] carries an error. *)
Definition website_not_fetched (deps : MarketAnalysisService.MarketAnalysisServiceDeps)
    (request : MarketAnalysisRequest) : Prop :=
  forall url,
    rq_websiteUrl request = Some url -> truthy_string url = true ->
    exists result,
      WebsiteAnalyzer.analyzeWebsite (MarketAnalysisService.fetch deps) url
      = Fulfilled result
      /\ WebsiteAnalyzer.truthy_error (WebsiteAnalyzer.error result) = true.

(** When every data-gathering branch fails or returns nothing, the
    synthesis runs on the all-empty payload. *)
Definition failed_branches_give_empty_payload
    (deps : MarketAnalysisService.MarketAnalysisServiceDeps)
    (request : MarketAnalysisRequest) (accountId : string) : Prop :=
  nothing (Interfaces.getCompetitors (MarketAnalysisService.competitors deps)
             (rq_zipCode request) (rq_radiusMiles request)) ->
  nothing (MarketAnalysisService.gatherSerpResults deps request) ->
  catch_value (MarketAnalysisService.getCrmSnapshot deps accountId) None = None ->
  website_not_fetched deps request ->
  nothing (Interfaces.getKeywordData (MarketAnalysisService.marketData deps)
             (rq_services request)
             (match rq_targetCities request with Some cities => cities | None => [] end)
             "") ->
  payload deps request accountId = empty_payload request.

(** The payload to which only the website branch contributed. *)
Definition website_only_payload (deps : MarketAnalysisService.MarketAnalysisServiceDeps)
    (request : MarketAnalysisRequest) : Interfaces.LlmMarketAnalysisInput :=
  Interfaces.mkLlmMarketAnalysisInput
    (rq_services request) (rq_zipCode request) [] [] [] None
    (rq_websiteUrl request) (website_content deps request).

(** For a URL that was sent, the website content is the error report of
    the analyzer: the URL it tried and the error it met. *)
Definition website_content_is_error_report
    (deps : MarketAnalysisService.MarketAnalysisServiceDeps)
    (request : MarketAnalysisRequest) : Prop :=
  forall url,
    rq_websiteUrl request = Some url -> truthy_string url = true ->
    exists result message,
      WebsiteAnalyzer.analyzeWebsite (MarketAnalysisService.fetch deps) url
      = Fulfilled result
      /\ WebsiteAnalyzer.error result = Some message
      /\ website_content deps request
         = Some (WebsiteAnalyzer.error_report (WebsiteAnalyzer.url result) message).

(** The analysis [assemble] builds from a parsed response that is not
    [null]. *)
Definition assembled (llmInput : Interfaces.LlmMarketAnalysisInput) (llmOutput : json)
    (clock : MarketAnalysisService.Clock) : MarketAnalysisService.MarketAnalysis :=
  let field key := catch_value (get llmOutput key) None in
  MarketAnalysisService.mkMarketAnalysis
    (MarketAnalysisService.mkMarketOverview
       (field "summary") (field "competitionLevel") (field "marketInsight")
       (if truthy (field "websiteAnalysis") then field "websiteAnalysis" else None))
    (field "serviceOpportunities") (field "competitorSnapshots")
    (field "recommendedCities") (field "budgetRecommendation")
    (MarketAnalysisService.getDataSourcesUsed
       (List.length (Interfaces.in_keywords llmInput))
       (List.length (Interfaces.in_competitors llmInput))
       (List.length (Interfaces.in_serpResults llmInput))
       (match Interfaces.in_crmData llmInput with Some _ => true | None => false end))
    (Iso (MarketAnalysisService.generatedAtTime clock))
    None.

(** The identifier [saveMarketAnalysis] returns in a world. *)
Definition saved_id (w : Runtime.World) : option string :=
  match Runtime.fault w "growth_market_analyses" "insert" with
  | Some _ => None
  | None => Db.id_or_null (Runtime.gen_random_uuid w (Runtime.uuid_calls w))
  end.

(** The database after [analyze] stored [analysis] and logged the event. *)
Definition stored (w : Runtime.World) (db : Runtime.Database)
    (request : MarketAnalysisRequest) (accountId userId : string)
    (analysis : MarketAnalysisService.MarketAnalysis)
    (clock : MarketAnalysisService.Clock) : Runtime.Database :=
  Runtime.mkDatabase
    (match Runtime.fault w "growth_usage_log" "insert" with
     | Some _ => Runtime.growth_usage_log db
     | None =>
         Runtime.growth_usage_log db
         ++ [Runtime.mkUsageRow accountId userId "market_analysis"
               (MarketAnalysisService.usage_metadata request
                  (MarketAnalysisService.endTime clock
                   - MarketAnalysisService.startTime clock)%Z
                  (saved_id w))
               (Runtime.db_now w)]
     end)
    (match Runtime.fault w "growth_market_analyses" "insert" with
     | Some _ => Runtime.growth_market_analyses db
     | None =>
         Runtime.growth_market_analyses db
         ++ [Runtime.mkAnalysisRow
               (Runtime.gen_random_uuid w (Runtime.uuid_calls w))
               accountId userId request
               (MarketAnalysisService.MarketAnalysis_json analysis)
               (Runtime.db_now w)]
     end)
    (Runtime.growth_campaign_plans db).

(** The world in which the database no longer faults on [verb] of
    [table]. *)
Definition repaired (w : Runtime.World) (table verb : string) : Runtime.World :=
  Runtime.mkWorld (Runtime.supabase w)
    (fun t v => if String.eqb t table && String.eqb v verb then None
                else Runtime.fault w t v)
    (Runtime.gen_random_uuid w) (Runtime.uuid_calls w) (Runtime.db_now w)
    (Runtime.trace w).

(** A failed primary write reaches the caller of [analyze] as an error. *)
Definition primary_write_failure_propagates
    (deps : MarketAnalysisService.MarketAnalysisServiceDeps)
    (clock : MarketAnalysisService.Clock) (request : MarketAnalysisRequest)
    (accountId userId : string) (w : Runtime.World) : Prop :=
  forall message,
    Runtime.fault w "growth_market_analyses" "insert" = Some message ->
    exists e,
      fst (MarketAnalysisService.analyze deps clock request accountId userId w)
      = Rejected e.

(** The keyword figures handed to the synthesis are those of the estimate
    provider at market factor 0. *)
Definition keywords_from_interpolator_at_zero
    (deps : MarketAnalysisService.MarketAnalysisServiceDeps)
    (request : MarketAnalysisRequest) (accountId : string) : Prop :=
  Fulfilled (Interfaces.in_keywords (payload deps request accountId))
  = KeywordEstimates.getKeywordData (KeywordEstimates.mkProvider 0)
      (rq_services request) [] "".

(** *** The shape of a synthesis response (interfaces.ts, types.ts) *)

Definition is_string (v : value) : bool :=
  match v with Some (JString _) => true | _ => false end.
Definition is_number (v : value) : bool :=
  match v with Some (JNumber _) => true | _ => false end.
Definition is_boolean (v : value) : bool :=
  match v with Some (JBool _) => true | _ => false end.
Definition is_competition (v : value) : bool :=
  match v with
  | Some (JString s) =>
      String.eqb s "low" || String.eqb s "medium" || String.eqb s "high"
  | _ => false
  end.
Definition or_null (check : value -> bool) (v : value) : bool :=
  match v with Some JNull => true | _ => check v end.
Definition optional (check : value -> bool) (v : value) : bool :=
  match v with None => true | _ => check v end.
Definition is_array_of (check : json -> bool) (v : value) : bool :=
  match v with Some (JArray items) => forallb check items | _ => false end.
Definition is_object (check : list (string * json) -> bool) (j : json) : bool :=
  match j with JObject members => check members | _ => false end.

Definition is_ServiceOpportunity : json -> bool :=
  is_object (fun m =>
    is_string (member "service" m)
    && is_number (member "monthlySearches" m)
    && is_number (member "avgCpc" m)
    && is_competition (member "competition" m)
    && or_null is_number (member "crmWinRate" m)
    && or_null is_number (member "crmAvgDealSize" m)
    && or_null is_number (member "crmQuoteCount" m)
    && is_string (member "recommendation" m)
    && is_number (member "rank" m)).

Definition is_CompetitorSnapshot : json -> bool :=
  is_object (fun m =>
    is_string (member "name" m)
    && or_null is_number (member "rating" m)
    && or_null is_number (member "reviewCount" m)
    && or_null is_string (member "address" m)
    && or_null (is_array_of (fun j => is_string (Some j))) (member "adHeadlines" m)
    && or_null (is_array_of (fun j => is_string (Some j))) (member "adDescriptions" m)
    && or_null is_string (member "insight" m)).

Definition is_RecommendedCity : json -> bool :=
  is_object (fun m =>
    is_string (member "city" m)
    && is_string (member "state" m)
    && or_null is_number (member "estimatedSearches" m)
    && or_null is_number (member "avgCpc" m)
    && or_null is_competition (member "competition" m)
    && or_null is_number (member "distanceMiles" m)
    && is_string (member "reason" m)
    && is_boolean (member "recommended" m)).

Definition is_BudgetRecommendation : json -> bool :=
  is_object (fun m =>
    is_number (member "recommendedDailyBudget" m)
    && is_number (member "recommendedHardCap" m)
    && is_number (member "estimatedClicksPerDay" m)
    && is_number (member "estimatedCallsPerWeek" m)
    && is_number (member "estimatedCostPerCall" m)
    && or_null is_number (member "projectedRevenuePerMonth" m)
    && or_null is_number (member "projectedRoi" m)
    && is_string (member "rationale" m)).

(** [LlmMarketAnalysisOutput] *)
Definition is_LlmMarketAnalysisOutput : json -> bool :=
  is_object (fun m =>
    is_string (member "summary" m)
    && is_array_of is_ServiceOpportunity (member "serviceOpportunities" m)
    && is_array_of is_CompetitorSnapshot (member "competitorSnapshots" m)
    && is_array_of is_RecommendedCity (member "recommendedCities" m)
    && match member "budgetRecommendation" m with
       | Some b => is_BudgetRecommendation b
       | None => false
       end
    && is_competition (member "competitionLevel" m)
    && is_string (member "marketInsight" m)
    && optional is_string (member "websiteAnalysis" m)).

(** What the synthesis adapter returns is validated against the shape. *)
Definition synthesis_validated (client : OpenAiLlm.OpenAiClient)
    (input : Interfaces.LlmMarketAnalysisInput) : Prop :=
  match OpenAiLlm.synthesizeMarketAnalysis client input with
  | Fulfilled j => is_LlmMarketAnalysisOutput j = true
  | Rejected _ => True
  end.

(** *** Plan and analysis agree on the cost per click *)

(** The service opportunities a stored analysis records. *)
Definition opportunities (storedAnalysis : json) : list json :=
  match catch_value (get storedAnalysis "serviceOpportunities") None with
  | Some (JArray items) => items
  | _ => []
  end.

Definition same_number (a b : value) : Prop :=
  match a, b with
  | Some (JNumber x), Some (JNumber y) => x == y
  | _, _ => False
  end.

(** Every campaign of [plan] costs per click what the stored analysis
    records as the average CPC of the campaign's service. *)
Definition cpc_consistent (storedAnalysis : json)
    (plan : PlanGenerationService.CampaignPlan) : Prop :=
  forall campaign opportunity,
    In campaign (PlanGenerationService.campaigns plan) ->
    In opportunity (opportunities storedAnalysis) ->
    catch_value (get opportunity "service") None = PlanGenerationService.service campaign ->
    same_number (PlanGenerationService.estimatedCostPerClick campaign)
                (catch_value (get opportunity "avgCpc") None).

(** Every plan [generatePlan] produces from a stored analysis agrees with
    it on the cost per click. *)
Definition plan_reuses_stored_cpc (llm : Interfaces.LlmProvider)
    (clock : MarketAnalysisService.Clock) (request : PlanGenerationRequest)
    (accountId userId : string) (w : Runtime.World) : Prop :=
  forall plan w' db row,
    PlanGenerationService.generatePlan llm clock request accountId userId w
    = (Fulfilled plan, w') ->
    Runtime.supabase w = Some db ->
    In row (Runtime.growth_market_analyses db) ->
    Runtime.ma_id row = pr_analysisId request ->
    Runtime.ma_account_id row = accountId ->
    cpc_consistent (Runtime.ma_result_data row) plan.

(** *** Ownership of stored analyses *)

(** No analysis has this identifier. *)
Definition absent (db : Runtime.Database) (analysisId : string) : Prop :=
  forall row, In row (Runtime.growth_market_analyses db) ->
              Runtime.ma_id row <> analysisId.

(** An analysis has this identifier, and whichever has it belongs to an
    account other than [accountId]. *)
Definition foreign (db : Runtime.Database) (analysisId accountId : string) : Prop :=
  (exists row, In row (Runtime.growth_market_analyses db)
               /\ Runtime.ma_id row = analysisId)
  /\ forall row, In row (Runtime.growth_market_analyses db) ->
                 Runtime.ma_id row = analysisId ->
                 Runtime.ma_account_id row <> accountId.

(** No row has the identifier together with the account. *)
Definition not_owned (db : Runtime.Database) (analysisId accountId : string) : Prop :=
  forall row, In row (Runtime.growth_market_analyses db) ->
              Runtime.ma_id row = analysisId -> Runtime.ma_account_id row <> accountId.

(** The message of the error [generatePlan] throws. *)
Definition not_found (analysisId : string) : string :=
  "Market analysis not found: " ++ analysisId.

(** *** The quota gate *)

(** The quota [getUsageQuota] reports when the ledger read fails. *)
Definition closed_quota (month : Db.Month) : UsageQuota :=
  mkUsageQuota Db.DEFAULT_MONTHLY_QUOTA Db.DEFAULT_MONTHLY_QUOTA 0
               (Iso (Db.startOfMonth month)) EmptyDate.

(** *** The estimate table *)

(** The factor [calculateMarketFactor] computes from these inputs lies in
    the interval from 0 to 1. *)
Definition factor_in_unit_interval (competitorCount avgReviewCount : number) : Prop :=
  0 <= KeywordEstimates.calculateMarketFactor competitorCount avgReviewCount
  /\ KeywordEstimates.calculateMarketFactor competitorCount avgReviewCount <= 1.


End Spec.

(* ------------------------------------------------------------------ *)
(** ** Concrete scenarios *)

Module Scenarios.
Import Js Json Types Runtime Db Usage Interfaces Configuration Routes.

Definition no_faults : string -> string -> option string := fun _ _ => None.

Definition fault_on (table verb message : string) : string -> string -> option string :=
  fun t v => if String.eqb t table && String.eqb v verb then Some message else None.

Definition uuids (n : nat) : string :=
  "7c9e6679-7425-40de-944b-e07fc1f9" ++ String (ascii_of_nat (97 + n)) "".

Definition empty_database : Database := mkDatabase [] [] [].

Definition world (db : Database) (faults : string -> string -> option string) : World :=
  mkWorld (Some db) faults uuids 0 1700000000000 [].

Definition clock : MarketAnalysisService.Clock :=
  MarketAnalysisService.mkClock 1700000000000 1700000004000 1700000004200.

Definition month : Month := mkMonth 1698796800000 1701302400000.

Definition alice : AuthContext := mkAuthContext "account-a" "user-a".

(** A database that rejects every insert. *)
Definition fault_on_insert (table verb : string) : option string :=
  if String.eqb verb "insert" then Some "disk full" else None.

Definition world_writes_failing : World := world empty_database fault_on_insert.

(** A database that rejects the insert of an analysis only. *)
Definition world_save_failing : World :=
  world empty_database (fault_on "growth_market_analyses" "insert" "disk full").

(** A world whose usage ledger cannot be read. *)
Definition world_ledger_unreadable : World :=
  world empty_database (fault_on "growth_usage_log" "select" "connection reset").

(** No Google Ads credentials; a Places key. *)
Definition config_without_ads : Config :=
  mkConfig "sk-test" "gpt-4o" "places-key" "" "" "" "" "" "" false.

(** A Google Ads API that rejects every call. *)
Definition ads_rejecting : GoogleAdsKeywordPlanner.GoogleAdsApi :=
  GoogleAdsKeywordPlanner.mkGoogleAdsApi
    (fun _ _ _ => Rejected "No customer found")
    (fun _ _ => Rejected "No customer found").

(** A reasoning engine that answers with the given JSON texts. *)
Definition openai_answering (analysis plan : json) : OpenAiLlm.OpenAiClient :=
  OpenAiLlm.mkOpenAiClient
    (fun _ _ => Fulfilled (Some (JsonText analysis)))
    (fun _ _ => Fulfilled (Some (JsonText plan))).

Definition analysis_answer : json :=
  JObject
    [ ("summary", JString "Keyword data is unavailable; the analysis is limited.");
      ("competitionLevel", JString "low");
      ("marketInsight", JString "No competitors were found near 92101.");
      ("serviceOpportunities",
       JArray [ JObject [ ("service", JString "interior painting");
                          ("monthlySearches", JNumber 0);
                          ("avgCpc", JNumber 0);
                          ("competition", JString "low");
                          ("crmWinRate", JNull);
                          ("crmAvgDealSize", JNull);
                          ("crmQuoteCount", JNull);
                          ("recommendation", JString "Start with a small test budget.");
                          ("rank", JNumber 1) ] ]);
      ("competitorSnapshots", JArray []);
      ("recommendedCities", JArray []);
      ("budgetRecommendation",
       JObject [ ("recommendedDailyBudget", JNumber 0);
                 ("recommendedHardCap", JNumber 0);
                 ("estimatedClicksPerDay", JNumber 0);
                 ("estimatedCallsPerWeek", JNumber 0);
                 ("estimatedCostPerCall", JNumber 0);
                 ("projectedRevenuePerMonth", JNull);
                 ("projectedRoi", JNull);
                 ("rationale", JString "Budget recommendations are unavailable.") ]) ].

(** A plan answer whose only campaign costs 9 per click. *)
Definition plan_answer : json :=
  JObject
    [ ("campaigns",
       JArray [ JObject [ ("name", JString "[PW] Interior Painting");
                          ("service", JString "interior painting");
                          ("targetCity", JString "San Diego");
                          ("dailyBudget", JNumber 50);
                          ("keywords", JArray []);
                          ("adCopy", JObject [("headlines", JArray []);
                                              ("descriptions", JArray [])]);
                          ("estimatedClicksPerDay", JNumber 5);
                          ("estimatedCostPerClick", JNumber 9) ] ]);
      ("summary", JString "One campaign.") ].

Definition externals (client : OpenAiLlm.OpenAiClient) : Externals :=
  mkExternals ads_rejecting [] (fun _ _ => Fulfilled []) (fun _ _ => Fulfilled None)
    client (fun _ => Fulfilled None)
    (fun _ => WebsiteAnalyzer.threw (WebsiteAnalyzer.an_Error "TypeError" "fetch failed")).

(** Scenario A of the specification. *)
Definition request_A : MarketAnalysisRequest :=
  mkMarketAnalysisRequest ["interior painting"] "92101" (Some []) (Some 25) None.

Definition deps_A : MarketAnalysisService.MarketAnalysisServiceDeps :=
  main config_without_ads (externals (openai_answering analysis_answer plan_answer)).

(** A reasoning engine that answers with a text that is not JSON. *)
Definition client_apologising : OpenAiLlm.OpenAiClient :=
  OpenAiLlm.mkOpenAiClient
    (fun _ _ => Fulfilled (Some (NotJson "I'm sorry, I can't help with that.")))
    (fun _ _ => Fulfilled (Some (NotJson "I'm sorry, I can't help with that."))).

Definition deps_apologising : MarketAnalysisService.MarketAnalysisServiceDeps :=
  main config_without_ads (externals client_apologising).

(** A reasoning engine that answers with the empty object. *)
Definition client_empty_object : OpenAiLlm.OpenAiClient :=
  openai_answering (JObject []) (JObject []).

Definition deps_empty_object : MarketAnalysisService.MarketAnalysisServiceDeps :=
  main config_without_ads (externals client_empty_object).

(** Dependencies all of whose data branches fail. *)
Definition deps_failing : MarketAnalysisService.MarketAnalysisServiceDeps :=
  MarketAnalysisService.mkDeps
    (mkMarketDataProvider (fun _ _ _ => Rejected "keyword planner down"))
    (mkCompetitorProvider (fun _ _ => Rejected "places down")
                          (Some (fun _ _ => Rejected "serper down")))
    (Some (mkCompetitorProvider (fun _ _ => Fulfilled [])
                                (Some (fun _ _ => Rejected "serper down"))))
    (OpenAiLlm.OpenAiLlmProvider (openai_answering analysis_answer plan_answer))
    (fun _ => Rejected "crm down")
    (fun _ => WebsiteAnalyzer.threw (WebsiteAnalyzer.an_Error "TypeError" "fetch failed")).

Definition request_with_site : MarketAnalysisRequest :=
  mkMarketAnalysisRequest ["interior painting"; "deck staining"] "92101"
    (Some ["San Diego"]) (Some 25) (Some "example.com").

(** A stored analysis of account-a recording an average CPC of 12.5. *)
Definition stored_analysis : json :=
  JObject
    [ ("overview", JObject [("summary", JString "A promising market.")]);
      ("serviceOpportunities",
       JArray [ JObject [ ("service", JString "interior painting");
                          ("monthlySearches", JNumber 1200);
                          ("avgCpc", JNumber 12.5) ] ]);
      ("competitors", JArray []);
      ("budgetRecommendation", JObject []) ].

Definition database_with_analysis : Database :=
  mkDatabase []
    [ mkAnalysisRow "analysis-1" "account-a" "user-a" request_A stored_analysis
        1699000000000 ]
    [].

Definition plan_request : PlanGenerationRequest :=
  mkPlanGenerationRequest "analysis-1" ["interior painting"] ["San Diego"] 50 1200
    "555-0100".

Definition bob : AuthContext := mkAuthContext "account-b" "user-b".

Definition plan_llm : LlmProvider :=
  OpenAiLlm.OpenAiLlmProvider (openai_answering analysis_answer plan_answer).

(** The run in which account-a derives a plan from its stored analysis,
    and the plan it returns. *)
Definition plan_run : Promise PlanGenerationService.CampaignPlan * World :=
  PlanGenerationService.generatePlan plan_llm clock plan_request "account-a" "user-a"
    (world database_with_analysis no_faults).

Definition plan_generated : PlanGenerationService.CampaignPlan :=
  PlanGenerationService.mkCampaignPlan "analysis-1"
    [ PlanGenerationService.mkPlannedCampaign
        (Some (JString "[PW] Interior Painting"))
        (Some (JString "interior painting"))
        (Some (JString "San Diego"))
        (Some (JNumber 50))
        (Some (JArray []))
        (JArray [])
        (Some (JObject [("headlines", JArray []); ("descriptions", JArray [])]))
        (Some (JNumber 5))
        (Some (JNumber 9)) ]
    50 1200 (Some (JString "One campaign.")) (Iso 1700000004000)
    (Some (Some (uuids 0))).

End Scenarios.

(* ------------------------------------------------------------------ *)
(** ** Auth middleware (middleware/auth.ts) *)

Module Auth.
Import Js Json Types Runtime Usage.
Local Open Scope js_scope.

(** The request headers the middleware reads. *)
Record Headers : Type := mkHeaders {
  x_api_key : option string;
  authorization : option string
}.

(** The user [supabase.auth.getUser] answers with: its id and the
    [account_id] claims of [app_metadata] and [user_metadata]. *)
Record User : Type := mkUser {
  user_id : string;
  app_metadata_account_id : option string;
  user_metadata_account_id : option string
}.

(** The environment variables the middleware reads. *)
Record Env : Type := mkEnv {
  DEV_BYPASS_AUTH : option string;
  DEV_ACCOUNT_ID : option string;
  DEV_USER_ID : option string
}.

(** What the middleware did with the request: set [req.auth] and called
    [next()], or sent a response. *)
Inductive AuthOutcome : Type :=
| auth_next (auth : AuthContext)
| auth_respond (status : Z) (body : json).

(** [variable || fallback] *)
Definition or_text (variable : option string) (fallback : string) : string :=
  match variable with
  | Some v => if truthy_string v then v else fallback
  | None => fallback
  end.

(** [s.slice(n)] *)
Fixpoint slice (n : nat) (s : string) : string :=
  match n, s with
  | O, _ => s
  | S k, EmptyString => EmptyString
  | S k, String _ rest => slice k rest
  end.

(** [user.app_metadata?.account_id || user.user_metadata?.account_id] *)
Definition claimed_account (user : User) : option string :=
  match app_metadata_account_id user with
  | Some account => if truthy_string account then Some account
                    else user_metadata_account_id user
  | None => user_metadata_account_id user
  end.

Definition unauthorized (message : string) : AuthOutcome :=
  auth_respond 401 (JObject [("error", JString message)]).

(** [growthApiKey] is [config.growthApiKey]; [getUser token] is the answer
    of [supabase.auth.getUser(token)]: the user and the error. *)
Definition createAuthMiddleware (growthApiKey : string) (env : Env)
    (getUser : string -> Promise (option User * option string))
    (headers : Headers) : M AuthOutcome :=
  try_catch
    (if env_is (DEV_BYPASS_AUTH env) "true" then
       (* DEV BYPASS - skip all auth checks when DEV_BYPASS_AUTH is set *)
       ret (auth_next (mkAuthContext (or_text (DEV_ACCOUNT_ID env) "dev-account-id")
                                     (or_text (DEV_USER_ID env) "dev-user-id")))
     else
       (* Check API key *)
       if match x_api_key headers with
          | Some apiKey => negb (truthy_string apiKey) || negb (String.eqb apiKey growthApiKey)
          | None => true
          end
       then ret (unauthorized "Invalid or missing API key")
       else
         (* Extract user context from Supabase JWT *)
         match authorization headers with
         | Some authHeader =>
             if String.prefix "Bearer " authHeader then
               answer <- await (getUser (slice 7 authHeader)) ;;
               match answer with
               | (Some user, None) =>
                   match claimed_account user with
                   | Some account =>
                       if truthy_string account
                       then ret (auth_next (mkAuthContext account (user_id user)))
                       else ret (auth_respond 403
                                   (JObject [("error",
                                              JString "No account_id found in token claims")]))
                   | None =>
                       ret (auth_respond 403
                              (JObject [("error",
                                         JString "No account_id found in token claims")]))
                   end
               | _ => ret (unauthorized "Invalid token")
               end
             else ret (unauthorized "Missing Authorization Bearer token")
         | None => ret (unauthorized "Missing Authorization Bearer token")
         end)
    (fun err =>
       emit (console_error ("[Auth] Middleware error: " ++ err)) ;;;
       ret (auth_respond 500 (JObject [("error", JString "Authentication error")]))).

End Auth.

(* ------------------------------------------------------------------ *)
(** ** Plan routes (routes/plan.ts) and the route pipeline (index.ts) *)

Module PlanRoutes.
Import Js Json Types Runtime Db Interfaces Usage Routes.
Local Open Scope js_scope.

(** [Partial<PlanGenerationRequest>], the body of POST /api/plan. *)
Record PlanBody : Type := mkPlanBody {
  body_analysisId : option string;
  body_selectedServices : option (list string);
  body_selectedCities : option (list string);
  body_dailyBudget : option number;
  body_hardCap : option number;
  body_phoneNumber : option string
}.

(** Truthiness of optional members: [undefined], the empty string and 0
    are falsy; [l?.length] is truthy for a non-empty array. *)
Definition truthy_text (s : option string) : bool :=
  match s with Some t => truthy_string t | None => false end.
Definition truthy_number (n : option number) : bool :=
  match n with Some x => negb (Qeq_bool x 0) | None => false end.
Definition has_length {A : Type} (l : option (list A)) : bool :=
  match l with Some (_ :: _) => true | _ => false end.

Definition request_of (body : PlanBody) : PlanGenerationRequest :=
  mkPlanGenerationRequest
    (match body_analysisId body with Some i => i | None => "" end)
    (match body_selectedServices body with Some l => l | None => [] end)
    (match body_selectedCities body with Some l => l | None => [] end)
    (match body_dailyBudget body with Some b => b | None => 0 end)
    (match body_hardCap body with Some c => c | None => 0 end)
    (match body_phoneNumber body with
     | Some p => if truthy_string p then p else ""
     | None => ""
     end).

(** POST /api/plan *)
Definition post_plan_body (llm : LlmProvider) (clock : MarketAnalysisService.Clock)
    (auth : option AuthContext) (body : PlanBody) : M HttpResponse :=
  try_catch
    (a <- auth_of auth ;;
     if negb (truthy_text (body_analysisId body))
        || negb (has_length (body_selectedServices body))
        || negb (has_length (body_selectedCities body))
     then
       ret (res_json 400
              (JObject [("error",
                         JString "Missing required fields: analysisId, selectedServices[], selectedCities[]")]))
     else if negb (truthy_number (body_dailyBudget body))
             || negb (truthy_number (body_hardCap body))
     then
       ret (res_json 400
              (JObject [("error", JString "Missing required fields: dailyBudget, hardCap")]))
     else
       plan <- PlanGenerationService.generatePlan llm clock (request_of body)
                 (accountId a) (userId a) ;;
       ret (res_json 200
              (JObject [("success", JBool true);
                        ("data", PlanGenerationService.CampaignPlan_json plan)])))
    (fun err =>
       emit (console_error ("[Route] Plan generation error: " ++ err)) ;;;
       ret (res_json 500 (failure "Plan generation failed" err))).

(** [from('growth_campaign_plans').select(...).eq('id', id)
    .eq('account_id', accountId).single()] *)
Definition select_plan_single (planId accountId : string)
  : M (option PlanRow * option string) :=
  db <- getDb ;;
  error <- get_fault "growth_campaign_plans" "select" ;;
  let outcome :=
    match error with
    | Some message => (None, Some message)
    | None =>
        match filter (fun r => String.eqb (cp_id r) planId
                               && String.eqb (cp_account_id r) accountId)
                     (growth_campaign_plans db) with
        | [row] => (Some row, None)
        | _ => (None, Some "JSON object requested, multiple (or no) rows returned")
        end
    end in
  emit (db_query "growth_campaign_plans" "select" accountId (snd outcome)) ;;;
  ret outcome.

(** GET /api/plan/:id *)
Definition get_plan (auth : option AuthContext) (planId : string) : M HttpResponse :=
  try_catch
    (a <- auth_of auth ;;
     loaded <- select_plan_single planId (accountId a) ;;
     match loaded with
     | (Some data, None) =>
         ret (res_json 200
                (JObject
                   [("success", JBool true);
                    ("data",
                     JObject ([("id", JString (cp_id data));
                               ("analysisId", JString (cp_analysis_id data))]
                              ++ spread (cp_plan_data data)
                              ++ [("createdAt", JNumber (inject_Z (cp_created_at data)))]))]))
     | _ => ret (res_json 404 (JObject [("error", JString "Plan not found")]))
     end)
    (fun err =>
       emit (console_error ("[Route] Get plan error: " ++ err)) ;;;
       ret (res_json 500 (JObject [("error", JString "Failed to retrieve plan")]))).

(** [app.use('/api', authMiddleware)] followed by
    [app.use('/api/analyze', usageMiddleware, router)]: the handler runs
    only when both middlewares call [next()], with the [req.auth] the first
    one set. *)
Definition api (growthApiKey : string) (env : Auth.Env)
    (getUser : string -> Promise (option Auth.User * option string))
    (headers : Auth.Headers) (rest : AuthContext -> M HttpResponse) : M HttpResponse :=
  outcome <- Auth.createAuthMiddleware growthApiKey env getUser headers ;;
  match outcome with
  | Auth.auth_next a => rest a
  | Auth.auth_respond status body => ret (res_json status body)
  end.

Definition api_analyze (growthApiKey : string) (env : Auth.Env)
    (getUser : string -> Promise (option Auth.User * option string))
    (month : Month) (deps : MarketAnalysisService.MarketAnalysisServiceDeps)
    (clock : MarketAnalysisService.Clock)
    (headers : Auth.Headers) (body : AnalyzeBody) : M HttpResponse :=
  api growthApiKey env getUser headers (fun a =>
    gated (Auth.DEV_BYPASS_AUTH env) month (Some a)
          (post_analyze deps clock (Some a) body)).

(** GET /api/analyze/:id and GET /api/plan/:id as index.ts mounts them:
    behind the auth middleware of [/api] and the usage middleware of
    [/api/analyze] and [/api/plan]. *)
Definition api_get_analysis (growthApiKey : string) (env : Auth.Env)
    (getUser : string -> Promise (option Auth.User * option string))
    (month : Month) (headers : Auth.Headers) (analysisId : string) : M HttpResponse :=
  api growthApiKey env getUser headers (fun a =>
    gated (Auth.DEV_BYPASS_AUTH env) month (Some a)
          (get_analysis (Some a) analysisId)).

Definition api_get_plan (growthApiKey : string) (env : Auth.Env)
    (getUser : string -> Promise (option Auth.User * option string))
    (month : Month) (headers : Auth.Headers) (planId : string) : M HttpResponse :=
  api growthApiKey env getUser headers (fun a =>
    gated (Auth.DEV_BYPASS_AUTH env) month (Some a)
          (get_plan (Some a) planId)).

End PlanRoutes.

(* ------------------------------------------------------------------ *)
(** ** Arrays, sets and maps of the run time *)

Module JsArray.
Import Js.

(** [l.sort((a, b) => key(b) - key(a))]: descending by [key]; the sort of
    the run time is stable, so elements with equal keys keep their order. *)
Fixpoint insert_desc {A : Type} (key : A -> number) (x : A) (sorted : list A) : list A :=
  match sorted with
  | [] => [x]
  | y :: rest =>
      if Qle_bool (key y) (key x) then x :: y :: rest
      else y :: insert_desc key x rest
  end.

Definition sort_desc {A : Type} (key : A -> number) (l : list A) : list A :=
  fold_right (insert_desc key) [] l.

(** [a] may stand before [b] in descending order of [key]. *)
Definition descending {A : Type} (key : A -> number) (a b : A) : Prop :=
  key b <= key a.

(** [[...new Set(l)]]: the first occurrence of each string, in order. *)
Fixpoint unique_from (seen l : list string) : list string :=
  match l with
  | [] => []
  | x :: rest =>
      if existsb (String.eqb x) seen then unique_from seen rest
      else x :: unique_from (x :: seen) rest
  end.

Definition unique (l : list string) : list string := unique_from [] l.

(** A [Map] with string keys, in insertion order.  [upsert key update m]
    is [m.set(key, update(m.get(key)))]: an existing key keeps its place. *)
Fixpoint upsert {V : Type} (key : string) (update : option V -> V)
    (m : list (string * V)) : list (string * V) :=
  match m with
  | [] => [(key, update None)]
  | (k, v) :: rest =>
      if String.eqb k key then (k, update (Some v)) :: rest
      else (k, v) :: upsert key update rest
  end.

Fixpoint map_get {V : Type} (key : string) (m : list (string * V)) : option V :=
  match m with
  | [] => None
  | (k, v) :: rest => if String.eqb k key then Some v else map_get key rest
  end.

End JsArray.

(* ------------------------------------------------------------------ *)
(** ** Google Places provider, in detail (providers/google-places.ts) *)

Module GooglePlaces.
Import Js Json Types JsArray.

(** A place of the Nearby Search response. *)
Record Place : Type := mkPlace {
  place_id : string;
  name : string;
  rating : option number;
  user_ratings_total : option number;
  vicinity : option string;
  location_lat : option number;
  location_lng : option number;
  types : option (list string)
}.

(** The two requests as oracles: the [status] and [results] of the
    geocoding response (each result with its [geometry.location]) and of
    the Nearby Search response for a location and a radius.  A request
    that fails, or a response that cannot be read as far as the code reads
    it, is the rejected case. *)
Record PlacesApi : Type := mkPlacesApi {
  geocode : string -> Promise (string * option (list (number * number)));
  nearby : number -> number -> number -> Promise (string * option (list Place))
}.

Definition geocodeZip (api : PlacesApi) (zipCode : string)
  : Promise (option (number * number)) :=
  match geocode api zipCode with
  | Rejected e => Rejected e
  | Fulfilled (status, results) =>
      if negb (String.eqb status "OK") then Fulfilled None
      else
        match results with
        | Some (loc :: _) => Fulfilled (Some loc)
        | _ => Fulfilled None
        end
  end.

Definition competitor_of (place : Place) : PlacesCompetitor :=
  mkPlacesCompetitor (place_id place) (name place) (rating place)
    (user_ratings_total place) (vicinity place)
    (match location_lat place with Some x => x | None => 0 end)
    (match location_lng place with Some x => x | None => 0 end)
    (match types place with Some t => t | None => [] end).

(** [c.reviewCount ?? 0] *)
Definition reviews (c : PlacesCompetitor) : number :=
  match pc_reviewCount c with Some n => n | None => 0 end.

Definition MAX_RADIUS_METERS : number := 50000.
Definition MAX_COMPETITORS : nat := 20.

Definition nearbySearch (api : PlacesApi) (lat lng radiusMeters : number)
  : Promise (list PlacesCompetitor) :=
  match nearby api lat lng (Math_min radiusMeters MAX_RADIUS_METERS) with
  | Rejected e => Rejected e
  | Fulfilled (status, results) =>
      if negb (String.eqb status "OK") && negb (String.eqb status "ZERO_RESULTS")
      then Fulfilled []
      else
        (* Sort by review count descending, cap at 20 *)
        Fulfilled
          (firstn MAX_COMPETITORS
             (sort_desc reviews
                (map competitor_of (match results with Some l => l | None => [] end))))
  end.

(** The requests made inside the [try] of [getCompetitors], for the
    radius in meters it computed. *)
Definition search (api : PlacesApi) (zipCode : string) (radiusMeters : number)
  : Promise (list PlacesCompetitor) :=
  match geocodeZip api zipCode with
  | Rejected e => Rejected e
  | Fulfilled None => Fulfilled []
  | Fulfilled (Some (lat, lng)) => nearbySearch api lat lng radiusMeters
  end.

Definition getCompetitors (config : Configuration.Config) (api : PlacesApi)
    (zipCode : string) (radiusMiles : option number)
  : Promise (list PlacesCompetitor) :=
  Interfaces.getCompetitors
    (CompetitorProviders.GooglePlacesCompetitorProvider config (search api))
    zipCode radiusMiles.

End GooglePlaces.

(* ------------------------------------------------------------------ *)
(** ** The CRM snapshot (db.ts) *)

Module Crm.
Import Js Json Types Runtime Db JsArray.
Local Open Scope js_scope.

(** CRM lookback period in months. *)
Definition CRM_LOOKBACK_MONTHS : Z := 12.

(** Max top cities to return in CRM snapshot. *)
Definition MAX_TOP_CITIES : nat := 10.

(** A row of [quotes] with its [quote_areas ( type )]; [q_total_price] is
    [Number(q.total_price)] when that is a number. *)
Record QuoteRow : Type := mkQuoteRow {
  q_status : string;
  q_total_price : option number;
  q_property_id : option string;
  q_quote_areas : option (list (option string))
}.

Record PropertyRow : Type := mkPropertyRow {
  p_id : string;
  p_city : option string;
  p_state : option string
}.

(** The answers of the two reads, [data] and [error]: the quotes of an
    account since the lookback date, and the properties with the given
    ids. *)
Record CrmTables : Type := mkCrmTables {
  quotes : string -> Z -> option (list QuoteRow) * option string;
  properties : list string -> option (list PropertyRow) * option string
}.

(** [l.filter(Boolean)] on optional strings. *)
Definition truthy_strings (l : list (option string)) : list string :=
  flat_map (fun s => match s with
                     | Some t => if truthy_string t then [t] else []
                     | None => []
                     end) l.

Definition propertyIds (rows : list QuoteRow) : list string :=
  unique (truthy_strings (map q_property_id rows)).

(** [propertyMap]: id to city and state, for the properties with a city. *)
Definition propertyMap_of (rows : list PropertyRow) : list (string * (string * string)) :=
  fold_left
    (fun m p =>
       match p_city p with
       | Some city =>
           if truthy_string city
           then upsert (p_id p)
                  (fun _ => (city, match p_state p with Some s => s | None => "" end)) m
           else m
       | None => m
       end)
    rows [].

Definition propertyMap (tables : CrmTables) (rows : list QuoteRow)
  : list (string * (string * string)) :=
  match propertyIds rows with
  | [] => []
  | ids =>
      match properties tables ids with
      | (Some found, None) => propertyMap_of found
      | _ => []
      end
  end.

(** An entry of [serviceMap]. *)
Record Tally : Type := mkTally {
  t_quotes : Z;
  t_won : Z;
  t_totalRevenue : number
}.

Definition isWon (q : QuoteRow) : bool :=
  String.eqb (q_status q) "approved" || String.eqb (q_status q) "completed".

(** The unique area types of a quote, ["Unknown"] when it has none. *)
Definition serviceTypes (q : QuoteRow) : list string :=
  match unique (truthy_strings
                  (match q_quote_areas q with Some areas => areas | None => [] end)) with
  | [] => ["Unknown"]
  | types => types
  end.

(** [Number(q.total_price) || 0] *)
Definition revenue (q : QuoteRow) : number :=
  match q_total_price q with Some price => price | None => 0 end.

(** The body of the loop over the quotes: the quote is counted once in
    each of its services, its revenue split across them when it is won. *)
Definition count_quote (serviceMap : list (string * Tally)) (q : QuoteRow)
  : list (string * Tally) :=
  let types := serviceTypes q in
  fold_left
    (fun m svc =>
       upsert svc
         (fun found =>
            let entry := match found with Some e => e | None => mkTally 0 0 0 end in
            if isWon q
            then mkTally (t_quotes entry + 1) (t_won entry + 1)
                   (t_totalRevenue entry
                    + revenue q / inject_Z (Z.of_nat (List.length types)))
            else mkTally (t_quotes entry + 1) (t_won entry) (t_totalRevenue entry))
         m)
    types serviceMap.

Definition serviceMap (rows : list QuoteRow) : list (string * Tally) :=
  fold_left count_quote rows [].

Definition breakdown_of (entry : string * Tally) : CrmServiceBreakdown :=
  let (service, data) := entry in
  mkCrmServiceBreakdown service (inject_Z (t_quotes data))
    (if (0 <? t_quotes data)%Z
     then Math_round (inject_Z (t_won data) / inject_Z (t_quotes data) * 100) / 100
     else 0)
    (if (0 <? t_won data)%Z
     then Math_round (t_totalRevenue data / inject_Z (t_won data))
     else 0)
    (Math_round (t_totalRevenue data)).

Definition serviceBreakdown (rows : list QuoteRow) : list CrmServiceBreakdown :=
  sort_desc sb_totalRevenue (map breakdown_of (serviceMap rows)).

Definition city_key (prop : string * string) : string :=
  let (city, state) := prop in
  if truthy_string state then (city ++ ", " ++ state)%string else city.

Definition cityMap (properties : list (string * (string * string)))
    (rows : list QuoteRow) : list (string * Z) :=
  fold_left
    (fun m q =>
       match q_property_id q with
       | Some property_id =>
           match map_get property_id properties with
           | Some prop =>
               if truthy_string (fst prop)
               then upsert (city_key prop)
                      (fun count => match count with
                                    | Some n => (n + 1)%Z
                                    | None => 1%Z
                                    end) m
               else m
           | None => m
           end
       | None => m
       end)
    rows [].

Definition topCities (properties : list (string * (string * string)))
    (rows : list QuoteRow) : list CrmCityCount :=
  firstn MAX_TOP_CITIES
    (sort_desc cc_quoteCount
       (map (fun entry => mkCrmCityCount (fst entry) (inject_Z (snd entry)))
            (cityMap properties rows))).

(** The snapshot built from a non-empty answer of the quotes read. *)
Definition snapshot (tables : CrmTables) (rows : list QuoteRow) : CrmSnapshot :=
  let breakdown := serviceBreakdown rows in
  let totalQuotes := List.length rows in
  let wonQuotes := List.length (filter isWon rows) in
  let totalRevenue := fold_left (fun sum s => sum + sb_totalRevenue s) breakdown 0 in
  mkCrmSnapshot
    (inject_Z (Z.of_nat totalQuotes))
    (inject_Z (Z.of_nat wonQuotes))
    totalRevenue
    (if (0 <? wonQuotes)%nat
     then Math_round (totalRevenue / inject_Z (Z.of_nat wonQuotes))
     else 0)
    breakdown
    (topCities (propertyMap tables rows) rows).

(** [lookbackDate] is the date twelve months before the call. *)
Definition getCrmSnapshot (tables : CrmTables) (lookbackDate : Z) (accountId : string)
  : M (option CrmSnapshot) :=
  db <- getDb ;;
  match quotes tables accountId lookbackDate with
  | (_, Some message) =>
      emit (console_error ("[CRM] Error fetching quotes: " ++ message)) ;;;
      ret None
  | (None, None) => ret None
  | (Some [], None) => ret None (* No CRM data available *)
  | (Some rows, None) => ret (Some (snapshot tables rows))
  end.

End Crm.

(* ------------------------------------------------------------------ *)
(** ** Further statements about the code *)

Module Coverage.
Import Js Json Types.

(** The number of entries the estimate provider pushes for one service:
    one per keyword and one more per keyword and city; an unknown service
    has the four generic keywords. *)
Definition entries_count (cities : list string) (service : string) : nat :=
  match KeywordEstimates.findServiceEstimates (toLowerCase service) with
  | KeywordEstimates.OwnEntry e =>
      (List.length (KeywordEstimates.keywords e) * (1 + List.length cities))%nat
  | _ => (4 * (1 + List.length cities))%nat
  end.

(** The service name lower-cases to a member of [Object.prototype]. *)
Definition names_prototype_member (service : string) : Prop :=
  toLowerCase service = "constructor" \/ toLowerCase service = "__proto__".

(** [x] lies in the closed range. *)
Definition within (range : number * number) (x : number) : Prop :=
  fst range <= x /\ x <= snd range.

(** A range with whole-number end points, the lower one first. *)
Definition whole_range (range : number * number) : Prop :=
  exists lo hi, (lo <= hi)%Z /\ range = (inject_Z lo, inject_Z hi).

(** The body of POST /api/analyze lacks a zip code or names no service. *)
Definition missing_fields (body : Routes.AnalyzeBody) : Prop :=
  match Routes.body_zipCode body with
  | None => True
  | Some zipCode => zipCode = EmptyString
  end
  \/ match Routes.body_services body with
     | None => True
     | Some services => services = []
     end.

(** The dollar amount a micros value stands for. *)
Definition dollars (micros : option Z) : number :=
  match micros with
  | Some m => inject_Z m / 1000000
  | None => 0
  end.

(** What holds of an entry the Keyword Planner provider returns for a
    request: it belongs to a requested service, it has a search volume or
    a cost per click, and its city, if it has one, is a requested, non-empty
    city whose name the keyword contains. *)
Definition planner_entry_ok (services cities : list string) (kd : KeywordData) : Prop :=
  In (kd_service kd) services
  /\ ~ (kd_monthlySearches kd == 0 /\ kd_avgCpc kd == 0)
  /\ match kd_city kd with
     | None => True
     | Some city =>
         In city cities
         /\ city <> EmptyString
         /\ includes (toLowerCase (kd_keyword kd)) (toLowerCase city) = true
     end.

(** The request passes the checks of the auth middleware as [auth]: its
    API key is the configured, non-empty one, it carries a bearer token,
    and the token is that of a user with an account claim. *)
Definition accepted (growthApiKey : string)
    (getUser : string -> Promise (option Auth.User * option string))
    (headers : Auth.Headers) (auth : Usage.AuthContext) : Prop :=
  exists apiKey authHeader user account,
    Auth.x_api_key headers = Some apiKey
    /\ apiKey <> EmptyString
    /\ apiKey = growthApiKey
    /\ Auth.authorization headers = Some authHeader
    /\ String.prefix "Bearer " authHeader = true
    /\ getUser (Auth.slice 7 authHeader) = Fulfilled (Some user, None)
    /\ Auth.claimed_account user = Some account
    /\ account <> EmptyString
    /\ auth = Usage.mkAuthContext account (Auth.user_id user).

(** The body of POST /api/plan lacks one of the required fields. *)
Definition plan_fields_missing (body : PlanRoutes.PlanBody) : Prop :=
  PlanRoutes.truthy_text (PlanRoutes.body_analysisId body) = false
  \/ PlanRoutes.has_length (PlanRoutes.body_selectedServices body) = false
  \/ PlanRoutes.has_length (PlanRoutes.body_selectedCities body) = false
  \/ PlanRoutes.truthy_number (PlanRoutes.body_dailyBudget body) = false
  \/ PlanRoutes.truthy_number (PlanRoutes.body_hardCap body) = false.

(** The identifier [saveCampaignPlan] returns in a world. *)
Definition saved_plan_id (w : Runtime.World) : option string :=
  match Runtime.fault w "growth_campaign_plans" "insert" with
  | Some _ => None
  | None => Db.id_or_null (Runtime.gen_random_uuid w (Runtime.uuid_calls w))
  end.

(** The plan [generatePlan] assembles, before the identifier is attached. *)
Definition assembled_plan (request : PlanGenerationRequest)
    (campaigns : list PlanGenerationService.PlannedCampaign) (summary : value)
    (clock : MarketAnalysisService.Clock) : PlanGenerationService.CampaignPlan :=
  PlanGenerationService.mkCampaignPlan (pr_analysisId request) campaigns
    (pr_dailyBudget request) (pr_hardCap request) summary
    (Iso (MarketAnalysisService.generatedAtTime clock)) None.

(** The database after [generatePlan] stored [plan] and logged the event. *)
Definition stored_plan (w : Runtime.World) (db : Runtime.Database)
    (request : PlanGenerationRequest) (accountId userId : string)
    (plan : PlanGenerationService.CampaignPlan)
    (clock : MarketAnalysisService.Clock) : Runtime.Database :=
  Runtime.mkDatabase
    (match Runtime.fault w "growth_usage_log" "insert" with
     | Some _ => Runtime.growth_usage_log db
     | None =>
         Runtime.growth_usage_log db
         ++ [Runtime.mkUsageRow accountId userId "plan_generation"
               (PlanGenerationService.plan_usage_metadata request
                  (List.length (PlanGenerationService.campaigns plan))
                  (MarketAnalysisService.endTime clock
                   - MarketAnalysisService.startTime clock)%Z
                  (saved_plan_id w))
               (Runtime.db_now w)]
     end)
    (Runtime.growth_market_analyses db)
    (match Runtime.fault w "growth_campaign_plans" "insert" with
     | Some _ => Runtime.growth_campaign_plans db
     | None =>
         Runtime.growth_campaign_plans db
         ++ [Runtime.mkPlanRow
               (Runtime.gen_random_uuid w (Runtime.uuid_calls w))
               accountId userId (pr_analysisId request)
               (PlanGenerationService.CampaignPlan_json plan)
               (Runtime.db_now w)]
     end).

(** An entry of the service breakdown is consistent with a snapshot of
    [total] quotes: it counts at least one quote and at most all of them,
    and its win rate is a fraction. *)
Definition sane_breakdown (total : number) (b : CrmServiceBreakdown) : Prop :=
  1 <= sb_quoteCount b /\ sb_quoteCount b <= total
  /\ 0 <= sb_winRate b /\ sb_winRate b <= 1.

(** A tally of [serviceMap] after [n] quotes: it counts at least one and
    at most [n] quotes, and no more won quotes than quotes. *)
Definition good_tally (n : Z) (t : Crm.Tally) : Prop :=
  (1 <= Crm.t_quotes t <= n)%Z /\ (0 <= Crm.t_won t <= Crm.t_quotes t)%Z.

End Coverage.

(* ------------------------------------------------------------------ *)
(** ** Further scenarios *)

Module MoreScenarios.
Import Js Json Types Runtime Db Usage Interfaces Configuration Routes Scenarios.

Definition event (account : string) (at_ : Z) : UsageRow :=
  mkUsageRow account "user" "market_analysis" (JObject []) at_.

(** Ten events of account-a in the month of [Scenarios.month], one from
    the month before and two of another account. *)
Definition database_with_ten_events : Database :=
  mkDatabase
    ([ event "account-a" 1698000000000; event "account-b" 1699000000000 ]
     ++ map (event "account-a")
          [ 1698800000000; 1698900000000; 1699000000000; 1699100000000;
            1699200000000; 1699300000000; 1699400000000; 1699500000000;
            1699600000000; 1699700000000 ]%Z
     ++ [ event "account-b" 1699800000000 ])
    [] [].

(** A configuration with the reasoning-engine key only. *)
Definition config_bare : Config :=
  mkConfig "sk-test" "gpt-4o" "" "" "" "" "" "" "" false.

(** Every external service answers, with data. *)
Definition externals_answering : Externals :=
  mkExternals ads_rejecting []
    (fun _ _ => Fulfilled [mkPlacesCompetitor "p1" "Ace Painting" None None None 0 0 []])
    (fun query _ => Fulfilled (Some (mkSerpResult query [] [] [])))
    (openai_answering analysis_answer plan_answer)
    (fun _ => Fulfilled None)
    (fun _ => WebsiteAnalyzer.threw (WebsiteAnalyzer.an_Error "TypeError" "fetch failed")).

(** A Google Ads API that suggests no geo target and answers every
    request for ideas with three ideas: one with metrics that names Austin,
    one without metrics, one whose metrics are all zero. *)
Definition ads_with_ideas : GoogleAdsKeywordPlanner.GoogleAdsApi :=
  GoogleAdsKeywordPlanner.mkGoogleAdsApi
    (fun _ _ _ =>
       Fulfilled
         (Some [ GoogleAdsKeywordPlanner.mkKeywordIdea
                   (Some "Interior Painting Austin")
                   (Some (GoogleAdsKeywordPlanner.mkKeywordIdeaMetrics
                            (Some 2500000%Z) (Some 1200%Z) (Some 3%Z)));
                 GoogleAdsKeywordPlanner.mkKeywordIdea (Some "house painters") None;
                 GoogleAdsKeywordPlanner.mkKeywordIdea
                   (Some "interior painter")
                   (Some (GoogleAdsKeywordPlanner.mkKeywordIdeaMetrics
                            (Some 0%Z) (Some 0%Z) None)) ]))
    (fun _ _ => Fulfilled None).

(** No bypass variable is set. *)
Definition env_production : Auth.Env := Auth.mkEnv None None None.

(** A request with a guessed API key and a bearer token. *)
Definition headers_wrong_key : Auth.Headers :=
  Auth.mkHeaders (Some "guess") (Some "Bearer token-of-alice").

(** The configured key and a bearer token. *)
Definition headers_alice : Auth.Headers :=
  Auth.mkHeaders (Some "secret") (Some "Bearer token-of-alice").

(** The database [Scenarios.plan_run] leaves. *)
Definition database_after_plan : Database :=
  match supabase (snd Scenarios.plan_run) with
  | Some db => db
  | None => Scenarios.empty_database
  end.

(** Every token is that of user-a of account-a. *)
Definition getUser_alice (token : string) : Promise (option Auth.User * option string) :=
  Fulfilled (Some (Auth.mkUser "user-a" (Some "account-a") None), None).

Definition body_A : AnalyzeBody :=
  mkAnalyzeBody (Some "92101") (Some ["interior painting"]) None None None.

Definition plan_body : PlanRoutes.PlanBody :=
  PlanRoutes.mkPlanBody (Some "analysis-1") (Some ["interior painting"])
    (Some ["San Diego"]) (Some 50) (Some 1200) (Some "555-0100").

(** Three quotes of one account: a won quote for two services, a lost
    one, and one without areas; the properties are in San Diego. *)
Definition crm_tables : Crm.CrmTables :=
  Crm.mkCrmTables
    (fun _ _ =>
       (Some [ Crm.mkQuoteRow "approved" (Some 3000) (Some "prop-1")
                 (Some [Some "interior"; Some "exterior"; Some "interior"]);
               Crm.mkQuoteRow "sent" (Some 1200) (Some "prop-2") (Some [Some "interior"]);
               Crm.mkQuoteRow "completed" None None None ],
        None))
    (fun _ =>
       (Some [ Crm.mkPropertyRow "prop-1" (Some "San Diego") (Some "CA");
               Crm.mkPropertyRow "prop-2" (Some "San Diego") (Some "CA") ],
        None)).

End MoreScenarios.

(* ------------------------------------------------------------------ *)
(** * Properties *)

(** ** Rounding *)

Module JsFacts.
Import Js.

Lemma Math_round_lower (x : number) : x - (1 # 2) < Math_round x.
Proof.
  unfold Math_round.
  pose proof (Qlt_floor (x + (1 # 2))) as H.
  rewrite inject_Z_plus in H. change (inject_Z 1) with 1 in H. lra.
Qed.

Lemma Math_round_upper (x : number) : Math_round x <= x + (1 # 2).
Proof. unfold Math_round. apply Qfloor_le. Qed.

Lemma Math_round_nonneg (x : number) : 0 <= x -> 0 <= Math_round x.
Proof.
  intros Hx. unfold Math_round.
  change 0 with (inject_Z 0). rewrite <- Zle_Qle.
  change 0%Z with (Qfloor 0). apply Qfloor_resp_le. lra.
Qed.

Lemma Math_round_mono (x y : number) : x <= y -> Math_round x <= Math_round y.
Proof.
  intros Hxy. unfold Math_round. rewrite <- Zle_Qle.
  apply Qfloor_resp_le. lra.
Qed.

Lemma Math_round_int (z : Z) : Math_round (inject_Z z) = inject_Z z.
Proof.
  unfold Math_round. f_equal.
  assert (Hlo : (z <= Qfloor (inject_Z z + (1 # 2)))%Z).
  { rewrite <- (Qfloor_Z z) at 1. apply Qfloor_resp_le. lra. }
  assert (Hhi : (Qfloor (inject_Z z + (1 # 2)) < z + 1)%Z).
  { rewrite Zlt_Qlt.
    eapply Qle_lt_trans; [apply Qfloor_le|].
    rewrite inject_Z_plus. change (inject_Z 1) with 1. lra. }
  lia.
Qed.

Lemma Math_round_comp (x y : number) : x == y -> Math_round x = Math_round y.
Proof.
  intros Hxy. unfold Math_round. f_equal.
  apply Qfloor_comp. rewrite Hxy. reflexivity.
Qed.

End JsFacts.

(* ------------------------------------------------------------------ *)
(** ** The market estimate interpolator *)

Module KeywordEstimatesFacts.
Import Js Types KeywordEstimates Spec JsFacts.

Lemma setMarketFactor_range (this : EstimateMarketDataProvider) (factor : number) :
  0 <= marketFactor (setMarketFactor this factor)
  /\ marketFactor (setMarketFactor this factor) <= 1.
Proof.
  unfold setMarketFactor, Math_max, Math_min. simpl. split.
  - apply Q.le_max_l.
  - apply Q.max_lub; [lra | apply Q.le_min_l].
Qed.

Lemma new_provider_range :
  0 <= marketFactor new_EstimateMarketDataProvider
  /\ marketFactor new_EstimateMarketDataProvider <= 1.
Proof. simpl. lra. Qed.

(** [calculateMarketFactor] never exceeds 1 ... *)
Lemma calculateMarketFactor_le_1 (competitorCount avgReviewCount : number) :
  calculateMarketFactor competitorCount avgReviewCount <= 1.
Proof.
  unfold calculateMarketFactor, Math_min.
  set (cf := Qmin _ 1). set (rf := Qmin _ 1).
  assert (Hcf : cf <= 1) by apply Q.le_min_r.
  assert (Hrf : rf <= 1) by apply Q.le_min_r.
  assert (H : Math_round ((cf * COMPETITOR_COUNT_WEIGHT + rf * REVIEW_DENSITY_WEIGHT) * 100)
              <= 100).
  { change 100 with (Math_round (inject_Z 100)) at 2.
    rewrite Math_round_int.
    change (inject_Z 100) with (Math_round (inject_Z 100)).
    apply Math_round_mono.
    unfold COMPETITOR_COUNT_WEIGHT, REVIEW_DENSITY_WEIGHT.
    change (inject_Z 100) with 100. lra. }
  apply Qle_shift_div_r; lra.
Qed.

(** ... is not negative when its arguments are not ... *)
Lemma calculateMarketFactor_nonneg (competitorCount avgReviewCount : number) :
  0 <= competitorCount -> 0 <= avgReviewCount ->
  0 <= calculateMarketFactor competitorCount avgReviewCount.
Proof.
  intros Hc Hr. unfold calculateMarketFactor, Math_min.
  set (cf := Qmin _ 1). set (rf := Qmin _ 1).
  assert (Hcf : 0 <= cf).
  { apply Q.min_glb; [|lra]. unfold MAX_COMPETITORS_SIGNAL.
    apply Qle_shift_div_l; lra. }
  assert (Hrf : 0 <= rf).
  { apply Q.min_glb; [|lra]. unfold MAX_AVG_REVIEWS_SIGNAL.
    apply Qle_shift_div_l; lra. }
  apply Qle_shift_div_l; [lra|].
  rewrite Qmult_0_l. apply Math_round_nonneg.
  unfold COMPETITOR_COUNT_WEIGHT, REVIEW_DENSITY_WEIGHT. lra.
Qed.

(** ... and is negative for some negative arguments: the only lower clamp
    is the one [setMarketFactor] applies to the factor it is handed. *)
Lemma calculateMarketFactor_not_clamped_below :
  calculateMarketFactor (-20) 0 == -0.35.
Proof. reflexivity. Qed.

(** The factor computed from a competitor count of -20 and no reviews is
    negative. *)
Lemma negative_count_gives_negative_factor : ~ factor_in_unit_interval (-20) 0.
Proof.
  unfold factor_in_unit_interval. intros [Hlow _].
  assert (H : calculateMarketFactor (-20) 0 == -0.35) by reflexivity.
  rewrite H in Hlow. revert Hlow. apply Qlt_not_le. reflexivity.
Qed.

(** C8, as amended: for every pair of inputs (competitor count, average
    review count) that are both at least 0, extreme values included, the
    market factor [calculateMarketFactor] computes lies in the interval
    [0, 1]. *)
Theorem market_factor_in_unit_interval (competitorCount avgReviewCount : number) :
  0 <= competitorCount -> 0 <= avgReviewCount ->
  factor_in_unit_interval competitorCount avgReviewCount.
Proof.
  intros Hcount Hreviews. split.
  - apply calculateMarketFactor_nonneg; assumption.
  - apply calculateMarketFactor_le_1.
Qed.

Lemma market_factor_in_unit_interval_witness :
  factor_in_unit_interval 12 250 /\ factor_in_unit_interval 1000000 0.
Proof.
  split.
  - apply (market_factor_in_unit_interval 12 250); unfold Qle; simpl; lia.
  - apply (market_factor_in_unit_interval 1000000 0); unfold Qle; simpl; lia.
Defined.

(** *** City-qualified keywords *)







Lemma assoc_in (key : string) (table : list (string * ServiceEstimate)) (e : ServiceEstimate) :
  assoc key table = Some e -> exists k, In (k, e) table.
Proof.
  induction table as [|[k v] rest IH]; simpl; [discriminate|].
  destruct (String.eqb k key).
  - intros [= <-]. exists k. now left.
  - intros H. destruct (IH H) as [k' Hin]. exists k'. now right.
Qed.




(** What the loop of [getKeywordData] adds to the results it started from:
    for each result, either it was there, or it belongs to the block of
    entries of one service, all of which are among the results. *)
Lemma getKeywordData_loop_blocks (this : EstimateMarketDataProvider)
    (cities services : list string) :
  forall acc results,
    getKeywordData_loop this cities services acc = Fulfilled results ->
    incl acc results
    /\ forall kd, In kd results ->
         In kd acc
         \/ exists service block,
              In kd block /\ incl block results
              /\ ((findServiceEstimates (toLowerCase service) = NoEntry
                   /\ block = generateGenericEstimates this service cities)
                  \/ exists e, findServiceEstimates (toLowerCase service) = OwnEntry e
                               /\ block = templateEstimates (marketFactor this) e service cities).
Proof.
  induction services as [|service rest IH]; intros acc results Hrun; simpl in Hrun.
  - injection Hrun as <-. split; [apply incl_refl | intros kd Hin; now left].
  - destruct (findServiceEstimates (toLowerCase service)) as [e| |] eqn:Hfind;
      [ | discriminate | ].
    + destruct (IH _ _ Hrun) as [Hincl Hsplit]. split.
      * intros x Hx. apply Hincl, in_or_app. now left.
      * intros kd Hin. destruct (Hsplit kd Hin) as [Hacc | Hblock]; [|now right].
        apply in_app_or in Hacc. destruct Hacc as [Hacc | Hnew]; [now left|].
        right. exists service, (templateEstimates (marketFactor this) e service cities).
        split; [exact Hnew|]. split.
        -- intros x Hx. apply Hincl, in_or_app. now right.
        -- right. exists e. now split.
    + destruct (IH _ _ Hrun) as [Hincl Hsplit]. split.
      * intros x Hx. apply Hincl, in_or_app. now left.
      * intros kd Hin. destruct (Hsplit kd Hin) as [Hacc | Hblock]; [|now right].
        apply in_app_or in Hacc. destruct Hacc as [Hacc | Hnew]; [now left|].
        right. exists service, (generateGenericEstimates this service cities).
        split; [exact Hnew|]. split.
        -- intros x Hx. apply Hincl, in_or_app. now right.
        -- left. now split.
Qed.

(** [getKeywordData] returns, unless a service name lower-cases to a
    member of [Object.prototype]. *)
Lemma getKeywordData_returns (this : EstimateMarketDataProvider)
    (services cities : list string) :
  Forall (fun service => findServiceEstimates (toLowerCase service) <> PrototypeMember)
         services ->
  exists results, getKeywordData this services cities "" = Fulfilled results.
Proof.
  unfold getKeywordData. generalize (@nil KeywordData).
  induction services as [|service rest IH]; intros acc Hall; simpl.
  - now exists acc.
  - inversion Hall as [|? ? Hhead Htail]; subst.
    destruct (findServiceEstimates (toLowerCase service)); [ | contradiction | ];
      apply IH; assumption.
Qed.




(** The upper bound fails as well: at market factor 0.999 the base volume
    is 699 and the city variant has 245, above 0.35 * 699 = 244.65. *)
Lemma city_volume_above_upper_share :
  ~ city_keywords_spec 0 0.999 ["cabinet painting"] ["Austin"].
Proof.
  intros H. unfold city_keywords_spec in H.
  specialize (H _ eq_refl
                (mkKeywordData "cabinet painting Austin" 245 20.69 low
                               "cabinet painting" (Some "Austin"))
                "Austin").
  destruct H as [base [Hin Hv]].
  - vm_compute. right. left. reflexivity.
  - reflexivity.
  - destruct Hv as (Hcity & _ & _ & [_ Hhi] & _).
    vm_compute in Hin.
    repeat (destruct Hin as [<- | Hin];
            [ first [ discriminate Hcity
                    | vm_compute in Hhi; apply Hhi; reflexivity ] | ]).
    exact Hin.
Qed.

End KeywordEstimatesFacts.

(* ------------------------------------------------------------------ *)
(** ** Running the monad *)

Module RuntimeFacts.
Import Js Json Types Runtime.
Local Open Scope js_scope.

Lemma bind_run {A B : Type} (m : M A) (k : A -> M B) (w w' : World) (a : A) :
  m w = (Fulfilled a, w') -> bind m k w = k a w'.
Proof. intros H. unfold bind. rewrite H. reflexivity. Qed.

Lemma bind_rejected {A B : Type} (m : M A) (k : A -> M B) (w w' : World) (e : string) :
  m w = (Rejected e, w') -> bind m k w = (Rejected e, w').
Proof. intros H. unfold bind. rewrite H. reflexivity. Qed.

Lemma await_run_eq {A : Type} (p : Promise A) (w : World) : await p w = (p, w).
Proof. reflexivity. Qed.

Lemma logged_nil (w : World) : logged w [] = w.
Proof. destruct w. unfold logged. simpl. rewrite app_nil_r. reflexivity. Qed.

Lemma logged_logged (w : World) (a b : list Event) :
  logged (logged w a) b = logged w (a ++ b).
Proof. unfold logged. simpl. rewrite app_assoc. reflexivity. Qed.

Lemma skipn_own_length {A : Type} (l extra : list A) :
  skipn (List.length l) (l ++ extra) = extra.
Proof. induction l as [|x l IH]; simpl; [reflexivity | exact IH]. Qed.

End RuntimeFacts.

(* ------------------------------------------------------------------ *)
(** ** The quota gate *)

Module QuotaGateFacts.
Import Js Json Types Runtime Db Usage Routes Spec RuntimeFacts.
Local Open Scope js_scope.

Lemma getUsageQuota_read_error (month : Month) (account message : string)
    (w : World) (db : Database) :
  supabase w = Some db ->
  fault w "growth_usage_log" "select" = Some message ->
  getUsageQuota month account w
  = (Fulfilled (closed_quota month),
     logged (logged w [db_query "growth_usage_log" "select" account (Some message)])
            [console_error ("[Usage] CRITICAL: Error checking quota: " ++ message)]).
Proof.
  intros Hdb Hfault.
  unfold getUsageQuota, bind, getDb, get_fault, emit, ret. rewrite Hdb, Hfault.
  reflexivity.
Qed.

(** When the read succeeds the gate counts the ledger. *)
Lemma getUsageQuota_counts (month : Month) (account : string)
    (w : World) (db : Database) :
  supabase w = Some db ->
  fault w "growth_usage_log" "select" = None ->
  getUsageQuota month account w
  = (Fulfilled (mkUsageQuota (count_usage db account (startOfMonth month))
                  DEFAULT_MONTHLY_QUOTA
                  (Z.max 0 (DEFAULT_MONTHLY_QUOTA - count_usage db account (startOfMonth month)))
                  (Iso (startOfMonth month)) (Iso (endOfMonth month))),
     logged w [db_query "growth_usage_log" "select" account None]).
Proof.
  intros Hdb Hfault.
  unfold getUsageQuota, bind, getDb, get_fault, emit, ret. rewrite Hdb, Hfault.
  reflexivity.
Qed.

Lemma getUsageQuota_without_client (month : Month) (account : string) (w : World) :
  supabase w = None ->
  getUsageQuota month account w
  = (Rejected "DB not initialized — call initDb() first", w).
Proof.
  intros Hdb. unfold getUsageQuota, bind, getDb. rewrite Hdb. reflexivity.
Qed.

(** The middleware does fail open when [getUsageQuota] throws, which it
    does only when the client was never initialised: no read is made. *)
Lemma middleware_open_without_client (month : Month) (a : AuthContext) (w : World) :
  supabase w = None ->
  fst (createUsageMiddleware None month (Some a) w) = Fulfilled (next None)
  /\ events_of (createUsageMiddleware None month (Some a)) w
     = [console_error "[Usage] Middleware error: DB not initialized — call initDb() first"].
Proof.
  intros Hdb. unfold events_of.
  unfold createUsageMiddleware, try_catch, bind. cbn [env_is].
  rewrite (getUsageQuota_without_client _ _ _ Hdb).
  unfold emit, ret. cbn [fst snd trace logged].
  split; [reflexivity | apply skipn_own_length].
Qed.

(** C3: for every account, if the usage-ledger read the quota gate performs
    fails, the gate reports remaining = 0 with used = limit, the request is
    answered with status 429 and the quota, and the handler of the gated
    endpoint is not run. *)
Theorem quota_gate_fails_closed (DEV_BYPASS_AUTH : option string) (month : Month)
    (auth : option AuthContext) (w : World) (account message : string) :
  In (db_query "growth_usage_log" "select" account (Some message))
     (events_of (createUsageMiddleware DEV_BYPASS_AUTH month auth) w) ->
  exists quota,
    remaining quota = 0%Z /\ used quota = limit quota
    /\ fst (createUsageMiddleware DEV_BYPASS_AUTH month auth w)
       = Fulfilled (respond 429 (quota_exceeded_body quota) (Some quota))
    /\ forall handler,
         gated DEV_BYPASS_AUTH month auth handler w
         = (Fulfilled (res_json 429 (quota_exceeded_body quota)),
            snd (createUsageMiddleware DEV_BYPASS_AUTH month auth w)).
Proof.
  unfold events_of, gated, bind.
  unfold createUsageMiddleware, try_catch.
  destruct (env_is DEV_BYPASS_AUTH "true").
  - unfold ret. cbn [fst snd]. rewrite skipn_all. intros [].
  - destruct auth as [a|].
    + unfold bind.
      destruct (supabase w) as [db|] eqn:Hdb.
      * destruct (fault w "growth_usage_log" "select") as [msg|] eqn:Hfault.
        -- rewrite (getUsageQuota_read_error _ _ _ _ _ Hdb Hfault).
           intros _. exists (closed_quota month).
           repeat split; reflexivity.
        -- rewrite (getUsageQuota_counts _ _ _ _ Hdb Hfault).
           match goal with |- context [if ?c then _ else _] => destruct c end;
             unfold ret; cbn [fst snd trace logged];
             rewrite skipn_own_length; intros [Heq | []]; discriminate Heq.
      * rewrite (getUsageQuota_without_client _ _ _ Hdb).
        unfold emit, ret, bind. cbn [fst snd trace logged].
        rewrite skipn_own_length. intros [Heq | []]. discriminate Heq.
    + unfold ret. cbn [fst snd]. rewrite skipn_all. intros [].
Qed.

(** Witness of C3: account-a, a ledger that answers "connection reset". *)
Lemma quota_gate_fails_closed_witness :
  In (db_query "growth_usage_log" "select" "account-a" (Some "connection reset"))
     (events_of (createUsageMiddleware None Scenarios.month (Some Scenarios.alice))
                Scenarios.world_ledger_unreadable)
  /\ exists quota,
       remaining quota = 0%Z /\ used quota = limit quota
       /\ fst (createUsageMiddleware None Scenarios.month (Some Scenarios.alice)
                 Scenarios.world_ledger_unreadable)
          = Fulfilled (respond 429 (quota_exceeded_body quota) (Some quota))
       /\ forall handler,
            gated None Scenarios.month (Some Scenarios.alice) handler
              Scenarios.world_ledger_unreadable
            = (Fulfilled (res_json 429 (quota_exceeded_body quota)),
               snd (createUsageMiddleware None Scenarios.month (Some Scenarios.alice)
                      Scenarios.world_ledger_unreadable)).
Proof.
  assert (H : In (db_query "growth_usage_log" "select" "account-a" (Some "connection reset"))
                (events_of (createUsageMiddleware None Scenarios.month (Some Scenarios.alice))
                           Scenarios.world_ledger_unreadable)).
  { vm_compute. left. reflexivity. }
  split; [exact H |].
  exact (quota_gate_fails_closed None Scenarios.month (Some Scenarios.alice)
           Scenarios.world_ledger_unreadable "account-a" "connection reset" H).
Defined.

End QuotaGateFacts.

(* ------------------------------------------------------------------ *)
(** ** The analysis pipeline *)

Module AnalysisFacts.
Import Js Json Types Runtime Db Interfaces MarketAnalysisService Spec RuntimeFacts.
Local Open Scope js_scope.

Lemma catch_log_run {A : Type} (p : Promise A) (line : string) (fallback : A) (w : World) :
  exists events,
    catch_log p line fallback w = (Fulfilled (catch_value p fallback), logged w events).
Proof.
  destruct p as [a | e]; simpl.
  - exists []. unfold ret. now rewrite logged_nil.
  - eexists. unfold bind, emit, ret. reflexivity.
Qed.

(** Every branch of [gather] is absorbed: it always returns the payload,
    and only the console is written. *)
Lemma gather_run (deps : MarketAnalysisServiceDeps) (request : MarketAnalysisRequest)
    (accountId : string) (w : World) :
  exists events,
    gather deps request accountId w
    = (Fulfilled (payload deps request accountId), logged w events).
Proof.
  unfold gather.
  destruct (catch_log_run
              (getCompetitors (competitors deps) (rq_zipCode request) (rq_radiusMiles request))
              "[Analysis] Competitor data error:" [] w) as [e1 H1].
  rewrite (bind_run _ _ _ _ _ H1).
  destruct (catch_log_run (gatherSerpResults deps request)
              "[Analysis] SERP data error:" [] (logged w e1)) as [e2 H2].
  rewrite (bind_run _ _ _ _ _ H2).
  destruct (catch_log_run (getCrmSnapshot deps accountId)
              "[Analysis] CRM data error:" None (logged (logged w e1) e2)) as [e3 H3].
  rewrite (bind_run _ _ _ _ _ H3).
  rewrite !logged_logged.
  unfold payload, website_content.
  destruct (rq_websiteUrl request) as [url|].
  - destruct (truthy_string url).
    + match goal with
      | |- context [catch_log ?p ?l ?f] =>
          destruct (catch_log_run p l f (logged w (e1 ++ e2 ++ e3))) as [e4 H4]
      end.
      rewrite (bind_run _ _ _ _ _ H4).
      match goal with
      | |- context [catch_log ?p ?l ?f] =>
          destruct (catch_log_run p l f (logged (logged w (e1 ++ e2 ++ e3)) e4)) as [e5 H5]
      end.
      rewrite (bind_run _ _ _ _ _ H5).
      rewrite !logged_logged. eexists. unfold ret.
      destruct (websiteReport deps url); reflexivity.
    + unfold bind at 1. unfold ret at 1.
      match goal with
      | |- context [catch_log ?p ?l ?f] =>
          destruct (catch_log_run p l f (logged w (e1 ++ e2 ++ e3))) as [e5 H5]
      end.
      rewrite (bind_run _ _ _ _ _ H5).
      rewrite !logged_logged. eexists. reflexivity.
  - unfold bind at 1. unfold ret at 1.
    match goal with
    | |- context [catch_log ?p ?l ?f] =>
        destruct (catch_log_run p l f (logged w (e1 ++ e2 ++ e3))) as [e5 H5]
    end.
    rewrite (bind_run _ _ _ _ _ H5).
    rewrite !logged_logged. eexists. reflexivity.
Qed.

Lemma assemble_run (llmInput : LlmMarketAnalysisInput) (llmOutput : json)
    (clock : Clock) (w : World) :
  llmOutput <> JNull ->
  assemble llmInput llmOutput clock w = (Fulfilled (assembled llmInput llmOutput clock), w).
Proof.
  intros Hnull. destruct llmOutput; try contradiction; reflexivity.
Qed.

Lemma assemble_null (llmInput : LlmMarketAnalysisInput) (clock : Clock) (w : World) :
  assemble llmInput JNull clock w
  = (Rejected "TypeError: Cannot read properties of null (reading 'summary')", w).
Proof. reflexivity. Qed.

(** Reduce a run as far as the initialised client [Hdb] allows. *)
Ltac run_store Hdb :=
  repeat (cbn -[assembled payload MarketAnalysis_json usage_metadata with_id
                String.append];
          rewrite Hdb);
  cbn -[assembled payload MarketAnalysis_json usage_metadata with_id String.append].

(** A run of [analyze] whose synthesis step returned a value other than
    [null]: the analysis is assembled, the identifier is the one the save
    produced, and the database holds what the two writes left. *)
Lemma analyze_run (deps : MarketAnalysisServiceDeps) (clock : Clock)
    (request : MarketAnalysisRequest) (accountId userId : string)
    (w : World) (db : Database) (llmOutput : json) :
  supabase w = Some db ->
  synthesizeMarketAnalysis (llm deps) (payload deps request accountId)
  = Fulfilled llmOutput ->
  llmOutput <> JNull ->
  exists w' events,
    analyze deps clock request accountId userId w
    = (Fulfilled (with_id (assembled (payload deps request accountId) llmOutput clock)
                          (saved_id w)),
       w')
    /\ supabase w'
       = Some (stored w db request accountId userId
                 (assembled (payload deps request accountId) llmOutput clock) clock)
    /\ trace w' = (trace w ++ events)%list
    /\ (forall message,
          fault w "growth_market_analyses" "insert" = Some message ->
          In (console_error ("[DB] Error saving analysis: " ++ message)) events)
    /\ (forall message,
          fault w "growth_usage_log" "insert" = Some message ->
          In (console_error ("[Usage] Error logging event: " ++ message)) events).
Proof.
  intros Hdb Hsynth Hnull. unfold analyze. destruct db as [ledger analyses plans].
  destruct (gather_run deps request accountId w) as [e0 Hg].
  rewrite (bind_run _ _ _ _ _ Hg).
  rewrite Hsynth.
  rewrite (bind_run _ _ _ _ _ (await_run_eq (Fulfilled llmOutput) _)).
  rewrite (bind_run _ _ _ _ _ (assemble_run _ _ _ _ Hnull)).
  unfold saveMarketAnalysis, logUsageEvent, stored, saved_id.
  unfold bind, getDb, get_fault, emit, fresh_uuid, get_db_now, set_database, ret.
  run_store Hdb.
  destruct (fault w "growth_market_analyses" "insert") as [m1|] eqn:F1;
    run_store Hdb;
    destruct (fault w "growth_usage_log" "insert") as [m2|] eqn:F2;
    run_store Hdb;
    eexists; eexists;
    (split; [reflexivity |]);
    (split; [cbn; try rewrite Hdb; reflexivity |]);
    (split; [cbn; rewrite <- !app_assoc; reflexivity |]);
    split; intros message Hm; try discriminate Hm; injection Hm as <-.
  all: try (apply in_or_app; right; simpl; tauto).
Qed.

(** A run whose synthesis step is rejected: the error reaches the caller
    and nothing but the console was written. *)
Lemma analyze_synthesis_rejected (deps : MarketAnalysisServiceDeps) (clock : Clock)
    (request : MarketAnalysisRequest) (accountId userId : string)
    (w : World) (e : string) :
  synthesizeMarketAnalysis (llm deps) (payload deps request accountId) = Rejected e ->
  exists events,
    analyze deps clock request accountId userId w = (Rejected e, logged w events).
Proof.
  intros Hsynth. unfold analyze.
  destruct (gather_run deps request accountId w) as [e0 Hg].
  rewrite (bind_run _ _ _ _ _ Hg). rewrite Hsynth.
  rewrite (bind_rejected _ _ _ _ _ (await_run_eq (Rejected e) _)).
  now exists e0.
Qed.

Lemma events_of_run {A : Type} (m : M A) (w w' : World) (r : Promise A)
    (events : list Event) :
  m w = (r, w') -> trace w' = (trace w ++ events)%list -> events_of m w = events.
Proof.
  intros Hrun Htrace. unfold events_of. rewrite Hrun. simpl.
  rewrite Htrace. apply skipn_own_length.
Qed.

(** *** Failing data sources *)

Lemma join_truthy (separator : string) (c : ascii) (first : string)
    (rest : list string) :
  truthy_string (WebsiteAnalyzer.join separator (String c first :: rest)) = true.
Proof. destruct rest; reflexivity. Qed.

(** [formatWebsiteForPrompt] never returns the empty string. *)
Lemma formatWebsiteForPrompt_truthy (analysis : WebsiteAnalyzer.WebsiteAnalysisResult) :
  truthy_string (WebsiteAnalyzer.formatWebsiteForPrompt analysis) = true.
Proof.
  assert (Hsections : truthy_string
                        (WebsiteAnalyzer.join WebsiteAnalyzer.LF
                           (WebsiteAnalyzer.sections analysis)) = true).
  { unfold WebsiteAnalyzer.sections. cbn [app String.append]. apply join_truthy. }
  unfold WebsiteAnalyzer.formatWebsiteForPrompt.
  destruct (WebsiteAnalyzer.error analysis) as [message|]; [|exact Hsections].
  destruct (truthy_string message); [reflexivity | exact Hsections].
Qed.

(** [analyzeWebsite] never rejects. *)
Lemma analyzeWebsite_returns (fetch : WebsiteAnalyzer.Fetcher) (inputUrl : string) :
  exists result, WebsiteAnalyzer.analyzeWebsite fetch inputUrl = Fulfilled result.
Proof.
  unfold WebsiteAnalyzer.analyzeWebsite.
  match goal with |- context [fetch ?u] => destruct (fetch u) as [content|status|[name message|]] end;
    eexists; reflexivity.
Qed.

(** The website branch hands a text to the synthesis exactly when a URL
    was sent. *)
Lemma website_content_sent (deps : MarketAnalysisServiceDeps)
    (request : MarketAnalysisRequest) (url : string)
    (result : WebsiteAnalyzer.WebsiteAnalysisResult) :
  rq_websiteUrl request = Some url -> truthy_string url = true ->
  WebsiteAnalyzer.analyzeWebsite (fetch deps) url = Fulfilled result ->
  website_content deps request = Some (WebsiteAnalyzer.formatWebsiteForPrompt result).
Proof.
  intros Hurl Htruthy Hrun. unfold website_content, websiteReport.
  rewrite Hurl, Htruthy, Hrun, formatWebsiteForPrompt_truthy. reflexivity.
Qed.

Lemma website_content_none (deps : MarketAnalysisServiceDeps)
    (request : MarketAnalysisRequest) :
  website_content deps request = None <-> no_website request.
Proof.
  unfold no_website. destruct (rq_websiteUrl request) as [url|] eqn:Hurl.
  - destruct (truthy_string url) eqn:Htruthy.
    + destruct (analyzeWebsite_returns (fetch deps) url) as [result Hrun].
      rewrite (website_content_sent deps request url result Hurl Htruthy Hrun).
      split; discriminate.
    + unfold website_content. rewrite Hurl, Htruthy. tauto.
  - unfold website_content. rewrite Hurl. tauto.
Qed.

Lemma payload_of_nothing (deps : MarketAnalysisServiceDeps)
    (request : MarketAnalysisRequest) (accountId : string) :
  nothing (getCompetitors (competitors deps) (rq_zipCode request) (rq_radiusMiles request)) ->
  nothing (gatherSerpResults deps request) ->
  catch_value (getCrmSnapshot deps accountId) None = None ->
  nothing (getKeywordData (marketData deps) (rq_services request)
             (match rq_targetCities request with Some cities => cities | None => [] end)
             "") ->
  payload deps request accountId = website_only_payload deps request.
Proof.
  unfold nothing, payload, website_only_payload.
  intros -> -> -> ->. reflexivity.
Qed.

(** Counterexample to C4 as stated: every provider rejects and the site
    example.com cannot be fetched, yet the payload is not the all-empty
    one: its website content is the error report of the analyzer. *)
Lemma failed_fetch_is_reported_to_the_synthesis :
  ~ failed_branches_give_empty_payload Scenarios.deps_failing
      Scenarios.request_with_site "account-a".
Proof.
  intros H.
  assert (Hpayload : in_websiteContent
                       (payload Scenarios.deps_failing Scenarios.request_with_site
                                "account-a")
                     = Some (WebsiteAnalyzer.error_report "https://example.com"
                               "fetch failed")) by reflexivity.
  rewrite H in Hpayload; try reflexivity.
  - discriminate Hpayload.
  - intros url Hurl _. injection Hurl as <-. eexists. split; reflexivity.
Qed.

(** C4, as amended: for every analysis request, if competitor discovery,
    the SERP snapshots, the CRM snapshot and the keyword data fail or return
    nothing, and the website, if a URL was sent, cannot be fetched, then,
    once the synthesis answers, [analyze] returns a MarketAnalysis whose
    dataSourcesUsed names the reasoning engine and no other source.  The
    synthesis runs on a payload without keywords, competitors, SERP
    snapshots and CRM data; its website content is absent exactly when no
    URL was sent, and for a URL that was sent it is the error report of the
    analyzer. *)
Theorem analysis_survives_failed_branches (deps : MarketAnalysisServiceDeps)
    (clock : Clock) (request : MarketAnalysisRequest) (accountId userId : string)
    (w : World) (db : Database) (llmOutput : json) :
  supabase w = Some db ->
  nothing (getCompetitors (competitors deps) (rq_zipCode request) (rq_radiusMiles request)) ->
  nothing (gatherSerpResults deps request) ->
  catch_value (getCrmSnapshot deps accountId) None = None ->
  website_not_fetched deps request ->
  nothing (getKeywordData (marketData deps) (rq_services request)
             (match rq_targetCities request with Some cities => cities | None => [] end)
             "") ->
  synthesizeMarketAnalysis (llm deps) (website_only_payload deps request)
  = Fulfilled llmOutput ->
  llmOutput <> JNull ->
  payload deps request accountId = website_only_payload deps request
  /\ (website_content deps request = None <-> no_website request)
  /\ website_content_is_error_report deps request
  /\ exists analysis w',
       analyze deps clock request accountId userId w = (Fulfilled analysis, w')
       /\ dataSourcesUsed analysis = ["openai_llm"].
Proof.
  intros Hdb Hc Hs Hcrm Hweb Hk Hsynth Hnull.
  pose proof (payload_of_nothing deps request accountId Hc Hs Hcrm Hk) as Hp.
  split; [exact Hp|].
  split; [apply website_content_none|].
  split.
  - intros url Hurl Htruthy.
    destruct (Hweb url Hurl Htruthy) as (result & Hrun & Herror).
    rewrite (website_content_sent deps request url result Hurl Htruthy Hrun).
    unfold WebsiteAnalyzer.formatWebsiteForPrompt.
    unfold WebsiteAnalyzer.truthy_error in Herror.
    destruct (WebsiteAnalyzer.error result) as [message|] eqn:Hmessage;
      [|discriminate Herror].
    exists result, message. rewrite Herror.
    split; [exact Hrun | split; [exact Hmessage | reflexivity]].
  - rewrite <- Hp in Hsynth.
    destruct (analyze_run deps clock request accountId userId w db llmOutput
                Hdb Hsynth Hnull) as (w' & events & Hrun & _).
    eexists. exists w'. split; [exact Hrun|].
    rewrite Hp. reflexivity.
Qed.

(** Witness of C4 as amended: every provider rejects, the site example.com
    cannot be fetched, the reasoning engine answers. *)
Lemma analysis_survives_failed_branches_witness :
  (payload Scenarios.deps_failing Scenarios.request_with_site "account-a"
   = website_only_payload Scenarios.deps_failing Scenarios.request_with_site
   /\ (website_content Scenarios.deps_failing Scenarios.request_with_site = None
       <-> no_website Scenarios.request_with_site)
   /\ website_content_is_error_report Scenarios.deps_failing Scenarios.request_with_site
   /\ exists analysis w',
        analyze Scenarios.deps_failing Scenarios.clock Scenarios.request_with_site
          "account-a" "user-a"
          (Scenarios.world Scenarios.empty_database Scenarios.no_faults)
        = (Fulfilled analysis, w')
        /\ dataSourcesUsed analysis = ["openai_llm"])
  /\ website_content Scenarios.deps_failing Scenarios.request_with_site
     = Some ("Website: https://example.com" ++ WebsiteAnalyzer.LF
             ++ "Error fetching: fetch failed" ++ WebsiteAnalyzer.LF
             ++ "Note: Could not analyze the website. Provide general recommendations.").
Proof.
  split; [|reflexivity].
  apply (analysis_survives_failed_branches Scenarios.deps_failing Scenarios.clock
           Scenarios.request_with_site "account-a" "user-a"
           (Scenarios.world Scenarios.empty_database Scenarios.no_faults)
           Scenarios.empty_database Scenarios.analysis_answer);
    try reflexivity.
  - intros url Hurl _. injection Hurl as <-. eexists. split; reflexivity.
  - discriminate.
Defined.

(** In every run that returns, a source is named exactly when its branch
    contributed data. *)
Lemma data_sources_reflect_branches (keywordCount competitorCount serpCount : nat)
    (hasCrm : bool) (source : string) :
  In source (getDataSourcesUsed keywordCount competitorCount serpCount hasCrm)
  <-> (source = "google_ads_keyword_planner" /\ (0 < keywordCount)%nat)
      \/ (source = "google_places" /\ (0 < competitorCount)%nat)
      \/ (source = "serper_serp" /\ (0 < serpCount)%nat)
      \/ (source = "crm_data" /\ hasCrm = true)
      \/ source = "openai_llm".
Proof.
  unfold getDataSourcesUsed.
  destruct keywordCount, competitorCount, serpCount, hasCrm; simpl;
    intuition (try discriminate; try lia; auto with arith).
Qed.

(** *** Persistence failures *)

(** C5, as amended: for every analysis request whose synthesis succeeded,
    a failed primary write of the analysis is logged and swallowed:
    [analyze] returns the analysis with a null identifier.  A failed
    usage-ledger write is logged and swallowed as well, and the returned
    result is the one returned when the ledger write succeeds. *)
Theorem persistence_failures_are_swallowed (deps : MarketAnalysisServiceDeps)
    (clock : Clock) (request : MarketAnalysisRequest) (accountId userId : string)
    (w : World) (db : Database) (llmOutput : json) :
  supabase w = Some db ->
  synthesizeMarketAnalysis (llm deps) (payload deps request accountId)
  = Fulfilled llmOutput ->
  llmOutput <> JNull ->
  (forall message,
     fault w "growth_market_analyses" "insert" = Some message ->
     fst (analyze deps clock request accountId userId w)
     = Fulfilled (with_id (assembled (payload deps request accountId) llmOutput clock) None)
     /\ In (console_error ("[DB] Error saving analysis: " ++ message))
           (events_of (analyze deps clock request accountId userId) w))
  /\ (forall message,
        fault w "growth_usage_log" "insert" = Some message ->
        fst (analyze deps clock request accountId userId w)
        = fst (analyze deps clock request accountId userId
                 (repaired w "growth_usage_log" "insert"))
        /\ In (console_error ("[Usage] Error logging event: " ++ message))
              (events_of (analyze deps clock request accountId userId) w)).
Proof.
  intros Hdb Hsynth Hnull.
  destruct (analyze_run deps clock request accountId userId w db llmOutput
              Hdb Hsynth Hnull) as (w' & events & Hrun & _ & Htrace & Hsave & Hlog).
  rewrite (events_of_run _ _ _ _ _ Hrun Htrace). rewrite Hrun.
  split.
  - intros message Hfault. split; [|exact (Hsave _ Hfault)].
    unfold saved_id. rewrite Hfault. reflexivity.
  - intros message Hfault. split; [|exact (Hlog _ Hfault)].
    destruct (analyze_run deps clock request accountId userId
                (repaired w "growth_usage_log" "insert") db llmOutput
                Hdb Hsynth Hnull) as (w2 & events2 & Hrun2 & _).
    rewrite Hrun2. reflexivity.
Qed.

(** Witness of C5 as amended: scenario A with both writes failing. *)
Lemma persistence_failures_are_swallowed_witness :
  (fst (analyze Scenarios.deps_A Scenarios.clock Scenarios.request_A
          "account-a" "user-a" Scenarios.world_writes_failing)
   = Fulfilled (with_id (assembled (payload Scenarios.deps_A Scenarios.request_A "account-a")
                                   Scenarios.analysis_answer Scenarios.clock) None)
   /\ In (console_error "[DB] Error saving analysis: disk full")
         (events_of (analyze Scenarios.deps_A Scenarios.clock Scenarios.request_A
                       "account-a" "user-a") Scenarios.world_writes_failing))
  /\ (fst (analyze Scenarios.deps_A Scenarios.clock Scenarios.request_A
             "account-a" "user-a" Scenarios.world_writes_failing)
      = fst (analyze Scenarios.deps_A Scenarios.clock Scenarios.request_A
               "account-a" "user-a"
               (repaired Scenarios.world_writes_failing "growth_usage_log" "insert"))
      /\ In (console_error "[Usage] Error logging event: disk full")
            (events_of (analyze Scenarios.deps_A Scenarios.clock Scenarios.request_A
                          "account-a" "user-a") Scenarios.world_writes_failing)).
Proof.
  destruct (persistence_failures_are_swallowed Scenarios.deps_A Scenarios.clock
              Scenarios.request_A "account-a" "user-a" Scenarios.world_writes_failing
              Scenarios.empty_database Scenarios.analysis_answer
              eq_refl eq_refl ltac:(discriminate)) as [Hsave Hlog].
  split; [exact (Hsave "disk full" eq_refl) | exact (Hlog "disk full" eq_refl)].
Defined.

(** Counterexample to C5 as stated: in scenario A with a database that
    rejects the insert of the analysis, [analyze] does not fail; it
    returns the analysis (with [id: null]). *)
Lemma failed_primary_write_is_not_propagated :
  ~ primary_write_failure_propagates Scenarios.deps_A Scenarios.clock
      Scenarios.request_A "account-a" "user-a" Scenarios.world_writes_failing.
Proof.
  intros H. destruct (H "disk full" eq_refl) as [e He].
  vm_compute in He. discriminate He.
Qed.

(** C10: when the primary write of an analysis fails while the ledger
    write succeeds, [analyze] still appends a usage event for the request
    (with [analysisId: null]) and returns the analysis with a null
    identifier: no analysis row was added, and the ledger count of the
    account for the current month grew by one. *)
Theorem failed_save_still_consumes_quota (deps : MarketAnalysisServiceDeps)
    (clock : Clock) (request : MarketAnalysisRequest) (accountId userId : string)
    (w : World) (db : Database) (llmOutput : json) (message : string) (start : Z) :
  supabase w = Some db ->
  synthesizeMarketAnalysis (llm deps) (payload deps request accountId)
  = Fulfilled llmOutput ->
  llmOutput <> JNull ->
  fault w "growth_market_analyses" "insert" = Some message ->
  fault w "growth_usage_log" "insert" = None ->
  (start <= db_now w)%Z ->
  exists analysis w' db',
    analyze deps clock request accountId userId w = (Fulfilled analysis, w')
    /\ id analysis = Some None
    /\ supabase w' = Some db'
    /\ growth_market_analyses db' = growth_market_analyses db
    /\ growth_usage_log db'
       = (growth_usage_log db
          ++ [mkUsageRow accountId userId "market_analysis"
                (usage_metadata request (endTime clock - startTime clock)%Z None)
                (db_now w)])%list
    /\ count_usage db' accountId start = (count_usage db accountId start + 1)%Z.
Proof.
  intros Hdb Hsynth Hnull Hsave Hlog Hstart.
  destruct (analyze_run deps clock request accountId userId w db llmOutput
              Hdb Hsynth Hnull) as (w' & events & Hrun & Hstore & _).
  unfold saved_id in Hrun. unfold stored, saved_id in Hstore.
  rewrite Hsave in Hrun. rewrite Hsave, Hlog in Hstore.
  eexists. exists w'. eexists.
  split; [exact Hrun|]. split; [reflexivity|]. split; [exact Hstore|].
  split; [reflexivity|]. split; [reflexivity|].
  unfold count_usage. cbn [growth_usage_log].
  rewrite filter_app, length_app. cbn [filter ul_account_id ul_created_at].
  rewrite String.eqb_refl. apply Z.leb_le in Hstart. rewrite Hstart.
  cbn [andb List.length]. lia.
Qed.

(** Witness of C10: scenario A with a database that rejects the insert of
    the analysis only. *)
Lemma failed_save_still_consumes_quota_witness :
  exists analysis w' db',
    analyze Scenarios.deps_A Scenarios.clock Scenarios.request_A "account-a" "user-a"
      Scenarios.world_save_failing = (Fulfilled analysis, w')
    /\ id analysis = Some None
    /\ supabase w' = Some db'
    /\ growth_market_analyses db' = growth_market_analyses Scenarios.empty_database
    /\ growth_usage_log db'
       = (growth_usage_log Scenarios.empty_database
          ++ [mkUsageRow "account-a" "user-a" "market_analysis"
                (usage_metadata Scenarios.request_A
                   (endTime Scenarios.clock - startTime Scenarios.clock)%Z None)
                (db_now Scenarios.world_save_failing)])%list
    /\ count_usage db' "account-a" (startOfMonth Scenarios.month)
       = (count_usage Scenarios.empty_database "account-a" (startOfMonth Scenarios.month)
          + 1)%Z.
Proof.
  apply (failed_save_still_consumes_quota Scenarios.deps_A Scenarios.clock
           Scenarios.request_A "account-a" "user-a" Scenarios.world_save_failing
           Scenarios.empty_database Scenarios.analysis_answer "disk full"
           (startOfMonth Scenarios.month)).
  - reflexivity.
  - reflexivity.
  - discriminate.
  - reflexivity.
  - reflexivity.
  - vm_compute. discriminate.
Defined.

(** *** Scenario A: no keyword source, no competitors *)

(** A Keyword Planner that yields no idea (it rejects the request, as it
    does without credentials, or answers without results) leaves the
    results as they were. *)
Lemma keyword_planner_without_ideas (api : GoogleAdsKeywordPlanner.GoogleAdsApi)
    (config : Configuration.Config) (geoTargets cities services : list string) :
  (forall seeds,
     match GoogleAdsKeywordPlanner.generateKeywordIdeas api config seeds geoTargets with
     | Fulfilled (Some (_ :: _)) => False
     | _ => True
     end) ->
  forall results,
    GoogleAdsKeywordPlanner.keywordIdeas_loop api config geoTargets cities services results
    = results.
Proof.
  intros Hnone. induction services as [|service rest IH]; intros results; simpl.
  - reflexivity.
  - destruct (GoogleAdsKeywordPlanner.getSeedKeywords service) as [seeds|]; [|apply IH].
    specialize (Hnone seeds).
    destruct (GoogleAdsKeywordPlanner.generateKeywordIdeas api config seeds geoTargets)
      as [[[|idea ideas]|]|e]; try apply IH.
    contradiction.
Qed.

Lemma gads_not_named (competitorCount serpCount : nat) (hasCrm : bool) :
  ~ In "google_ads_keyword_planner" (getDataSourcesUsed 0 competitorCount serpCount hasCrm).
Proof.
  rewrite data_sources_reflect_branches.
  intros [[_ H] | [[H _] | [[H _] | [[H _] | H]]]];
    first [ inversion H | discriminate H ].
Qed.

Lemma places_not_named (keywordCount serpCount : nat) (hasCrm : bool) :
  ~ In "google_places" (getDataSourcesUsed keywordCount 0 serpCount hasCrm).
Proof.
  rewrite data_sources_reflect_branches.
  intros [[H _] | [[_ H] | [[H _] | [[H _] | H]]]];
    first [ inversion H | discriminate H ].
Qed.

Lemma openai_named (keywordCount competitorCount serpCount : nat) (hasCrm : bool) :
  In "openai_llm" (getDataSourcesUsed keywordCount competitorCount serpCount hasCrm).
Proof. rewrite data_sources_reflect_branches. tauto. Qed.

(** C2, as amended: for a request with an empty target-city list, a
    Keyword Planner that yields no idea (no configured authoritative
    keyword source) and zero competitors found, the pipeline wired by
    [main] hands an empty keyword list to the synthesis, which is told
    that no keyword data is available; no interpolated figure is produced.
    Once the synthesis answers, the result's dataSourcesUsed omits the
    keyword-provider name and the competitor-provider name and includes
    the reasoning-engine name. *)
Theorem scenario_without_keyword_source (config : Configuration.Config)
    (ext : Routes.Externals) (clock : Clock) (request : MarketAnalysisRequest)
    (accountId userId : string) (w : World) (db : Database) (llmOutput : json) :
  let deps := Routes.main config ext in
  supabase w = Some db ->
  rq_targetCities request = Some [] ->
  (forall seeds,
     match GoogleAdsKeywordPlanner.generateKeywordIdeas (Routes.googleAds ext) config seeds
             [GoogleAdsKeywordPlanner.US_GEO_TARGET] with
     | Fulfilled (Some (_ :: _)) => False
     | _ => True
     end) ->
  (forall zipCode radiusMeters, nothing (Routes.places ext zipCode radiusMeters)) ->
  synthesizeMarketAnalysis (llm deps) (payload deps request accountId)
  = Fulfilled llmOutput ->
  llmOutput <> JNull ->
  in_keywords (payload deps request accountId) = []
  /\ OpenAiLlm.hasKeywordData (OpenAiLlm.guidance (payload deps request accountId)) = false
  /\ exists analysis w',
       analyze deps clock request accountId userId w = (Fulfilled analysis, w')
       /\ ~ In "google_ads_keyword_planner" (dataSourcesUsed analysis)
       /\ ~ In "google_places" (dataSourcesUsed analysis)
       /\ In "openai_llm" (dataSourcesUsed analysis).
Proof.
  intros deps Hdb Hcities Hideas Hplaces Hsynth Hnull.
  assert (Hk : in_keywords (payload deps request accountId) = []).
  { unfold payload, deps, Routes.main. cbn [in_keywords marketData getKeywordData
      GoogleAdsKeywordPlanner.GoogleAdsKeywordPlannerProvider].
    rewrite Hcities.
    unfold GoogleAdsKeywordPlanner.getKeywordData, GoogleAdsKeywordPlanner.resolveGeoTargets.
    cbn [GoogleAdsKeywordPlanner.resolveGeoTargets_loop fst catch_value].
    apply keyword_planner_without_ideas. exact Hideas. }
  assert (Hc : in_competitors (payload deps request accountId) = []).
  { unfold payload, deps, Routes.main. cbn [in_competitors competitors getCompetitors
      CompetitorProviders.GooglePlacesCompetitorProvider].
    destruct (negb (truthy_string (Configuration.googlePlacesApiKey config)));
      [reflexivity|].
    cbn [catch_value]. apply Hplaces. }
  split; [exact Hk|]. split.
  { unfold OpenAiLlm.guidance. rewrite Hk. reflexivity. }
  destruct (analyze_run deps clock request accountId userId w db llmOutput
              Hdb Hsynth Hnull) as (w' & events & Hrun & _).
  eexists. exists w'. split; [exact Hrun|].
  cbn [with_id dataSourcesUsed assembled]. rewrite Hk, Hc. cbn [List.length].
  split; [apply gads_not_named|]. split; [apply places_not_named | apply openai_named].
Qed.

(** Witness of C2 as amended: scenario A of the specification. *)
Lemma scenario_without_keyword_source_witness :
  in_keywords (payload Scenarios.deps_A Scenarios.request_A "account-a") = []
  /\ OpenAiLlm.hasKeywordData
       (OpenAiLlm.guidance (payload Scenarios.deps_A Scenarios.request_A "account-a"))
     = false
  /\ exists analysis w',
       analyze Scenarios.deps_A Scenarios.clock Scenarios.request_A "account-a" "user-a"
         (Scenarios.world Scenarios.empty_database Scenarios.no_faults)
       = (Fulfilled analysis, w')
       /\ ~ In "google_ads_keyword_planner" (dataSourcesUsed analysis)
       /\ ~ In "google_places" (dataSourcesUsed analysis)
       /\ In "openai_llm" (dataSourcesUsed analysis).
Proof.
  apply (scenario_without_keyword_source Scenarios.config_without_ads
           (Scenarios.externals
              (Scenarios.openai_answering Scenarios.analysis_answer Scenarios.plan_answer))
           Scenarios.clock Scenarios.request_A "account-a" "user-a"
           (Scenarios.world Scenarios.empty_database Scenarios.no_faults)
           Scenarios.empty_database Scenarios.analysis_answer).
  - reflexivity.
  - reflexivity.
  - intros seeds. exact I.
  - intros zipCode radiusMeters. reflexivity.
  - reflexivity.
  - discriminate.
Defined.

(** Counterexample to C2 as stated: in scenario A the keyword list handed
    to the synthesis is empty, while the estimate provider at market
    factor 0 produces six keywords for "interior painting". *)
Lemma scenario_A_has_no_interpolated_keywords :
  ~ keywords_from_interpolator_at_zero Scenarios.deps_A Scenarios.request_A "account-a".
Proof.
  unfold keywords_from_interpolator_at_zero. vm_compute. discriminate.
Qed.

(** Under the wiring of the earlier revision the claim fails too: the
    estimate provider answers at its constructor's factor 0.5, and the
    keyword provider is then named among the data sources. *)
Lemma fallback_wiring_keeps_default_factor :
  let deps := Routes.main_with_fallback Scenarios.config_without_ads
                (Scenarios.externals
                   (Scenarios.openai_answering Scenarios.analysis_answer
                                               Scenarios.plan_answer)) in
  Fulfilled (in_keywords (payload deps Scenarios.request_A "account-a"))
  = KeywordEstimates.getKeywordData KeywordEstimates.new_EstimateMarketDataProvider
      ["interior painting"] [] ""
  /\ ~ keywords_from_interpolator_at_zero deps Scenarios.request_A "account-a"
  /\ In "google_ads_keyword_planner"
        (dataSourcesUsed
           (assembled (payload deps Scenarios.request_A "account-a")
                      Scenarios.analysis_answer Scenarios.clock)).
Proof.
  split; [reflexivity|]. split.
  - unfold keywords_from_interpolator_at_zero. vm_compute. discriminate.
  - vm_compute. left. reflexivity.
Qed.

(** *** The synthesis adapter *)

(** C6, as amended: for every reasoning-engine response, when the
    response is missing, empty or not parseable as JSON the adapter fails,
    and [analyze] fails with that error without a fallback and without
    persisting anything; otherwise the adapter returns the parsed JSON
    value as it is, not checked against the MarketAnalysisResult shape, and
    [analyze], unless the value is [null], assembles the analysis from
    whatever members the value has and persists it. *)
Theorem synthesis_fails_or_returns_parsed (deps : MarketAnalysisServiceDeps)
    (client : OpenAiLlm.OpenAiClient) (clock : Clock)
    (request : MarketAnalysisRequest) (accountId userId : string) (w : World) :
  llm deps = OpenAiLlm.OpenAiLlmProvider client ->
  match OpenAiLlm.create_analysis client
          (OpenAiLlm.guidance (payload deps request accountId))
          (payload deps request accountId) with
  | Fulfilled (Some (JsonText parsed)) =>
      synthesizeMarketAnalysis (llm deps) (payload deps request accountId)
      = Fulfilled parsed
      /\ (parsed <> JNull ->
          forall db, supabase w = Some db ->
          exists w',
            analyze deps clock request accountId userId w
            = (Fulfilled (with_id (assembled (payload deps request accountId) parsed clock)
                                  (saved_id w)),
               w')
            /\ supabase w'
               = Some (stored w db request accountId userId
                         (assembled (payload deps request accountId) parsed clock) clock))
  | _ =>
      exists e events,
        synthesizeMarketAnalysis (llm deps) (payload deps request accountId) = Rejected e
        /\ analyze deps clock request accountId userId w = (Rejected e, logged w events)
        /\ supabase (logged w events) = supabase w
  end.
Proof.
  intros Hllm.
  assert (Hrej : forall e,
            synthesizeMarketAnalysis (llm deps) (payload deps request accountId) = Rejected e ->
            exists e' events,
              synthesizeMarketAnalysis (llm deps) (payload deps request accountId) = Rejected e'
              /\ analyze deps clock request accountId userId w = (Rejected e', logged w events)
              /\ supabase (logged w events) = supabase w).
  { intros e He.
    destruct (analyze_synthesis_rejected deps clock request accountId userId w e He)
      as [events Hrun].
    exists e, events. repeat split; assumption. }
  assert (Hok : forall parsed,
            synthesizeMarketAnalysis (llm deps) (payload deps request accountId)
            = Fulfilled parsed ->
            parsed <> JNull ->
            forall db, supabase w = Some db ->
            exists w',
              analyze deps clock request accountId userId w
              = (Fulfilled (with_id (assembled (payload deps request accountId) parsed clock)
                                    (saved_id w)),
                 w')
              /\ supabase w'
                 = Some (stored w db request accountId userId
                           (assembled (payload deps request accountId) parsed clock) clock)).
  { intros parsed Hsynth Hnull db Hdb.
    destruct (analyze_run deps clock request accountId userId w db parsed Hdb Hsynth Hnull)
      as (w' & events & Hrun & Hstore & _).
    exists w'. split; assumption. }
  revert Hrej Hok. rewrite Hllm.
  cbn [synthesizeMarketAnalysis OpenAiLlm.OpenAiLlmProvider].
  unfold OpenAiLlm.synthesizeMarketAnalysis, OpenAiLlm.read_completion.
  destruct (OpenAiLlm.create_analysis client _ _) as [[[text | parsed]|]|e];
    intros Hrej Hok.
  - destruct (is_empty (NotJson text)); eapply Hrej; reflexivity.
  - split; [reflexivity | apply Hok; reflexivity].
  - eapply Hrej; reflexivity.
  - eapply Hrej; reflexivity.
Qed.

(** Witness of C6 as amended: a response that is not JSON. *)
Lemma synthesis_fails_or_returns_parsed_witness :
  exists e events,
    synthesizeMarketAnalysis (llm Scenarios.deps_apologising)
      (payload Scenarios.deps_apologising Scenarios.request_A "account-a") = Rejected e
    /\ analyze Scenarios.deps_apologising Scenarios.clock Scenarios.request_A
         "account-a" "user-a" (Scenarios.world Scenarios.empty_database Scenarios.no_faults)
       = (Rejected e,
          logged (Scenarios.world Scenarios.empty_database Scenarios.no_faults) events)
    /\ supabase (logged (Scenarios.world Scenarios.empty_database Scenarios.no_faults) events)
       = supabase (Scenarios.world Scenarios.empty_database Scenarios.no_faults).
Proof.
  exact (synthesis_fails_or_returns_parsed Scenarios.deps_apologising
           Scenarios.client_apologising Scenarios.clock Scenarios.request_A
           "account-a" "user-a"
           (Scenarios.world Scenarios.empty_database Scenarios.no_faults) eq_refl).
Defined.

(** Counterexample to C6 as stated: the response [{}] is parseable, so the
    adapter returns it, and it does not have the shape. *)
Lemma empty_object_is_returned_unvalidated :
  ~ synthesis_validated Scenarios.client_empty_object (empty_payload Scenarios.request_A).
Proof. unfold synthesis_validated. vm_compute. discriminate. Qed.

(** ... and [analyze] persists the analysis assembled from it. *)
Lemma empty_object_is_persisted :
  exists analysis row,
    fst (analyze Scenarios.deps_empty_object Scenarios.clock Scenarios.request_A
           "account-a" "user-a"
           (Scenarios.world Scenarios.empty_database Scenarios.no_faults))
    = Fulfilled analysis
    /\ option_map growth_market_analyses
         (supabase
            (snd (analyze Scenarios.deps_empty_object Scenarios.clock Scenarios.request_A
                    "account-a" "user-a"
                    (Scenarios.world Scenarios.empty_database Scenarios.no_faults))))
       = Some [row]
    /\ ma_result_data row
       = JObject [ ("overview", JObject []);
                   ("dataSourcesUsed", JArray [JString "openai_llm"]);
                   ("generatedAt", JNumber 1700000004000) ].
Proof.
  set (run := analyze _ _ _ _ _ _). vm_compute in run. subst run.
  cbn [fst snd supabase option_map growth_market_analyses].
  eexists. eexists. split; [reflexivity|]. split; reflexivity.
Qed.

End AnalysisFacts.

(* ------------------------------------------------------------------ *)
(** ** Plan derivation and read-back *)

Module PlanFacts.
Import Js Json Types Runtime Db Interfaces Usage PlanGenerationService Routes Spec
       RuntimeFacts.
Local Open Scope js_scope.

Lemma filter_none {A : Type} (f : A -> bool) (l : list A) :
  (forall x, In x l -> f x = false) -> filter f l = [].
Proof.
  induction l as [|x l IH]; intros H; simpl; [reflexivity|].
  rewrite (H x (or_introl eq_refl)). apply IH. intros y Hy. apply H. now right.
Qed.

Lemma absent_not_owned (db : Database) (analysisId accountId : string) :
  absent db analysisId -> not_owned db analysisId accountId.
Proof. intros H row Hin Hid. destruct (H row Hin Hid). Qed.

Lemma foreign_not_owned (db : Database) (analysisId accountId : string) :
  foreign db analysisId accountId -> not_owned db analysisId accountId.
Proof. intros [_ H]. exact H. Qed.

(** The scoped read of an analysis that is not owned answers with an
    error and no row. *)
Lemma select_not_owned (analysisId accountId : string) (w : World) (db : Database) :
  supabase w = Some db ->
  not_owned db analysisId accountId ->
  exists message,
    select_analysis_single analysisId accountId w
    = (Fulfilled (None, Some message),
       logged w [db_query "growth_market_analyses" "select" accountId (Some message)]).
Proof.
  intros Hdb Hnot.
  unfold select_analysis_single, bind, getDb, get_fault, emit, ret. rewrite Hdb.
  destruct (fault w "growth_market_analyses" "select") as [message|].
  - exists message. reflexivity.
  - rewrite filter_none.
    + eexists. reflexivity.
    + intros row Hin.
      destruct (String.eqb (ma_id row) analysisId) eqn:Hid; [|reflexivity].
      apply String.eqb_eq in Hid.
      pose proof (Hnot row Hin Hid) as Hacc. apply String.eqb_neq in Hacc.
      rewrite Hacc. reflexivity.
Qed.

Lemma generatePlan_not_owned (llm : LlmProvider) (clock : MarketAnalysisService.Clock)
    (request : PlanGenerationRequest) (accountId userId : string)
    (w : World) (db : Database) :
  supabase w = Some db ->
  not_owned db (pr_analysisId request) accountId ->
  exists events,
    generatePlan llm clock request accountId userId w
    = (Rejected (not_found (pr_analysisId request)), logged w events).
Proof.
  intros Hdb Hnot.
  destruct (select_not_owned _ _ _ _ Hdb Hnot) as [message Hsel].
  unfold generatePlan. rewrite (bind_run _ _ _ _ _ Hsel).
  eexists. reflexivity.
Qed.

Lemma get_analysis_not_owned (a : AuthContext) (analysisId : string)
    (w : World) (db : Database) :
  supabase w = Some db ->
  not_owned db analysisId (accountId a) ->
  fst (get_analysis (Some a) analysisId w)
  = Fulfilled (res_json 404 (JObject [("error", JString "Analysis not found")])).
Proof.
  intros Hdb Hnot.
  destruct (select_not_owned _ _ _ _ Hdb Hnot) as [message Hsel].
  unfold get_analysis, try_catch, auth_of.
  unfold bind at 1. unfold ret at 1.
  rewrite (bind_run _ _ _ _ _ Hsel). reflexivity.
Qed.

Lemma post_plan_not_owned (llm : LlmProvider) (clock : MarketAnalysisService.Clock)
    (a : AuthContext) (request : PlanGenerationRequest) (w : World) (db : Database) :
  supabase w = Some db ->
  not_owned db (pr_analysisId request) (accountId a) ->
  fst (post_plan llm clock (Some a) request w)
  = Fulfilled (res_json 500 (failure "Plan generation failed"
                                     (not_found (pr_analysisId request)))).
Proof.
  intros Hdb Hnot.
  destruct (generatePlan_not_owned llm clock request (accountId a) (userId a) w db Hdb Hnot)
    as [events Hrun].
  unfold post_plan, try_catch, auth_of.
  unfold bind at 1. unfold ret at 1.
  rewrite (bind_rejected _ _ _ _ _ Hrun). reflexivity.
Qed.

(** C7: for every plan-derivation or analysis read-back call, take a
    database in which the analysis id does not exist and one in which it
    belongs to another account.  In both, plan derivation fails with the
    same "not found" error before the reasoning engine is asked and without
    writing anything, the read-back answers the same 404, and the answers
    carry nothing but the requested id. *)
Theorem unowned_analysis_is_not_found (llm : LlmProvider)
    (clock : MarketAnalysisService.Clock) (request : PlanGenerationRequest)
    (a : AuthContext) (w1 w2 : World) (db1 db2 : Database) :
  supabase w1 = Some db1 -> supabase w2 = Some db2 ->
  absent db1 (pr_analysisId request) ->
  foreign db2 (pr_analysisId request) (accountId a) ->
  (fst (generatePlan llm clock request (accountId a) (userId a) w1)
   = Rejected (not_found (pr_analysisId request))
   /\ fst (generatePlan llm clock request (accountId a) (userId a) w2)
      = Rejected (not_found (pr_analysisId request)))
  /\ (supabase (snd (generatePlan llm clock request (accountId a) (userId a) w1)) = Some db1
      /\ supabase (snd (generatePlan llm clock request (accountId a) (userId a) w2)) = Some db2)
  /\ (fst (post_plan llm clock (Some a) request w1)
      = Fulfilled (res_json 500 (failure "Plan generation failed"
                                         (not_found (pr_analysisId request))))
      /\ fst (post_plan llm clock (Some a) request w2)
         = Fulfilled (res_json 500 (failure "Plan generation failed"
                                            (not_found (pr_analysisId request)))))
  /\ (fst (get_analysis (Some a) (pr_analysisId request) w1)
      = Fulfilled (res_json 404 (JObject [("error", JString "Analysis not found")]))
      /\ fst (get_analysis (Some a) (pr_analysisId request) w2)
         = Fulfilled (res_json 404 (JObject [("error", JString "Analysis not found")]))).
Proof.
  intros Hdb1 Hdb2 Habsent Hforeign.
  pose proof (absent_not_owned _ _ (accountId a) Habsent) as Hn1.
  pose proof (foreign_not_owned _ _ _ Hforeign) as Hn2.
  destruct (generatePlan_not_owned llm clock request _ (userId a) w1 db1 Hdb1 Hn1)
    as [ev1 Hrun1].
  destruct (generatePlan_not_owned llm clock request _ (userId a) w2 db2 Hdb2 Hn2)
    as [ev2 Hrun2].
  rewrite Hrun1, Hrun2. cbn [fst snd supabase logged].
  repeat split; try reflexivity; try assumption.
  - exact (post_plan_not_owned llm clock a request w1 db1 Hdb1 Hn1).
  - exact (post_plan_not_owned llm clock a request w2 db2 Hdb2 Hn2).
  - exact (get_analysis_not_owned a _ w1 db1 Hdb1 Hn1).
  - exact (get_analysis_not_owned a _ w2 db2 Hdb2 Hn2).
Qed.

(** Witness of C7: account-b asks for "analysis-1", which does not exist
    in the empty database and belongs to account-a in the other. *)
Lemma unowned_analysis_is_not_found_witness :
  (fst (generatePlan Scenarios.plan_llm Scenarios.clock Scenarios.plan_request
          "account-b" "user-b" (Scenarios.world Scenarios.empty_database Scenarios.no_faults))
   = Rejected "Market analysis not found: analysis-1"
   /\ fst (generatePlan Scenarios.plan_llm Scenarios.clock Scenarios.plan_request
             "account-b" "user-b"
             (Scenarios.world Scenarios.database_with_analysis Scenarios.no_faults))
      = Rejected "Market analysis not found: analysis-1")
  /\ (supabase (snd (generatePlan Scenarios.plan_llm Scenarios.clock Scenarios.plan_request
                       "account-b" "user-b"
                       (Scenarios.world Scenarios.empty_database Scenarios.no_faults)))
      = Some Scenarios.empty_database
      /\ supabase (snd (generatePlan Scenarios.plan_llm Scenarios.clock
                          Scenarios.plan_request "account-b" "user-b"
                          (Scenarios.world Scenarios.database_with_analysis
                                           Scenarios.no_faults)))
         = Some Scenarios.database_with_analysis)
  /\ (fst (post_plan Scenarios.plan_llm Scenarios.clock (Some Scenarios.bob)
             Scenarios.plan_request
             (Scenarios.world Scenarios.empty_database Scenarios.no_faults))
      = Fulfilled (res_json 500 (failure "Plan generation failed"
                                         "Market analysis not found: analysis-1"))
      /\ fst (post_plan Scenarios.plan_llm Scenarios.clock (Some Scenarios.bob)
                Scenarios.plan_request
                (Scenarios.world Scenarios.database_with_analysis Scenarios.no_faults))
         = Fulfilled (res_json 500 (failure "Plan generation failed"
                                            "Market analysis not found: analysis-1")))
  /\ (fst (get_analysis (Some Scenarios.bob) "analysis-1"
             (Scenarios.world Scenarios.empty_database Scenarios.no_faults))
      = Fulfilled (res_json 404 (JObject [("error", JString "Analysis not found")]))
      /\ fst (get_analysis (Some Scenarios.bob) "analysis-1"
                (Scenarios.world Scenarios.database_with_analysis Scenarios.no_faults))
         = Fulfilled (res_json 404 (JObject [("error", JString "Analysis not found")]))).
Proof.
  apply (unowned_analysis_is_not_found Scenarios.plan_llm Scenarios.clock
           Scenarios.plan_request Scenarios.bob
           (Scenarios.world Scenarios.empty_database Scenarios.no_faults)
           (Scenarios.world Scenarios.database_with_analysis Scenarios.no_faults)
           Scenarios.empty_database Scenarios.database_with_analysis).
  - reflexivity.
  - reflexivity.
  - intros row [].
  - split.
    + eexists. split; [left; reflexivity | reflexivity].
    + intros row [<- | []] _. discriminate.
Defined.

(** The owner does read the analysis back. *)
Lemma owner_reads_analysis_back :
  fst (get_analysis (Some Scenarios.alice) "analysis-1"
         (Scenarios.world Scenarios.database_with_analysis Scenarios.no_faults))
  = Fulfilled (res_json 200
      (JObject [ ("success", JBool true);
                 ("data",
                  JObject ([("id", JString "analysis-1")]
                           ++ spread Scenarios.stored_analysis
                           ++ [("createdAt", JNumber 1699000000000)])) ])).
Proof. reflexivity. Qed.

(** *** The cost per click of a plan *)

Lemma map_campaigns_fields (items : list json) (planned : list PlannedCampaign) :
  map_campaigns items = Fulfilled planned ->
  map estimatedCostPerClick planned
  = map (fun c => catch_value (get c "estimatedCostPerClick") None) items
  /\ map service planned = map (fun c => catch_value (get c "service") None) items.
Proof.
  revert planned. induction items as [|c rest IH]; intros planned H; simpl in H.
  - injection H as <-. split; reflexivity.
  - destruct (campaign_of c) as [campaign|e] eqn:Hc; [|discriminate].
    destruct (map_campaigns rest) as [others|e]; [|discriminate].
    injection H as <-. destruct (IH others eq_refl) as [IH1 IH2].
    simpl. rewrite IH1, IH2.
    destruct c; simpl in Hc; try discriminate; injection Hc as <-; split; reflexivity.
Qed.

Lemma campaigns_of_array (llmOutput : json) (planned : list PlannedCampaign) :
  campaigns_of llmOutput = Fulfilled planned ->
  exists items,
    get llmOutput "campaigns" = Fulfilled (Some (JArray items))
    /\ map_campaigns items = Fulfilled planned.
Proof.
  unfold campaigns_of.
  destruct (get llmOutput "campaigns") as [[[]|]|]; try discriminate.
  intros H. eexists. split; [reflexivity | exact H].
Qed.

Lemma select_found (analysisId accountId : string) (w w1 : World) (row : AnalysisRow) :
  select_analysis_single analysisId accountId w = (Fulfilled (Some row, None), w1) ->
  exists db,
    supabase w = Some db
    /\ In row (growth_market_analyses db)
    /\ ma_id row = analysisId
    /\ ma_account_id row = accountId.
Proof.
  unfold select_analysis_single, bind, getDb, get_fault, emit, ret.
  destruct (supabase w) as [db|]; [|discriminate].
  destruct (fault w "growth_market_analyses" "select"); [discriminate|].
  destruct (filter _ (growth_market_analyses db)) as [|found [|second more]] eqn:Hf;
    try discriminate.
  intros [= <- _]. exists db. split; [reflexivity|].
  assert (Hin : In found (filter (fun r => String.eqb (ma_id r) analysisId
                                           && String.eqb (ma_account_id r) accountId)
                                 (growth_market_analyses db))).
  { rewrite Hf. now left. }
  apply filter_In in Hin. destruct Hin as [Hin Hmatch].
  apply andb_true_iff in Hmatch. destruct Hmatch as [Hid Hacc].
  apply String.eqb_eq in Hid. apply String.eqb_eq in Hacc. auto.
Qed.

Lemma build_input_opportunities (marketAnalysis : json) (request : PlanGenerationRequest)
    (llmInput : LlmPlanInput) :
  build_input marketAnalysis request = Fulfilled llmInput ->
  pm_serviceOpportunities (pi_marketAnalysis llmInput)
  = or_else (catch_value (get marketAnalysis "serviceOpportunities") None) (JArray []).
Proof.
  unfold build_input.
  destruct (get marketAnalysis "overview"); [|discriminate].
  intros [= <-]. reflexivity.
Qed.

(** C1, as amended: for every campaign plan [generatePlan] produces from a
    stored analysis, the reasoning engine was handed the stored service
    opportunities (with their avgCpc) unchanged, and every campaign's
    estimatedCostPerClick is the value the reasoning engine returned for
    that campaign, copied without a check against the stored avgCpc. *)
Theorem plan_cpc_is_engine_answer (llm : LlmProvider)
    (clock : MarketAnalysisService.Clock) (request : PlanGenerationRequest)
    (accountId userId : string) (w w' : World) (plan : CampaignPlan) :
  generatePlan llm clock request accountId userId w = (Fulfilled plan, w') ->
  exists db row llmInput llmOutput items,
    supabase w = Some db
    /\ In row (growth_market_analyses db)
    /\ ma_id row = pr_analysisId request
    /\ ma_account_id row = accountId
    /\ build_input (ma_result_data row) request = Fulfilled llmInput
    /\ pm_serviceOpportunities (pi_marketAnalysis llmInput)
       = or_else (catch_value (get (ma_result_data row) "serviceOpportunities") None)
                 (JArray [])
    /\ generateCampaignPlan llm llmInput = Fulfilled llmOutput
    /\ get llmOutput "campaigns" = Fulfilled (Some (JArray items))
    /\ map estimatedCostPerClick (campaigns plan)
       = map (fun c => catch_value (get c "estimatedCostPerClick") None) items
    /\ map service (campaigns plan)
       = map (fun c => catch_value (get c "service") None) items.
Proof.
  unfold generatePlan. unfold bind at 1.
  destruct (select_analysis_single (pr_analysisId request) accountId w)
    as [[[[row|] [err|]]|e] w1] eqn:Hsel; try discriminate.
  destruct (select_found _ _ _ _ _ Hsel) as (db & Hdb & Hin & Hid & Hacc).
  unfold bind at 1. rewrite await_run_eq.
  destruct (build_input (ma_result_data row) request) as [llmInput|e] eqn:Hbuild;
    [|discriminate].
  unfold bind at 1. rewrite await_run_eq.
  destruct (generateCampaignPlan llm llmInput) as [llmOutput|e] eqn:Hllm; [|discriminate].
  unfold bind at 1. rewrite await_run_eq.
  destruct (campaigns_of llmOutput) as [planned|e] eqn:Hcampaigns; [|discriminate].
  unfold bind at 1. rewrite await_run_eq.
  destruct (get llmOutput "summary") as [summary|e]; [|discriminate].
  unfold bind at 1.
  destruct (saveCampaignPlan _ _ _ _ w1) as [[planId|e] w2]; [|discriminate].
  unfold bind at 1.
  destruct (logUsageEvent _ _ _ _ w2) as [[u|e] w3]; [|discriminate].
  unfold ret. intros [= <- _].
  destruct (campaigns_of_array _ _ Hcampaigns) as (items & Hget & Hmap).
  destruct (map_campaigns_fields _ _ Hmap) as [Hcpc Hservice].
  exists db, row, llmInput, llmOutput, items.
  repeat split; try assumption.
  exact (build_input_opportunities _ _ _ Hbuild).
Qed.

(** Witness of C1 as amended: account-a derives a plan from its stored
    analysis. *)
Lemma plan_cpc_is_engine_answer_witness :
  exists db row llmInput llmOutput items,
    supabase (Scenarios.world Scenarios.database_with_analysis Scenarios.no_faults) = Some db
    /\ In row (growth_market_analyses db)
    /\ ma_id row = pr_analysisId Scenarios.plan_request
    /\ ma_account_id row = "account-a"
    /\ build_input (ma_result_data row) Scenarios.plan_request = Fulfilled llmInput
    /\ pm_serviceOpportunities (pi_marketAnalysis llmInput)
       = or_else (catch_value (get (ma_result_data row) "serviceOpportunities") None)
                 (JArray [])
    /\ generateCampaignPlan Scenarios.plan_llm llmInput = Fulfilled llmOutput
    /\ get llmOutput "campaigns" = Fulfilled (Some (JArray items))
    /\ map estimatedCostPerClick (campaigns Scenarios.plan_generated)
       = map (fun c => catch_value (get c "estimatedCostPerClick") None) items
    /\ map service (campaigns Scenarios.plan_generated)
       = map (fun c => catch_value (get c "service") None) items.
Proof.
  apply (plan_cpc_is_engine_answer Scenarios.plan_llm Scenarios.clock
           Scenarios.plan_request "account-a" "user-a"
           (Scenarios.world Scenarios.database_with_analysis Scenarios.no_faults)
           (snd Scenarios.plan_run) Scenarios.plan_generated).
  vm_compute. reflexivity.
Defined.

(** Counterexample to C1 as stated: the stored analysis of account-a
    records an average CPC of 12.5 for "interior painting"; the reasoning
    engine answers with a campaign for that service at 9 per click, and
    the plan [generatePlan] returns carries the 9. *)
Lemma plan_cpc_differs_from_stored_cpc :
  ~ plan_reuses_stored_cpc Scenarios.plan_llm Scenarios.clock Scenarios.plan_request
      "account-a" "user-a"
      (Scenarios.world Scenarios.database_with_analysis Scenarios.no_faults).
Proof.
  intros H.
  assert (Hrun : generatePlan Scenarios.plan_llm Scenarios.clock Scenarios.plan_request
                   "account-a" "user-a"
                   (Scenarios.world Scenarios.database_with_analysis Scenarios.no_faults)
                 = (Fulfilled Scenarios.plan_generated, snd Scenarios.plan_run)).
  { vm_compute. reflexivity. }
  specialize (H _ _ Scenarios.database_with_analysis
                (mkAnalysisRow "analysis-1" "account-a" "user-a" Scenarios.request_A
                   Scenarios.stored_analysis 1699000000000)
                Hrun eq_refl (or_introl eq_refl) eq_refl eq_refl).
  unfold cpc_consistent in H.
  specialize (H (mkPlannedCampaign
                   (Some (JString "[PW] Interior Painting"))
                   (Some (JString "interior painting"))
                   (Some (JString "San Diego"))
                   (Some (JNumber 50))
                   (Some (JArray []))
                   (JArray [])
                   (Some (JObject [("headlines", JArray []); ("descriptions", JArray [])]))
                   (Some (JNumber 5))
                   (Some (JNumber 9)))
                (JObject [ ("service", JString "interior painting");
                           ("monthlySearches", JNumber 1200);
                           ("avgCpc", JNumber 12.5) ])
                (or_introl eq_refl) (or_introl eq_refl) eq_refl).
  vm_compute in H. discriminate H.
Qed.

End PlanFacts.

(* ------------------------------------------------------------------ *)
(** * Further properties of the code *)

(** ** The estimate provider *)

Module InterpolatorFacts.
Import Js Types KeywordEstimates Spec Coverage JsFacts KeywordEstimatesFacts.

(** X1: [calculateMarketFactor] is monotone: more competitors or a higher
    average review count never lower the factor. *)
Theorem calculateMarketFactor_monotone (c1 c2 r1 r2 : number) :
  c1 <= c2 -> r1 <= r2 ->
  calculateMarketFactor c1 r1 <= calculateMarketFactor c2 r2.
Proof.
  intros Hc Hr. unfold calculateMarketFactor, Math_min.
  assert (Hcf : Qmin (c1 / MAX_COMPETITORS_SIGNAL) 1 <= Qmin (c2 / MAX_COMPETITORS_SIGNAL) 1).
  { apply Q.min_le_compat_r. unfold MAX_COMPETITORS_SIGNAL.
    apply Qmult_le_compat_r; [exact Hc | discriminate]. }
  assert (Hrf : Qmin (r1 / MAX_AVG_REVIEWS_SIGNAL) 1 <= Qmin (r2 / MAX_AVG_REVIEWS_SIGNAL) 1).
  { apply Q.min_le_compat_r. unfold MAX_AVG_REVIEWS_SIGNAL.
    apply Qmult_le_compat_r; [exact Hr | discriminate]. }
  apply Qmult_le_compat_r; [|discriminate].
  apply Math_round_mono.
  unfold COMPETITOR_COUNT_WEIGHT, REVIEW_DENSITY_WEIGHT. lra.
Qed.

Lemma calculateMarketFactor_monotone_witness :
  calculateMarketFactor 5 80 <= calculateMarketFactor 12 250.
Proof. apply (calculateMarketFactor_monotone 5 12 80 250); discriminate. Defined.

(** X2: a market at or beyond both signals (20 competitors, 400 reviews
    on average) has factor exactly 1, however far beyond. *)
Theorem calculateMarketFactor_saturates (competitorCount avgReviewCount : number) :
  20 <= competitorCount -> 400 <= avgReviewCount ->
  calculateMarketFactor competitorCount avgReviewCount == 1.
Proof.
  intros Hc Hr. unfold calculateMarketFactor, Math_min.
  assert (Hcf : Qmin (competitorCount / MAX_COMPETITORS_SIGNAL) 1 == 1).
  { apply Q.min_r. unfold MAX_COMPETITORS_SIGNAL.
    apply Qle_shift_div_l; lra. }
  assert (Hrf : Qmin (avgReviewCount / MAX_AVG_REVIEWS_SIGNAL) 1 == 1).
  { apply Q.min_r. unfold MAX_AVG_REVIEWS_SIGNAL.
    apply Qle_shift_div_l; lra. }
  rewrite (Math_round_comp _ (inject_Z 100)).
  - rewrite Math_round_int. reflexivity.
  - rewrite Hcf, Hrf. reflexivity.
Qed.

Lemma calculateMarketFactor_saturates_witness :
  calculateMarketFactor 57 1200 == 1.
Proof. apply (calculateMarketFactor_saturates 57 1200); discriminate. Defined.

(** X3: [interpolate] is monotone in the factor for a range that does not
    decrease. *)
Theorem interpolate_monotone (range : number * number) (f1 f2 : number) :
  fst range <= snd range -> f1 <= f2 ->
  interpolate range f1 <= interpolate range f2.
Proof.
  intros Hrange Hf. unfold interpolate.
  apply Qmult_le_compat_r; [|discriminate].
  apply Math_round_mono.
  assert (0 <= (snd range - fst range) * (f2 - f1)) by (apply Qmult_le_0_compat; lra).
  lra.
Qed.

Lemma interpolate_monotone_witness :
  interpolate (8, 22) 0.25 <= interpolate (8, 22) 0.75.
Proof. apply (interpolate_monotone (8, 22) 0.25 0.75); discriminate. Defined.

(** *** Ranges *)

Lemma interpolate_between (lo hi : Z) (factor : number) :
  (lo <= hi)%Z -> 0 <= factor -> factor <= 1 ->
  within (inject_Z lo, inject_Z hi) (interpolate (inject_Z lo, inject_Z hi) factor).
Proof.
  intros Hrange Hf0 Hf1. unfold within, interpolate. cbn [fst snd].
  assert (Hq : inject_Z lo <= inject_Z hi) by (rewrite <- Zle_Qle; exact Hrange).
  assert (Hd : 0 <= (inject_Z hi - inject_Z lo) * factor) by (apply Qmult_le_0_compat; lra).
  assert (Hu : 0 <= (inject_Z hi - inject_Z lo) * (1 - factor))
    by (apply Qmult_le_0_compat; lra).
  set (x := inject_Z lo + (inject_Z hi - inject_Z lo) * factor) in *.
  assert (Hlo : inject_Z (lo * 100) <= Math_round (x * 100)).
  { rewrite <- (Math_round_int (lo * 100)). apply Math_round_mono.
    rewrite inject_Z_mult. change (inject_Z 100) with 100. subst x. lra. }
  assert (Hhi : Math_round (x * 100) <= inject_Z (hi * 100)).
  { rewrite <- (Math_round_int (hi * 100)). apply Math_round_mono.
    rewrite inject_Z_mult. change (inject_Z 100) with 100. subst x. lra. }
  rewrite inject_Z_mult in Hlo, Hhi. change (inject_Z 100) with 100 in Hlo, Hhi.
  split.
  - apply Qle_shift_div_l; lra.
  - apply Qle_shift_div_r; lra.
Qed.

Lemma rounded_between (lo hi : Z) (x : number) :
  within (inject_Z lo, inject_Z hi) x ->
  within (inject_Z lo, inject_Z hi) (Math_round x).
Proof.
  unfold within. cbn [fst snd]. intros [Hlo Hhi]. split.
  - rewrite <- (Math_round_int lo). now apply Math_round_mono.
  - rewrite <- (Math_round_int hi). now apply Math_round_mono.
Qed.

(** The ranges of the table have whole-number end points. *)
Lemma table_whole_ranges :
  Forall (fun entry => whole_range (cpcRange (snd entry))
                       /\ whole_range (volumeRange (snd entry)))
         SERVICE_ESTIMATES.
Proof.
  repeat constructor; cbn [snd cpcRange volumeRange];
    eexists; eexists; (split; [|reflexivity]); discriminate.
Qed.

Lemma findServiceEstimates_in_table (normalizedService : string) (e : ServiceEstimate) :
  findServiceEstimates normalizedService = OwnEntry e ->
  exists key, In (key, e) SERVICE_ESTIMATES.
Proof.
  unfold findServiceEstimates, table_get.
  destruct (assoc normalizedService SERVICE_ESTIMATES) as [e'|] eqn:Ha.
  - intros [= <-]. exact (assoc_in _ _ _ Ha).
  - destruct (String.eqb normalizedService "constructor"
              || String.eqb normalizedService "__proto__"); [discriminate|].
    destruct (find _ SERVICE_ESTIMATES) as [[key m]|] eqn:Hf; [|discriminate].
    intros [= <-]. apply find_some in Hf. exists key. exact (proj1 Hf).
Qed.

(** X4: for a market factor in [0,1], every base keyword the estimate
    provider produces has its CPC and its monthly volume inside the ranges
    of a template of the table, whose competition tier it carries, or
    inside the generic ranges 8 to 20 and 80 to 400 with the tier
    medium. *)
Theorem base_keywords_within_ranges (f : number) (services cities : list string)
    (results : list KeywordData) :
  0 <= f -> f <= 1 ->
  getKeywordData (mkProvider f) services cities "" = Fulfilled results ->
  forall kd, In kd results -> kd_city kd = None ->
    (within GENERIC_CPC_RANGE (kd_avgCpc kd)
     /\ within GENERIC_VOLUME_RANGE (kd_monthlySearches kd)
     /\ kd_competition kd = medium)
    \/ exists key e,
         In (key, e) SERVICE_ESTIMATES
         /\ within (cpcRange e) (kd_avgCpc kd)
         /\ within (volumeRange e) (kd_monthlySearches kd)
         /\ kd_competition kd = competition e.
Proof.
  intros Hf0 Hf1 Hrun kd Hin Hcity. unfold getKeywordData in Hrun.
  destruct (getKeywordData_loop_blocks _ _ _ _ _ Hrun) as [_ Hsplit].
  destruct (Hsplit kd Hin) as [[] | (service & block & Hkd & _ & Hkind)].
  destruct Hkind as [[_ ->] | (e & Hfind & ->)].
  - left. unfold generateGenericEstimates in Hkd. apply in_flat_map in Hkd.
    destruct Hkd as [keyword [_ [<- | Hvariant]]].
    + cbn [kd_avgCpc kd_monthlySearches kd_competition marketFactor].
      split; [|split; [|reflexivity]].
      * exact (interpolate_between 8 20 f ltac:(discriminate) Hf0 Hf1).
      * apply (rounded_between 80 400).
        exact (interpolate_between 80 400 f ltac:(discriminate) Hf0 Hf1).
    + apply in_map_iff in Hvariant. destruct Hvariant as [city [<- _]]. discriminate Hcity.
  - right. destruct (findServiceEstimates_in_table _ _ Hfind) as [key Hkey].
    exists key, e. split; [exact Hkey|].
    pose proof table_whole_ranges as Hall. rewrite Forall_forall in Hall.
    destruct (Hall _ Hkey) as [(clo & chi & Hc & Hcpc) (vlo & vhi & Hv & Hvol)].
    cbn [snd] in Hcpc, Hvol.
    unfold templateEstimates in Hkd. apply in_flat_map in Hkd.
    destruct Hkd as [keyword [_ [<- | Hvariant]]].
    + cbn [kd_avgCpc kd_monthlySearches kd_competition marketFactor].
      rewrite Hcpc, Hvol. split; [|split; [|reflexivity]].
      * exact (interpolate_between clo chi f Hc Hf0 Hf1).
      * apply rounded_between. exact (interpolate_between vlo vhi f Hv Hf0 Hf1).
    + apply in_map_iff in Hvariant. destruct Hvariant as [city [<- _]]. discriminate Hcity.
Qed.

Lemma base_keywords_within_ranges_witness :
  Forall
    (fun kd =>
       kd_city kd = None ->
       (within GENERIC_CPC_RANGE (kd_avgCpc kd)
        /\ within GENERIC_VOLUME_RANGE (kd_monthlySearches kd)
        /\ kd_competition kd = medium)
       \/ exists key e,
            In (key, e) SERVICE_ESTIMATES
            /\ within (cpcRange e) (kd_avgCpc kd)
            /\ within (volumeRange e) (kd_monthlySearches kd)
            /\ kd_competition kd = competition e)
    (templateEstimates 0.37 (mkServiceEstimate (5, 15) (100, 600) low
                               ["deck staining"; "deck refinishing";
                                "deck stain near me"; "wood deck staining";
                                "deck restoration"])
       "Deck Staining" ["Tulsa"]
     ++ generateGenericEstimates (mkProvider 0.37) "gutter cleaning" ["Tulsa"]).
Proof.
  apply Forall_forall.
  apply (base_keywords_within_ranges 0.37 ["Deck Staining"; "gutter cleaning"] ["Tulsa"]).
  - discriminate.
  - discriminate.
  - reflexivity.
Defined.

(** *** Provenance and size of the result *)

(** A property of the entries of every requested service holds of every
    result. *)
Lemma getKeywordData_loop_all (this : EstimateMarketDataProvider)
    (cities : list string) (P : KeywordData -> Prop) (services : list string) :
  forall acc results,
    (forall kd, In kd acc -> P kd) ->
    (forall service kd,
       In service services ->
       In kd (generateGenericEstimates this service cities) -> P kd) ->
    (forall service e kd,
       In service services ->
       In kd (templateEstimates (marketFactor this) e service cities) -> P kd) ->
    getKeywordData_loop this cities services acc = Fulfilled results ->
    forall kd, In kd results -> P kd.
Proof.
  induction services as [|service rest IH]; intros acc results Hacc Hgen Htem Hrun;
    simpl in Hrun.
  - injection Hrun as <-. exact Hacc.
  - destruct (findServiceEstimates (toLowerCase service)) as [e| |]; [ | discriminate | ];
      apply (IH _ _) with (4 := Hrun).
    + intros kd Hin. apply in_app_or in Hin. destruct Hin as [Hin | Hin].
      * now apply Hacc.
      * apply (Htem service e); [now left | exact Hin].
    + intros s kd Hs. apply Hgen. now right.
    + intros s e' kd Hs. apply Htem. now right.
    + intros kd Hin. apply in_app_or in Hin. destruct Hin as [Hin | Hin].
      * now apply Hacc.
      * apply (Hgen service); [now left | exact Hin].
    + intros s kd Hs. apply Hgen. now right.
    + intros s e' kd Hs. apply Htem. now right.
Qed.

(** X5: every keyword the estimate provider produces carries one of the
    requested service names, as it was passed in, and either no city or one
    of the requested cities. *)
Theorem keywords_come_from_the_request (this : EstimateMarketDataProvider)
    (services cities : list string) (results : list KeywordData) :
  getKeywordData this services cities "" = Fulfilled results ->
  forall kd, In kd results ->
    In (kd_service kd) services
    /\ (kd_city kd = None \/ exists city, In city cities /\ kd_city kd = Some city).
Proof.
  unfold getKeywordData. intros Hrun.
  apply (getKeywordData_loop_all this cities _ services [] results); [ | | | exact Hrun].
  - intros kd [].
  - intros service kd Hservice Hin.
    unfold generateGenericEstimates in Hin. apply in_flat_map in Hin.
    destruct Hin as [keyword [_ [<- | Hvariant]]].
    + split; [exact Hservice | now left].
    + apply in_map_iff in Hvariant. destruct Hvariant as [city [<- Hcity]].
      split; [exact Hservice | right; now exists city].
  - intros service e kd Hservice Hin.
    unfold templateEstimates in Hin. apply in_flat_map in Hin.
    destruct Hin as [keyword [_ [<- | Hvariant]]].
    + split; [exact Hservice | now left].
    + apply in_map_iff in Hvariant. destruct Hvariant as [city [<- Hcity]].
      split; [exact Hservice | right; now exists city].
Qed.

Lemma keywords_come_from_the_request_witness :
  Forall
    (fun kd =>
       In (kd_service kd) ["Commercial Painting"]
       /\ (kd_city kd = None
           \/ exists city, In city ["Reno"; "Sparks"] /\ kd_city kd = Some city))
    (templateEstimates 0.5 (mkServiceEstimate (10, 28) (80, 500) medium
                              ["commercial painting"; "commercial painter";
                               "office painting"; "business painting";
                               "commercial painting contractor"])
       "Commercial Painting" ["Reno"; "Sparks"]).
Proof.
  apply Forall_forall.
  apply (keywords_come_from_the_request new_EstimateMarketDataProvider
           ["Commercial Painting"] ["Reno"; "Sparks"]).
  reflexivity.
Defined.

(** X6: the result has, for each requested service in turn, one entry per
    keyword of its template (four for a service without one) and one more
    per keyword and requested city. *)
Theorem keyword_count (this : EstimateMarketDataProvider)
    (services cities : list string) (results : list KeywordData) :
  getKeywordData this services cities "" = Fulfilled results ->
  List.length results = list_sum (map (entries_count cities) services).
Proof.
  unfold getKeywordData.
  assert (Hblock : forall (A : Type) (base : A -> KeywordData)
                          (variant : A -> string -> KeywordData) (l : list A),
             List.length (flat_map (fun k => base k :: map (variant k) cities) l)
             = (List.length l * (1 + List.length cities))%nat).
  { intros A base variant l. induction l as [|k l IH]; [reflexivity|].
    cbn [flat_map]. rewrite length_app. cbn [List.length]. rewrite length_map, IH.
    nia. }
  assert (Hgen : forall acc,
            getKeywordData_loop this cities services acc = Fulfilled results ->
            List.length results
            = (List.length acc + list_sum (map (entries_count cities) services))%nat).
  { induction services as [|service rest IH]; intros acc Hrun; simpl in Hrun.
    - injection Hrun as <-. simpl. lia.
    - cbn [map list_sum]. unfold entries_count at 1.
      destruct (findServiceEstimates (toLowerCase service)) as [e| |]; [ | discriminate | ];
        rewrite (IH _ Hrun), length_app.
      + unfold templateEstimates. rewrite Hblock. unfold list_sum. cbn [fold_right].
        set (n := (List.length (keywords e) * (1 + List.length cities))%nat). lia.
      + unfold generateGenericEstimates. rewrite Hblock.
        unfold list_sum. cbn [List.length fold_right].
        set (n := (4 * (1 + List.length cities))%nat). lia. }
  intros Hrun. rewrite (Hgen [] Hrun). reflexivity.
Qed.

Lemma keyword_count_witness :
  List.length
    (templateEstimates 0.5 (mkServiceEstimate (8, 22) (300, 1800) medium
                              ["interior painting"; "interior house painting";
                               "interior painter near me"; "room painting";
                               "indoor painting"; "house painting interior"])
       "interior painting" ["Reno"; "Sparks"]
     ++ generateGenericEstimates new_EstimateMarketDataProvider "Fence Repair"
          ["Reno"; "Sparks"])
  = list_sum (map (entries_count ["Reno"; "Sparks"]) ["interior painting"; "Fence Repair"]).
Proof.
  apply (keyword_count new_EstimateMarketDataProvider
           ["interior painting"; "Fence Repair"] ["Reno"; "Sparks"]).
  reflexivity.
Defined.

(** *** Service names that reach [Object.prototype] *)

Lemma findServiceEstimates_prototype (normalizedService : string) :
  findServiceEstimates normalizedService = PrototypeMember
  <-> normalizedService = "constructor" \/ normalizedService = "__proto__".
Proof.
  split.
  - unfold findServiceEstimates, table_get.
    destruct (assoc normalizedService SERVICE_ESTIMATES); [discriminate|].
    destruct (String.eqb normalizedService "constructor") eqn:Hc.
    + intros _. left. now apply String.eqb_eq.
    + destruct (String.eqb normalizedService "__proto__") eqn:Hp.
      * intros _. right. now apply String.eqb_eq.
      * cbn [orb].
        match goal with |- context [find ?f ?l] => destruct (find f l) end; discriminate.
  - intros [-> | ->]; reflexivity.
Qed.

(** X7: [getKeywordData] of the estimate provider fails exactly when one of
    the requested service names lower-cases to "constructor" or
    "__proto__": the lookup in the template table then finds a member of
    [Object.prototype] instead of a template, and reading its range throws.
    The estimates of the other services are lost with it. *)
Theorem getKeywordData_rejects_prototype_names (this : EstimateMarketDataProvider)
    (services cities : list string) :
  (exists message, getKeywordData this services cities "" = Rejected message)
  <-> exists service, In service services /\ names_prototype_member service.
Proof.
  unfold getKeywordData, names_prototype_member. generalize (@nil KeywordData).
  induction services as [|service rest IH]; intros acc; simpl.
  - split; [intros [message H]; discriminate H | intros [service [[] _]]].
  - destruct (findServiceEstimates (toLowerCase service)) as [e| |] eqn:Hfind.
    + rewrite IH. split.
      * intros [s [Hin Hs]]. exists s. split; [now right | exact Hs].
      * intros [s [[<- | Hin] Hs]].
        -- apply findServiceEstimates_prototype in Hs. congruence.
        -- now exists s.
    + split; [|intros _; eexists; reflexivity].
      intros _. exists service. split; [now left|].
      now apply findServiceEstimates_prototype.
    + rewrite IH. split.
      * intros [s [Hin Hs]]. exists s. split; [now right | exact Hs].
      * intros [s [[<- | Hin] Hs]].
        -- apply findServiceEstimates_prototype in Hs. congruence.
        -- now exists s.
Qed.

Lemma getKeywordData_rejects_prototype_names_witness :
  exists message,
    getKeywordData new_EstimateMarketDataProvider ["deck staining"; "Constructor"]
      ["Reno"] "" = Rejected message.
Proof.
  apply (getKeywordData_rejects_prototype_names new_EstimateMarketDataProvider
           ["deck staining"; "Constructor"] ["Reno"]).
  exists "Constructor". split; [right; left; reflexivity | left; reflexivity].
Defined.

End InterpolatorFacts.

(* ------------------------------------------------------------------ *)
(** ** The usage ledger and the gate *)

Module LedgerFacts.
Import Js Json Types Runtime Db Usage Routes Spec Coverage RuntimeFacts QuotaGateFacts.
Local Open Scope js_scope.

(** X8: the quota gate lets a request through to the handler exactly in
    these cases: DEV_BYPASS_AUTH is "true"; or the request is
    authenticated and the ledger, read without error, holds fewer than 10
    events of the account since the start of the month; or the request is
    authenticated and the database client was never initialised, where the
    gate fails open. *)
Theorem gate_lets_through_exactly_when (DEV_BYPASS_AUTH : option string)
    (month : Month) (auth : option AuthContext) (w : World) :
  (exists attached,
     fst (createUsageMiddleware DEV_BYPASS_AUTH month auth w) = Fulfilled (next attached))
  <-> env_is DEV_BYPASS_AUTH "true" = true
      \/ exists a,
           auth = Some a
           /\ (supabase w = None
               \/ exists db,
                    supabase w = Some db
                    /\ fault w "growth_usage_log" "select" = None
                    /\ (count_usage db (accountId a) (startOfMonth month)
                        < DEFAULT_MONTHLY_QUOTA)%Z).
Proof.
  unfold createUsageMiddleware, try_catch.
  destruct (env_is DEV_BYPASS_AUTH "true").
  - split; [intros _; now left | intros _; eexists; reflexivity].
  - destruct auth as [a|].
    + unfold bind.
      destruct (supabase w) as [db|] eqn:Hdb.
      * destruct (fault w "growth_usage_log" "select") as [message|] eqn:Hfault.
        -- rewrite (getUsageQuota_read_error _ _ _ _ _ Hdb Hfault).
           cbn [remaining closed_quota Z.leb Z.compare fst ret].
           split.
           ++ intros [attached H]. discriminate H.
           ++ intros [H | (a' & _ & [H | (db' & _ & H & _)])]; discriminate H.
        -- rewrite (getUsageQuota_counts _ _ _ _ Hdb Hfault).
           cbn [remaining].
           destruct (Z.max 0 (DEFAULT_MONTHLY_QUOTA
                              - count_usage db (accountId a) (startOfMonth month)) <=? 0)%Z
             eqn:Hleb; cbn [fst ret].
           ++ apply Z.leb_le in Hleb. split.
              ** intros [attached H]. discriminate H.
              ** intros [H | (a' & [= <-] & [H | (db' & [= <-] & _ & H)])];
                   [discriminate H | discriminate H | lia].
           ++ apply Z.leb_gt in Hleb. split.
              ** intros _. right. exists a. split; [reflexivity|]. right.
                 exists db. repeat split. lia.
              ** intros _. eexists. reflexivity.
      * rewrite (getUsageQuota_without_client _ _ _ Hdb).
        unfold emit, ret, bind. cbn [fst]. split.
        -- intros _. right. exists a. split; [reflexivity | now left].
        -- intros _. eexists. reflexivity.
    + unfold ret. cbn [fst]. split.
      * intros [attached H]. discriminate H.
      * intros [H | (a & H & _)]; discriminate H.
Qed.

(** Scenario B of the specification: ten events this month, the eleventh
    call is held back. *)
Lemma gate_lets_through_exactly_when_witness :
  ~ exists attached,
      fst (createUsageMiddleware None Scenarios.month (Some Scenarios.alice)
             (Scenarios.world MoreScenarios.database_with_ten_events Scenarios.no_faults))
      = Fulfilled (next attached).
Proof.
  intros H.
  apply (gate_lets_through_exactly_when None Scenarios.month (Some Scenarios.alice)
           (Scenarios.world MoreScenarios.database_with_ten_events Scenarios.no_faults))
    in H.
  destruct H as [H | (a & [= <-] & [H | (db & [= <-] & _ & H)])].
  - discriminate H.
  - discriminate H.
  - vm_compute in H. discriminate H.
Defined.

(** *** Events and the count *)

Lemma logUsageEvent_run (accountId userId eventType : string) (metadata : json)
    (w : World) (db : Database) :
  supabase w = Some db ->
  fault w "growth_usage_log" "insert" = None ->
  logUsageEvent accountId userId eventType metadata w
  = (Fulfilled tt,
     mkWorld
       (Some (mkDatabase
                (growth_usage_log db
                 ++ [mkUsageRow accountId userId eventType metadata (db_now w)])
                (growth_market_analyses db) (growth_campaign_plans db)))
       (fault w) (gen_random_uuid w) (uuid_calls w) (db_now w)
       (trace w ++ [db_query "growth_usage_log" "insert" accountId None])).
Proof.
  intros Hdb Hfault.
  unfold logUsageEvent, bind, getDb, get_fault, emit, get_db_now, set_database, ret.
  rewrite Hdb. cbn [fault logged]. rewrite Hfault. reflexivity.
Qed.

(** X9: an event [logUsageEvent] writes counts once, for the account it was
    written for and whatever its type, in every quota period that has begun
    by the time of the write; the counts of other accounts and of later
    periods stay as they were. *)
Theorem logged_event_counts_for_its_account (accountId userId eventType : string)
    (metadata : json) (w : World) (db : Database) :
  supabase w = Some db ->
  fault w "growth_usage_log" "insert" = None ->
  exists db',
    supabase (snd (logUsageEvent accountId userId eventType metadata w)) = Some db'
    /\ forall account start,
         count_usage db' account start
         = (count_usage db account start
            + (if String.eqb accountId account && (start <=? db_now w)%Z then 1 else 0))%Z.
Proof.
  intros Hdb Hfault. rewrite (logUsageEvent_run _ _ _ _ _ _ Hdb Hfault).
  eexists. split; [reflexivity|].
  intros account start. unfold count_usage. cbn [growth_usage_log].
  rewrite filter_app, length_app. cbn [filter ul_account_id ul_created_at].
  destruct (String.eqb accountId account && (start <=? db_now w)%Z);
    cbn [List.length]; lia.
Qed.

Lemma logged_event_counts_for_its_account_witness :
  exists db',
    supabase (snd (logUsageEvent "account-b" "user-b" "plan_generation" (JObject [])
                     (Scenarios.world MoreScenarios.database_with_ten_events
                                      Scenarios.no_faults)))
    = Some db'
    /\ forall account start,
         count_usage db' account start
         = (count_usage MoreScenarios.database_with_ten_events account start
            + (if String.eqb "account-b" account && (start <=? 1700000000000)%Z
               then 1 else 0))%Z.
Proof.
  apply (logged_event_counts_for_its_account "account-b" "user-b" "plan_generation"
           (JObject [])
           (Scenarios.world MoreScenarios.database_with_ten_events Scenarios.no_faults)
           MoreScenarios.database_with_ten_events);
    reflexivity.
Defined.

End LedgerFacts.

(* ------------------------------------------------------------------ *)
(** ** Stored analyses *)

Module PersistenceFacts.
Import Js Json Types Runtime Db Usage Interfaces Routes Spec Coverage RuntimeFacts PlanFacts.
Local Open Scope js_scope.

Lemma saveMarketAnalysis_run (accountId userId : string)
    (requestData : MarketAnalysisRequest) (resultData : json) (w : World) (db : Database) :
  supabase w = Some db ->
  fault w "growth_market_analyses" "insert" = None ->
  saveMarketAnalysis accountId userId requestData resultData w
  = (Fulfilled (id_or_null (gen_random_uuid w (uuid_calls w))),
     mkWorld
       (Some (mkDatabase
                (growth_usage_log db)
                (growth_market_analyses db
                 ++ [mkAnalysisRow (gen_random_uuid w (uuid_calls w)) accountId userId
                       requestData resultData (db_now w)])
                (growth_campaign_plans db)))
       (fault w) (gen_random_uuid w) (S (uuid_calls w)) (db_now w)
       (trace w ++ [db_query "growth_market_analyses" "insert" accountId None])).
Proof.
  intros Hdb Hfault.
  unfold saveMarketAnalysis, bind, getDb, get_fault, emit, fresh_uuid, get_db_now,
    set_database, ret.
  rewrite Hdb. cbn [fault logged]. rewrite Hfault. reflexivity.
Qed.

Lemma select_own_row (w : World) (db : Database) (row : AnalysisRow) :
  supabase w = Some (mkDatabase (growth_usage_log db)
                                (growth_market_analyses db ++ [row])
                                (growth_campaign_plans db)) ->
  fault w "growth_market_analyses" "select" = None ->
  (forall other, In other (growth_market_analyses db) -> ma_id other <> ma_id row) ->
  select_analysis_single (ma_id row) (ma_account_id row) w
  = (Fulfilled (Some row, None),
     logged w [db_query "growth_market_analyses" "select" (ma_account_id row) None]).
Proof.
  intros Hdb Hfault Hfresh.
  unfold select_analysis_single, bind, getDb, get_fault, emit, ret.
  rewrite Hdb, Hfault. cbn [growth_market_analyses].
  rewrite filter_app, filter_none.
  - cbn [filter app]. rewrite !String.eqb_refl. reflexivity.
  - intros other Hin. pose proof (Hfresh other Hin) as Hne.
    apply String.eqb_neq in Hne. rewrite Hne. reflexivity.
Qed.

End PersistenceFacts.

(* ------------------------------------------------------------------ *)
(** ** From analysis to plan *)

Module PipelineFacts.
Import Js Json Types Runtime Db Usage Interfaces MarketAnalysisService Routes Spec Coverage
       RuntimeFacts AnalysisFacts.
Local Open Scope js_scope.

(** X11: what the plan stage reads from a persisted analysis is what the
    synthesis answered: the summary, the service opportunities, the
    competitor snapshots (stored under "competitors") and the budget
    recommendation of a response that is not [null] reach the plan input
    unchanged, each replaced by its empty default when it is missing or
    falsy. *)
Theorem plan_input_carries_synthesis_answer (llmInput : LlmMarketAnalysisInput)
    (llmOutput : json) (clock : Clock) (request : PlanGenerationRequest) :
  llmOutput <> JNull ->
  let field key := catch_value (get llmOutput key) None in
  PlanGenerationService.build_input
    (MarketAnalysis_json (assembled llmInput llmOutput clock)) request
  = Fulfilled
      (mkLlmPlanInput
         (mkPlanMarketAnalysis
            (or_else (field "summary") (JString ""))
            (or_else (field "serviceOpportunities") (JArray []))
            (or_else (field "competitorSnapshots") (JArray []))
            (or_else (field "budgetRecommendation") (JObject [])))
         (pr_selectedServices request) (pr_selectedCities request)
         (pr_dailyBudget request) (pr_hardCap request) (pr_phoneNumber request)).
Proof.
  intros Hnull field. subst field.
  unfold assembled, MarketAnalysis_json.
  cbn [overview ov_summary ov_competitionLevel ov_marketInsight ov_websiteAnalysis
       serviceOpportunities competitorSnapshots recommendedCities budgetRecommendation
       dataSourcesUsed generatedAt id option_map].
  generalize (catch_value (get llmOutput "summary") None).
  generalize (catch_value (get llmOutput "competitionLevel") None).
  generalize (catch_value (get llmOutput "marketInsight") None).
  generalize (catch_value (get llmOutput "websiteAnalysis") None).
  generalize (catch_value (get llmOutput "serviceOpportunities") None).
  generalize (catch_value (get llmOutput "competitorSnapshots") None).
  generalize (catch_value (get llmOutput "recommendedCities") None).
  generalize (catch_value (get llmOutput "budgetRecommendation") None).
  intros budget cities snapshots opportunities website insight level summary.
  destruct (truthy website); destruct website, budget, cities, snapshots, opportunities,
    insight, level, summary; reflexivity.
Qed.

Lemma plan_input_carries_synthesis_answer_witness :
  PlanGenerationService.build_input
    (MarketAnalysis_json
       (assembled (empty_payload Scenarios.request_A) Scenarios.analysis_answer
                  Scenarios.clock))
    Scenarios.plan_request
  = Fulfilled
      (mkLlmPlanInput
         (mkPlanMarketAnalysis
            (or_else (catch_value (get Scenarios.analysis_answer "summary") None)
                     (JString ""))
            (or_else (catch_value (get Scenarios.analysis_answer "serviceOpportunities") None)
                     (JArray []))
            (or_else (catch_value (get Scenarios.analysis_answer "competitorSnapshots") None)
                     (JArray []))
            (or_else (catch_value (get Scenarios.analysis_answer "budgetRecommendation") None)
                     (JObject [])))
         (pr_selectedServices Scenarios.plan_request)
         (pr_selectedCities Scenarios.plan_request)
         (pr_dailyBudget Scenarios.plan_request) (pr_hardCap Scenarios.plan_request)
         (pr_phoneNumber Scenarios.plan_request)).
Proof.
  apply (plan_input_carries_synthesis_answer (empty_payload Scenarios.request_A)
           Scenarios.analysis_answer Scenarios.clock Scenarios.plan_request).
  discriminate.
Defined.

End PipelineFacts.

(* ------------------------------------------------------------------ *)
(** ** What a run of the analysis writes *)

Module BookkeepingFacts.
Import Js Json Types Runtime Db Usage Interfaces MarketAnalysisService Routes Spec Coverage
       RuntimeFacts AnalysisFacts.
Local Open Scope js_scope.

Lemma null_or_not (j : json) : j = JNull \/ j <> JNull.
Proof. destruct j; [now left | right; discriminate ..]. Qed.

Lemma analyze_null (deps : MarketAnalysisServiceDeps) (clock : Clock)
    (request : MarketAnalysisRequest) (accountId userId : string) (w : World) :
  synthesizeMarketAnalysis (llm deps) (payload deps request accountId) = Fulfilled JNull ->
  exists e events,
    analyze deps clock request accountId userId w = (Rejected e, logged w events).
Proof.
  intros Hsynth. unfold analyze.
  destruct (gather_run deps request accountId w) as [e0 Hg].
  rewrite (bind_run _ _ _ _ _ Hg). rewrite Hsynth.
  rewrite (bind_run _ _ _ _ _ (await_run_eq (Fulfilled JNull) _)).
  rewrite (bind_rejected _ _ _ _ _ (assemble_null _ _ _)).
  eexists. now exists e0.
Qed.

Lemma analyze_without_client (deps : MarketAnalysisServiceDeps) (clock : Clock)
    (request : MarketAnalysisRequest) (accountId userId : string) (w : World)
    (llmOutput : json) :
  supabase w = None ->
  synthesizeMarketAnalysis (llm deps) (payload deps request accountId)
  = Fulfilled llmOutput ->
  llmOutput <> JNull ->
  exists e events,
    analyze deps clock request accountId userId w = (Rejected e, logged w events).
Proof.
  intros Hdb Hsynth Hnull. unfold analyze.
  destruct (gather_run deps request accountId w) as [e0 Hg].
  rewrite (bind_run _ _ _ _ _ Hg). rewrite Hsynth.
  rewrite (bind_run _ _ _ _ _ (await_run_eq (Fulfilled llmOutput) _)).
  rewrite (bind_run _ _ _ _ _ (assemble_run _ _ _ _ Hnull)).
  unfold saveMarketAnalysis. unfold bind, getDb. cbn [supabase logged]. rewrite Hdb.
  eexists. now exists e0.
Qed.

(** The ways a run of [analyze] can end. *)
Lemma analyze_outcomes (deps : MarketAnalysisServiceDeps) (clock : Clock)
    (request : MarketAnalysisRequest) (accountId userId : string) (w : World) :
  (exists e events,
     analyze deps clock request accountId userId w = (Rejected e, logged w events))
  \/ (exists db llmOutput w',
        supabase w = Some db
        /\ synthesizeMarketAnalysis (llm deps) (payload deps request accountId)
           = Fulfilled llmOutput
        /\ llmOutput <> JNull
        /\ analyze deps clock request accountId userId w
           = (Fulfilled (with_id (assembled (payload deps request accountId) llmOutput clock)
                                 (saved_id w)),
              w')
        /\ supabase w'
           = Some (stored w db request accountId userId
                     (assembled (payload deps request accountId) llmOutput clock) clock)).
Proof.
  destruct (synthesizeMarketAnalysis (llm deps) (payload deps request accountId))
    as [llmOutput|e] eqn:Hsynth.
  - destruct (null_or_not llmOutput) as [-> | Hnull].
    + left. exact (analyze_null deps clock request accountId userId w Hsynth).
    + destruct (supabase w) as [db|] eqn:Hdb.
      * right.
        destruct (analyze_run deps clock request accountId userId w db llmOutput
                    Hdb Hsynth Hnull) as (w' & events & Hrun & Hstored & _).
        exists db, llmOutput, w'. auto.
      * left.
        exact (analyze_without_client deps clock request accountId userId w llmOutput
                 Hdb Hsynth Hnull).
  - left. exists e.
    exact (analyze_synthesis_rejected deps clock request accountId userId w e Hsynth).
Qed.

(** X12: an analysis that fails, whatever the reason (the synthesis is
    rejected, its answer is [null], the database client is missing), has
    written nothing: the database is the one the call started with, no
    primary key was drawn, and so no quota was consumed. *)
Theorem rejected_analysis_writes_nothing (deps : MarketAnalysisServiceDeps)
    (clock : Clock) (request : MarketAnalysisRequest) (accountId userId : string)
    (w w' : World) (e : string) :
  analyze deps clock request accountId userId w = (Rejected e, w') ->
  supabase w' = supabase w /\ uuid_calls w' = uuid_calls w.
Proof.
  intros Hrun.
  destruct (analyze_outcomes deps clock request accountId userId w)
    as [(e' & events & H) | (db & llmOutput & w2 & _ & _ & _ & H & _)];
    rewrite H in Hrun.
  - injection Hrun as _ <-. split; reflexivity.
  - discriminate Hrun.
Qed.

Lemma rejected_analysis_writes_nothing_witness :
  supabase (snd (analyze Scenarios.deps_apologising Scenarios.clock Scenarios.request_A
                   "account-a" "user-a"
                   (Scenarios.world Scenarios.database_with_analysis Scenarios.no_faults)))
  = Some Scenarios.database_with_analysis
  /\ uuid_calls (snd (analyze Scenarios.deps_apologising Scenarios.clock
                        Scenarios.request_A "account-a" "user-a"
                        (Scenarios.world Scenarios.database_with_analysis
                                         Scenarios.no_faults)))
     = 0%nat.
Proof.
  eapply (rejected_analysis_writes_nothing Scenarios.deps_apologising Scenarios.clock
            Scenarios.request_A "account-a" "user-a"
            (Scenarios.world Scenarios.database_with_analysis Scenarios.no_faults)).
  vm_compute. reflexivity.
Defined.

(** X13: an analysis that is returned has consumed exactly one unit of the
    caller's quota and none of any other account's: when the ledger accepts
    the write, the caller's count for a period that has begun is one more
    than before, and every other count is what it was. *)
Theorem completed_analysis_consumes_one_unit (deps : MarketAnalysisServiceDeps)
    (clock : Clock) (request : MarketAnalysisRequest) (accountId userId : string)
    (w w' : World) (analysis : MarketAnalysis) (month : Month) :
  analyze deps clock request accountId userId w = (Fulfilled analysis, w') ->
  fault w "growth_usage_log" "insert" = None ->
  (startOfMonth month <= db_now w)%Z ->
  exists db db',
    supabase w = Some db
    /\ supabase w' = Some db'
    /\ count_usage db' accountId (startOfMonth month)
       = (count_usage db accountId (startOfMonth month) + 1)%Z
    /\ forall other,
         other <> accountId ->
         count_usage db' other (startOfMonth month)
         = count_usage db other (startOfMonth month).
Proof.
  intros Hrun Hfault Hnow.
  destruct (analyze_outcomes deps clock request accountId userId w)
    as [(e' & events & H) | (db & llmOutput & w2 & Hdb & _ & _ & H & Hstored)];
    rewrite H in Hrun; [discriminate Hrun|].
  injection Hrun as _ <-.
  exists db. eexists. split; [exact Hdb|]. split; [exact Hstored|].
  unfold count_usage, stored. cbn [growth_usage_log]. rewrite Hfault.
  split.
  - rewrite filter_app, length_app. cbn [filter ul_account_id ul_created_at].
    rewrite String.eqb_refl.
    apply Z.leb_le in Hnow. rewrite Hnow. cbn [andb List.length]. lia.
  - intros other Hother.
    rewrite filter_app, length_app. cbn [filter ul_account_id ul_created_at].
    assert (Hneq : String.eqb accountId other = false).
    { apply String.eqb_neq. congruence. }
    rewrite Hneq. cbn [andb List.length]. lia.
Qed.

Lemma completed_analysis_consumes_one_unit_witness :
  exists db db',
    supabase (Scenarios.world MoreScenarios.database_with_ten_events Scenarios.no_faults)
    = Some db
    /\ supabase (snd (analyze Scenarios.deps_A Scenarios.clock Scenarios.request_A
                        "account-b" "user-b"
                        (Scenarios.world MoreScenarios.database_with_ten_events
                                         Scenarios.no_faults)))
       = Some db'
    /\ count_usage db' "account-b" (startOfMonth Scenarios.month)
       = (count_usage db "account-b" (startOfMonth Scenarios.month) + 1)%Z
    /\ forall other,
         other <> "account-b" ->
         count_usage db' other (startOfMonth Scenarios.month)
         = count_usage db other (startOfMonth Scenarios.month).
Proof.
  eapply (completed_analysis_consumes_one_unit Scenarios.deps_A Scenarios.clock
            Scenarios.request_A "account-b" "user-b"
            (Scenarios.world MoreScenarios.database_with_ten_events Scenarios.no_faults)).
  - vm_compute. reflexivity.
  - reflexivity.
  - vm_compute. discriminate.
Defined.

End BookkeepingFacts.

(* ------------------------------------------------------------------ *)
(** ** What a run of the plan derivation writes *)

Module PlanBookkeepingFacts.
Import Js Json Types Runtime Db Usage Interfaces PlanGenerationService Routes Spec Coverage
       RuntimeFacts PlanFacts.
Local Open Scope js_scope.

(** The scoped read only adds to the trace. *)
Lemma select_only_logs (analysisId accountId : string) (w w1 : World)
    (r : Promise (option AnalysisRow * option string)) :
  select_analysis_single analysisId accountId w = (r, w1) ->
  exists events, w1 = logged w events.
Proof.
  unfold select_analysis_single, bind, getDb, get_fault, emit, ret.
  destruct (supabase w) as [db|].
  - intros [= _ <-]. eexists. reflexivity.
  - intros [= _ <-]. exists []. now rewrite logged_nil.
Qed.

(** Reduce the two writes of [generatePlan] as far as the initialised
    client [Hdb] allows. *)
Ltac run_plan_store Hdb :=
  repeat (cbn -[CampaignPlan_json plan_usage_metadata String.append];
          rewrite Hdb);
  cbn -[CampaignPlan_json plan_usage_metadata String.append].

(** X14: a plan derivation that fails, whatever the reason (the analysis
    is not found, the reasoning engine is rejected, its answer has no
    array of campaigns), has written nothing: the database is the one the
    call started with and no primary key was drawn. *)
Theorem rejected_plan_writes_nothing (llm : LlmProvider)
    (clock : MarketAnalysisService.Clock) (request : PlanGenerationRequest)
    (accountId userId : string) (w w' : World) (e : string) :
  generatePlan llm clock request accountId userId w = (Rejected e, w') ->
  supabase w' = supabase w /\ uuid_calls w' = uuid_calls w.
Proof.
  unfold generatePlan. unfold bind at 1.
  destruct (select_analysis_single (pr_analysisId request) accountId w)
    as [loaded w1] eqn:Hsel.
  destruct (select_only_logs _ _ _ _ _ Hsel) as [events ->].
  destruct loaded as [[[row|] [err|]]|e0];
    try (unfold throw; intros [= _ <-]; split; reflexivity).
  destruct (select_found _ _ _ _ _ Hsel) as (db & Hdb & _).
  unfold bind at 1. rewrite await_run_eq.
  destruct (build_input (ma_result_data row) request) as [llmInput|e1];
    [|intros [= _ <-]; split; reflexivity].
  unfold bind at 1. rewrite await_run_eq.
  destruct (generateCampaignPlan llm llmInput) as [llmOutput|e1];
    [|intros [= _ <-]; split; reflexivity].
  unfold bind at 1. rewrite await_run_eq.
  destruct (campaigns_of llmOutput) as [planned|e1];
    [|intros [= _ <-]; split; reflexivity].
  unfold bind at 1. rewrite await_run_eq.
  destruct (get llmOutput "summary") as [summary|e1];
    [|intros [= _ <-]; split; reflexivity].
  unfold saveCampaignPlan, logUsageEvent.
  unfold bind, getDb, get_fault, emit, fresh_uuid, get_db_now, set_database, ret.
  run_plan_store Hdb.
  destruct (fault w "growth_campaign_plans" "insert");
    run_plan_store Hdb;
    destruct (fault w "growth_usage_log" "insert");
    run_plan_store Hdb; discriminate.
Qed.

Lemma rejected_plan_writes_nothing_witness :
  supabase (snd (generatePlan (OpenAiLlm.OpenAiLlmProvider Scenarios.client_apologising)
                   Scenarios.clock Scenarios.plan_request "account-a" "user-a"
                   (Scenarios.world Scenarios.database_with_analysis Scenarios.no_faults)))
  = Some Scenarios.database_with_analysis
  /\ uuid_calls (snd (generatePlan
                        (OpenAiLlm.OpenAiLlmProvider Scenarios.client_apologising)
                        Scenarios.clock Scenarios.plan_request "account-a" "user-a"
                        (Scenarios.world Scenarios.database_with_analysis
                                         Scenarios.no_faults)))
     = 0%nat.
Proof.
  eapply (rejected_plan_writes_nothing
            (OpenAiLlm.OpenAiLlmProvider Scenarios.client_apologising)
            Scenarios.clock Scenarios.plan_request "account-a" "user-a"
            (Scenarios.world Scenarios.database_with_analysis Scenarios.no_faults)).
  vm_compute. reflexivity.
Defined.

(** X15: a plan that is returned carries the analysis id, the daily budget
    and the hard cap of the request, whatever the reasoning engine
    answered; the run leaves the stored analyses as they were and adds at
    most one plan row, which belongs to the caller, refers to the requested
    analysis and has the identifier the plan carries.  When the insert of
    the plan fails the plan is returned all the same, with a null
    identifier. *)
Theorem returned_plan_bookkeeping (llm : LlmProvider)
    (clock : MarketAnalysisService.Clock) (request : PlanGenerationRequest)
    (accountId userId : string) (w w' : World) (plan : CampaignPlan) :
  generatePlan llm clock request accountId userId w = (Fulfilled plan, w') ->
  analysisId plan = pr_analysisId request
  /\ totalDailyBudget plan = pr_dailyBudget request
  /\ hardCap plan = pr_hardCap request
  /\ exists db db',
       supabase w = Some db
       /\ supabase w' = Some db'
       /\ growth_market_analyses db' = growth_market_analyses db
       /\ match fault w "growth_campaign_plans" "insert" with
          | Some _ =>
              growth_campaign_plans db' = growth_campaign_plans db
              /\ id plan = Some None
          | None =>
              exists row,
                growth_campaign_plans db' = (growth_campaign_plans db ++ [row])%list
                /\ cp_account_id row = accountId
                /\ cp_user_id row = userId
                /\ cp_analysis_id row = pr_analysisId request
                /\ id plan = Some (id_or_null (cp_id row))
          end.
Proof.
  unfold generatePlan. unfold bind at 1.
  destruct (select_analysis_single (pr_analysisId request) accountId w)
    as [loaded w1] eqn:Hsel.
  destruct (select_only_logs _ _ _ _ _ Hsel) as [events ->].
  destruct loaded as [[[row|] [err|]]|e0]; try discriminate.
  destruct (select_found _ _ _ _ _ Hsel) as (db & Hdb & _).
  unfold bind at 1. rewrite await_run_eq.
  destruct (build_input (ma_result_data row) request) as [llmInput|e1]; [|discriminate].
  unfold bind at 1. rewrite await_run_eq.
  destruct (generateCampaignPlan llm llmInput) as [llmOutput|e1]; [|discriminate].
  unfold bind at 1. rewrite await_run_eq.
  destruct (campaigns_of llmOutput) as [planned|e1]; [|discriminate].
  unfold bind at 1. rewrite await_run_eq.
  destruct (get llmOutput "summary") as [summary|e1]; [|discriminate].
  unfold saveCampaignPlan, logUsageEvent.
  unfold bind, getDb, get_fault, emit, fresh_uuid, get_db_now, set_database, ret.
  destruct db as [ledger analyses plans].
  run_plan_store Hdb.
  destruct (fault w "growth_campaign_plans" "insert");
    run_plan_store Hdb;
    destruct (fault w "growth_usage_log" "insert");
    run_plan_store Hdb;
    intros [= <- <-]; cbn [analysisId totalDailyBudget hardCap id plan_with_id];
    (split; [reflexivity|]); (split; [reflexivity|]); (split; [reflexivity|]);
    eexists; eexists; (split; [reflexivity|]);
    (split; [cbn [supabase logged]; try rewrite Hdb; reflexivity|]);
    cbn [growth_market_analyses growth_campaign_plans];
    (split; [reflexivity|]);
    try (split; reflexivity);
    eexists; (split; [reflexivity|]); cbn [cp_account_id cp_user_id cp_analysis_id cp_id];
    repeat split.
Qed.

Lemma returned_plan_bookkeeping_witness :
  analysisId Scenarios.plan_generated = pr_analysisId Scenarios.plan_request
  /\ totalDailyBudget Scenarios.plan_generated = pr_dailyBudget Scenarios.plan_request
  /\ hardCap Scenarios.plan_generated = pr_hardCap Scenarios.plan_request
  /\ exists db db',
       supabase (Scenarios.world Scenarios.database_with_analysis Scenarios.no_faults)
       = Some db
       /\ supabase (snd Scenarios.plan_run) = Some db'
       /\ growth_market_analyses db' = growth_market_analyses db
       /\ exists row,
            growth_campaign_plans db' = (growth_campaign_plans db ++ [row])%list
            /\ cp_account_id row = "account-a"
            /\ cp_user_id row = "user-a"
            /\ cp_analysis_id row = pr_analysisId Scenarios.plan_request
            /\ id Scenarios.plan_generated = Some (id_or_null (cp_id row)).
Proof.
  apply (returned_plan_bookkeeping Scenarios.plan_llm Scenarios.clock
           Scenarios.plan_request "account-a" "user-a"
           (Scenarios.world Scenarios.database_with_analysis Scenarios.no_faults)
           (snd Scenarios.plan_run) Scenarios.plan_generated).
  vm_compute. reflexivity.
Defined.

End PlanBookkeepingFacts.

(* ------------------------------------------------------------------ *)
(** ** The analysis route and the sources it names *)

Module RouteFacts.
Import Js Json Types Runtime Db Usage Interfaces MarketAnalysisService Routes Spec Coverage
       RuntimeFacts AnalysisFacts BookkeepingFacts.
Local Open Scope js_scope.

(** X16: POST /api/analyze always answers, with status 200, 400 or 500.
    It answers 400 exactly when the request is authenticated and the body
    lacks a zip code or names no service, and then the world is as it
    was: nothing was logged or written. *)
Theorem post_analyze_answers (deps : MarketAnalysisServiceDeps) (clock : Clock)
    (auth : option AuthContext) (body : AnalyzeBody) (w : World) :
  exists status b,
    fst (post_analyze deps clock auth body w) = Fulfilled (res_json status b)
    /\ (status = 200 \/ status = 400 \/ status = 500)%Z
    /\ (status = 400%Z <-> auth <> None /\ missing_fields body)
    /\ (status = 400%Z -> snd (post_analyze deps clock auth body w) = w).
Proof.
  unfold post_analyze, try_catch, missing_fields.
  destruct auth as [a|].
  - unfold bind at 1. unfold auth_of, ret at 1.
    destruct (body_zipCode body) as [[|c zipCode]|].
    + destruct (body_services body) as [[|s services]|];
        (eexists; eexists; split; [reflexivity|];
         split; [right; left; reflexivity|];
         split; [|reflexivity];
         split; [intros _; split; [discriminate | now left] | reflexivity]).
    + destruct (body_services body) as [[|s services]|].
      * eexists; eexists; split; [reflexivity|].
        split; [right; left; reflexivity|]. split; [|reflexivity].
        split; [intros _; split; [discriminate | now right] | reflexivity].
      * cbn [truthy_string]. unfold bind at 1.
        match goal with
        | |- context [analyze ?d ?c ?r ?x ?y ?w0] =>
            destruct (analyze d c r x y w0) as [[analysis|e] w1]
        end.
        -- eexists; eexists; split; [reflexivity|].
           split; [left; reflexivity|]. split; [|discriminate].
           split; [discriminate|]. intros [_ [H|H]]; discriminate H.
        -- eexists; eexists; split; [reflexivity|].
           split; [right; right; reflexivity|]. split; [|discriminate].
           split; [discriminate|]. intros [_ [H|H]]; discriminate H.
      * eexists; eexists; split; [reflexivity|].
        split; [right; left; reflexivity|]. split; [|reflexivity].
        split; [intros _; split; [discriminate | now right] | reflexivity].
    + destruct (body_services body) as [[|s services]|];
        (eexists; eexists; split; [reflexivity|];
         split; [right; left; reflexivity|];
         split; [|reflexivity];
         split; [intros _; split; [discriminate | now left] | reflexivity]).
  - eexists; eexists; split; [reflexivity|].
    split; [right; right; reflexivity|]. split; [|discriminate].
    split; [discriminate|]. intros [H _]. now contradiction H.
Qed.

(** The sources an analysis names are computed from the payload. *)
Lemma analyze_sources (deps : MarketAnalysisServiceDeps) (clock : Clock)
    (request : MarketAnalysisRequest) (accountId userId : string)
    (w w' : World) (analysis : MarketAnalysis) :
  analyze deps clock request accountId userId w = (Fulfilled analysis, w') ->
  dataSourcesUsed analysis
  = getDataSourcesUsed
      (List.length (in_keywords (payload deps request accountId)))
      (List.length (in_competitors (payload deps request accountId)))
      (List.length (in_serpResults (payload deps request accountId)))
      (match in_crmData (payload deps request accountId) with
       | Some _ => true
       | None => false
       end).
Proof.
  intros Hrun.
  destruct (analyze_outcomes deps clock request accountId userId w)
    as [(e' & events & H) | (db & llmOutput & w2 & _ & _ & _ & H & _)];
    rewrite H in Hrun; [discriminate Hrun|].
  injection Hrun as <- _. reflexivity.
Qed.

Lemma length_pos {A : Type} (l : list A) : (0 < List.length l)%nat <-> l <> [].
Proof. destruct l; simpl; split; intros H; try lia; congruence. Qed.

(** X17: an analysis that is returned names a data source exactly when the
    branch of that source handed at least one item to the synthesis (for
    the CRM, a snapshot); the reasoning engine is always named, and the
    website extraction never is. *)
Theorem named_sources_are_those_that_contributed (deps : MarketAnalysisServiceDeps)
    (clock : Clock) (request : MarketAnalysisRequest) (accountId userId : string)
    (w w' : World) (analysis : MarketAnalysis) (source : string) :
  analyze deps clock request accountId userId w = (Fulfilled analysis, w') ->
  In source (dataSourcesUsed analysis)
  <-> (source = "google_ads_keyword_planner"
       /\ in_keywords (payload deps request accountId) <> [])
      \/ (source = "google_places"
          /\ in_competitors (payload deps request accountId) <> [])
      \/ (source = "serper_serp"
          /\ in_serpResults (payload deps request accountId) <> [])
      \/ (source = "crm_data" /\ in_crmData (payload deps request accountId) <> None)
      \/ source = "openai_llm".
Proof.
  intros Hrun. rewrite (analyze_sources _ _ _ _ _ _ _ _ Hrun).
  rewrite data_sources_reflect_branches, !length_pos.
  destruct (in_crmData (payload deps request accountId));
    intuition (try discriminate; try congruence).
Qed.

Lemma named_sources_are_those_that_contributed_witness :
  In "google_places"
     (dataSourcesUsed
        (with_id (assembled (payload Scenarios.deps_A Scenarios.request_A "account-a")
                            Scenarios.analysis_answer Scenarios.clock)
                 (Some (Scenarios.uuids 0))))
  <-> ("google_places" = "google_ads_keyword_planner"
       /\ in_keywords (payload Scenarios.deps_A Scenarios.request_A "account-a") <> [])
      \/ ("google_places" = "google_places"
          /\ in_competitors (payload Scenarios.deps_A Scenarios.request_A "account-a") <> [])
      \/ ("google_places" = "serper_serp"
          /\ in_serpResults (payload Scenarios.deps_A Scenarios.request_A "account-a") <> [])
      \/ ("google_places" = "crm_data"
          /\ in_crmData (payload Scenarios.deps_A Scenarios.request_A "account-a") <> None)
      \/ "google_places" = "openai_llm".
Proof.
  eapply (named_sources_are_those_that_contributed Scenarios.deps_A Scenarios.clock
            Scenarios.request_A "account-a" "user-a"
            (Scenarios.world Scenarios.empty_database Scenarios.no_faults)).
  vm_compute. reflexivity.
Defined.

End RouteFacts.

(* ------------------------------------------------------------------ *)
(** ** The wiring of the providers (index.ts) *)

Module WiringFacts.
Import Js Json Types Runtime Db Usage Interfaces Configuration CompetitorProviders
       MarketAnalysisService Routes Spec Coverage RuntimeFacts AnalysisFacts RouteFacts.
Local Open Scope js_scope.

Lemma serp_loop_length
    (method : option (string -> string -> Promise (option SerpResult)))
    (zipCode : string) (queries : list string) :
  forall results found,
    serp_loop method zipCode queries results = Fulfilled found ->
    (List.length found <= List.length results + List.length queries)%nat.
Proof.
  induction queries as [|query rest IH]; intros results found H; simpl in H.
  - injection H as <-. simpl. lia.
  - destruct method as [m|].
    + destruct (m query zipCode) as [[result|]|e]; [| |discriminate].
      * apply IH in H. rewrite length_app in H. cbn [List.length] in *. lia.
      * apply IH in H. cbn [List.length]. lia.
    + apply IH in H. cbn [List.length]. lia.
Qed.

Lemma serp_loop_silent (method : string -> string -> Promise (option SerpResult))
    (zipCode : string) (queries : list string) :
  (forall query location, method query location = Fulfilled None) ->
  forall results, serp_loop (Some method) zipCode queries results = Fulfilled results.
Proof.
  intros Hsilent. induction queries as [|query rest IH]; intros results; simpl.
  - reflexivity.
  - rewrite Hsilent. apply IH.
Qed.

(** X18: the synthesis is handed at most three SERP snapshots, however
    many services and cities the request names, and none when no SERP
    provider is wired in. *)
Theorem at_most_three_serp_snapshots (deps : MarketAnalysisServiceDeps)
    (request : MarketAnalysisRequest) (accountId : string) :
  (List.length (in_serpResults (payload deps request accountId)) <= 3)%nat
  /\ (serpProvider deps = None -> in_serpResults (payload deps request accountId) = []).
Proof.
  unfold payload. cbn [in_serpResults]. unfold gatherSerpResults.
  destruct (serpProvider deps) as [provider|].
  - split; [|discriminate].
    destruct (serp_loop (getSerpResults provider) (rq_zipCode request)
                (firstn 3 (serp_queries request)) []) as [found|e] eqn:Hloop.
    + apply serp_loop_length in Hloop. cbn [catch_value].
      pose proof (firstn_le_length 3 (serp_queries request)) as Hcap.
      cbn [List.length Nat.add] in Hloop. lia.
    + simpl. lia.
  - split; [simpl; lia | reflexivity].
Qed.

(** X19: under the wiring of [main], a source the configuration switches
    off is never named by a returned analysis: "google_places" without a
    Places key, "serper_serp" when SERP analysis is disabled or has no
    key. *)
Theorem switched_off_sources_are_never_named (config : Config) (ext : Externals)
    (clock : Clock) (request : MarketAnalysisRequest) (accountId userId : string)
    (w w' : World) (analysis : MarketAnalysis) :
  analyze (main config ext) clock request accountId userId w = (Fulfilled analysis, w') ->
  (googlePlacesApiKey config = "" -> ~ In "google_places" (dataSourcesUsed analysis))
  /\ (serpEnabled config = false \/ serperApiKey config = "" ->
      ~ In "serper_serp" (dataSourcesUsed analysis)).
Proof.
  intros Hrun. rewrite (analyze_sources _ _ _ _ _ _ _ _ Hrun).
  split.
  - intros Hkey. rewrite data_sources_reflect_branches.
    unfold payload, main. cbn [in_competitors competitors getCompetitors
      GooglePlacesCompetitorProvider]. rewrite Hkey. cbn [truthy_string negb catch_value].
    simpl List.length.
    intros [[H _] | [[_ H] | [[H _] | [[H _] | H]]]];
      first [ inversion H | discriminate H ].
  - intros Hoff. rewrite data_sources_reflect_branches.
    assert (Hnone : in_serpResults (payload (main config ext) request accountId) = []).
    { unfold payload. cbn [in_serpResults]. unfold gatherSerpResults, main.
      cbn [serpProvider].
      destruct (serpEnabled config) eqn:Henabled.
      - destruct Hoff as [Hoff | Hkey]; [discriminate Hoff|].
        unfold SerperCompetitorProvider. cbn [getSerpResults].
        rewrite serp_loop_silent; [reflexivity|].
        intros query location. rewrite Henabled, Hkey. reflexivity.
      - reflexivity. }
    rewrite Hnone. simpl List.length.
    intros [[H _] | [[H _] | [[_ H] | [[H _] | H]]]];
      first [ inversion H | discriminate H ].
Qed.

Lemma switched_off_sources_are_never_named_witness :
  ~ In "google_places"
      (dataSourcesUsed
         (with_id (assembled
                     (payload (main MoreScenarios.config_bare
                                    MoreScenarios.externals_answering)
                              Scenarios.request_with_site "account-a")
                     Scenarios.analysis_answer Scenarios.clock)
                  (Some (Scenarios.uuids 0))))
  /\ ~ In "serper_serp"
       (dataSourcesUsed
          (with_id (assembled
                      (payload (main MoreScenarios.config_bare
                                     MoreScenarios.externals_answering)
                               Scenarios.request_with_site "account-a")
                      Scenarios.analysis_answer Scenarios.clock)
                   (Some (Scenarios.uuids 0)))).
Proof.
  assert (Hrun : analyze (main MoreScenarios.config_bare MoreScenarios.externals_answering)
                   Scenarios.clock Scenarios.request_with_site "account-a" "user-a"
                   (Scenarios.world Scenarios.empty_database Scenarios.no_faults)
                 = (Fulfilled
                      (with_id (assembled
                                  (payload (main MoreScenarios.config_bare
                                                 MoreScenarios.externals_answering)
                                           Scenarios.request_with_site "account-a")
                                  Scenarios.analysis_answer Scenarios.clock)
                               (Some (Scenarios.uuids 0))),
                    snd (analyze (main MoreScenarios.config_bare
                                       MoreScenarios.externals_answering)
                           Scenarios.clock Scenarios.request_with_site "account-a" "user-a"
                           (Scenarios.world Scenarios.empty_database Scenarios.no_faults)))).
  { vm_compute. reflexivity. }
  destruct (switched_off_sources_are_never_named _ _ _ _ _ _ _ _ _ Hrun) as [Hplaces Hserp].
  split.
  - apply Hplaces. reflexivity.
  - apply Hserp. left. reflexivity.
Defined.

End WiringFacts.

(* ------------------------------------------------------------------ *)
(** ** The Keyword Planner provider *)

Module KeywordPlannerFacts.
Import Js Json Types Interfaces Configuration GoogleAdsKeywordPlanner Coverage JsFacts.

(** X20: [microsToDollars] returns a whole number of cents, the one nearest
    to the amount the micros stand for, and 0 for a missing value; it is
    not negative when the micros are not. *)
Theorem microsToDollars_is_nearest_cent (micros : option Z) :
  (exists cents : Z, microsToDollars micros == inject_Z cents / 100)
  /\ microsToDollars micros - dollars micros <= 1 # 200
  /\ dollars micros - microsToDollars micros <= 1 # 200
  /\ (0 <= dollars micros -> 0 <= microsToDollars micros).
Proof.
  unfold microsToDollars, dollars.
  destruct micros as [m|].
  - destruct (m =? 0)%Z eqn:Hzero.
    + apply Z.eqb_eq in Hzero. subst m.
      split; [exists 0%Z; reflexivity|].
      repeat split; intros; unfold Qle; simpl; lia.
    + set (x := inject_Z m / 1000000 * 100).
      pose proof (Math_round_lower x) as Hlo.
      pose proof (Math_round_upper x) as Hhi.
      assert (Hx : inject_Z m / 1000000 == x / 100) by (unfold x; field).
      split.
      * exists (Qfloor (x + (1 # 2))). reflexivity.
      * rewrite Hx. repeat split.
        -- assert (H : Math_round x / 100 - x / 100 == (Math_round x - x) / 100) by field.
           rewrite H. apply Qle_shift_div_r; [reflexivity|]. lra.
        -- assert (H : x / 100 - Math_round x / 100 == (x - Math_round x) / 100) by field.
           rewrite H. apply Qle_shift_div_r; [reflexivity|]. lra.
        -- intros Hpos.
           assert (H0 : 0 <= x).
           { assert (Hx100 : x == x / 100 * 100) by field. lra. }
           apply Qle_shift_div_l; [reflexivity|].
           pose proof (Math_round_nonneg x H0). lra.
  - split; [exists 0%Z; reflexivity|].
    repeat split; intros; unfold Qle; simpl; lia.
Qed.

Lemma idea_entry_ok (cities : list string) (service : string) (idea : KeywordIdea)
    (kd : KeywordData) :
  idea_entry cities service idea = Some kd ->
  kd_service kd = service
  /\ ~ (kd_monthlySearches kd == 0 /\ kd_avgCpc kd == 0)
  /\ match kd_city kd with
     | None => True
     | Some city =>
         In city cities
         /\ city <> EmptyString
         /\ includes (toLowerCase (kd_keyword kd)) (toLowerCase city) = true
     end.
Proof.
  unfold idea_entry.
  destruct (keyword_idea_metrics idea) as [metrics|]; [|discriminate].
  match goal with
  | |- context [Qeq_bool ?a 0 && Qeq_bool ?b 0] =>
      destruct (Qeq_bool a 0 && Qeq_bool b 0) eqn:Hzero
  end; [discriminate|].
  intros [= <-].
  cbn [kd_service kd_monthlySearches kd_avgCpc kd_city kd_keyword].
  split; [reflexivity|]. split.
  - intros [Hs Hc]. apply Qeq_bool_iff in Hs, Hc. rewrite Hs, Hc in Hzero.
    discriminate Hzero.
  - match goal with
    | |- context [find ?f cities] => destruct (find f cities) as [city|] eqn:Hfind
    end; [|exact I].
    apply find_some in Hfind. destruct Hfind as [Hin Hincludes].
    destruct city as [|c rest]; cbn [truthy_string]; [exact I|].
    repeat split; [exact Hin | discriminate | exact Hincludes].
Qed.

Lemma ideas_entries_ok (services cities : list string) (service : string)
    (ideas : list KeywordIdea) :
  In service services ->
  Forall (planner_entry_ok services cities) (ideas_entries cities service ideas).
Proof.
  intros Hin. induction ideas as [|idea rest IH]; simpl; [constructor|].
  destruct (idea_entry cities service idea) as [kd|] eqn:Hentry; [|exact IH].
  constructor; [|exact IH].
  destruct (idea_entry_ok _ _ _ _ Hentry) as (Hs & Hdata & Hcity).
  unfold planner_entry_ok. rewrite Hs. auto.
Qed.

Lemma keywordIdeas_loop_ok (api : GoogleAdsApi) (config : Config)
    (geoTargets cities all : list string) (services : list string) :
  incl services all ->
  forall results,
    Forall (planner_entry_ok all cities) results ->
    Forall (planner_entry_ok all cities)
           (keywordIdeas_loop api config geoTargets cities services results).
Proof.
  induction services as [|service rest IH]; intros Hincl results Hok; simpl.
  - exact Hok.
  - assert (Hrest : incl rest all) by (intros x Hx; apply Hincl; now right).
    destruct (getSeedKeywords service) as [seeds|]; [|now apply IH].
    destruct (generateKeywordIdeas api config seeds geoTargets)
      as [[[|idea ideas]|]|e]; try (now apply IH).
    apply IH; [exact Hrest|].
    apply Forall_app. split; [exact Hok|].
    apply (ideas_entries_ok all cities service (idea :: ideas)). apply Hincl. now left.
Qed.

(** X21: every entry the Keyword Planner provider's [getKeywordData]
    returns belongs to a requested service, has a search volume or a cost
    per click other than zero, and carries a city only if that city was
    requested, is not the empty string and occurs in the keyword. *)
Theorem planner_entries_belong_to_the_request (api : GoogleAdsApi) (config : Config)
    (cache : GeoTargetCache) (services cities : list string) (state : string)
    (results : list KeywordData) :
  fst (getKeywordData api config cache services cities state) = Fulfilled results ->
  Forall (planner_entry_ok services cities) results.
Proof.
  unfold getKeywordData.
  destruct (resolveGeoTargets api config cities cache) as [geoTargets cache'].
  cbn [fst]. intros [= <-].
  apply keywordIdeas_loop_ok; [apply incl_refl | constructor].
Qed.

(** Two services, of which the API answers with one usable idea each. *)
Lemma planner_entries_belong_to_the_request_witness :
  exists results,
    fst (getKeywordData MoreScenarios.ads_with_ideas MoreScenarios.config_bare []
           ["interior painting"; "gutters"] ["Austin"; "Dallas"] "TX")
    = Fulfilled results
    /\ map kd_keyword results = ["Interior Painting Austin"; "Interior Painting Austin"]
    /\ map kd_service results = ["interior painting"; "gutters"]
    /\ map kd_city results = [Some "Austin"; Some "Austin"]
    /\ Forall (planner_entry_ok ["interior painting"; "gutters"] ["Austin"; "Dallas"])
              results.
Proof.
  eexists. split; [reflexivity|].
  split; [reflexivity|]. split; [reflexivity|]. split; [reflexivity|].
  apply (planner_entries_belong_to_the_request MoreScenarios.ads_with_ideas
           MoreScenarios.config_bare [] ["interior painting"; "gutters"]
           ["Austin"; "Dallas"] "TX").
  reflexivity.
Defined.

Lemma resolveGeoTargets_loop_inv (api : GoogleAdsApi) (config : Config)
    (cities : list string) :
  forall cache resolved found cache',
    resolveGeoTargets_loop api config cities cache resolved = (found, cache') ->
    (List.length found <= List.length resolved + List.length cities)%nat
    /\ (forall city name, cache_get city cache = Some name ->
                          cache_get city cache' = Some name)
    /\ (forall name, In name found ->
                     In name resolved
                     \/ exists city, In city cities /\ cache_get city cache' = Some name).
Proof.
  induction cities as [|city rest IH]; intros cache resolved found cache' H; simpl in H.
  - injection H as <- <-. repeat split; [simpl; lia | auto | auto].
  - assert (Hskip :
      resolveGeoTargets_loop api config rest cache resolved = (found, cache') ->
      (List.length found <= List.length resolved + List.length (city :: rest))%nat
      /\ (forall c name, cache_get c cache = Some name -> cache_get c cache' = Some name)
      /\ (forall name, In name found ->
                       In name resolved
                       \/ exists c, In c (city :: rest) /\ cache_get c cache' = Some name)).
    { intros H'. destruct (IH _ _ _ _ H') as (Hlen & Hkeep & Hfrom).
      repeat split; [simpl; lia | exact Hkeep |].
      intros name Hin. destruct (Hfrom name Hin) as [Hold | (c & Hc & Hget)];
        [now left | right; exists c; split; [now right | exact Hget]]. }
    destruct (cache_get city cache) as [hit|] eqn:Hcache.
    + destruct (IH _ _ _ _ H) as (Hlen & Hkeep & Hfrom).
      rewrite length_app in Hlen. repeat split; [simpl in *; lia | exact Hkeep |].
      intros name Hin. destruct (Hfrom name Hin) as [Hold | (c & Hc & Hget)].
      * apply in_app_or in Hold. destruct Hold as [Hold | [<- | []]]; [now left|].
        right. exists city. split; [now left | now apply Hkeep].
      * right. exists c. split; [now right | exact Hget].
    + destruct (suggestGeoTargetConstants api config city) as [[resourceName|]|e];
        try (now apply Hskip).
      destruct (truthy_string resourceName); [|now apply Hskip].
      destruct (IH _ _ _ _ H) as (Hlen & Hkeep & Hfrom).
      rewrite length_app in Hlen.
      assert (Hnew : cache_get city ((city, resourceName) :: cache) = Some resourceName).
      { simpl. now rewrite String.eqb_refl. }
      repeat split; [simpl in *; lia | |].
      * intros c name Hget. apply Hkeep. simpl.
        destruct (String.eqb city c) eqn:Heq; [|exact Hget].
        apply String.eqb_eq in Heq. subst c. congruence.
      * intros name Hin. destruct (Hfrom name Hin) as [Hold | (c & Hc & Hget)].
        -- apply in_app_or in Hold. destruct Hold as [Hold | [<- | []]]; [now left|].
           right. exists city. split; [now left | now apply Hkeep].
        -- right. exists c. split; [now right | exact Hget].
Qed.

(** X22: resolving geo targets returns at most one target per city, in
    every case leaves the entries the cache already had as they were, and
    every target it returns is afterwards the cache entry of a requested
    city. *)
Theorem geo_target_cache_only_grows (api : GoogleAdsApi) (config : Config)
    (cities : list string) (cache : GeoTargetCache) :
  (List.length (fst (resolveGeoTargets api config cities cache)) <= List.length cities)%nat
  /\ (forall city name,
        cache_get city cache = Some name ->
        cache_get city (snd (resolveGeoTargets api config cities cache)) = Some name)
  /\ (forall name,
        In name (fst (resolveGeoTargets api config cities cache)) ->
        exists city,
          In city cities
          /\ cache_get city (snd (resolveGeoTargets api config cities cache)) = Some name).
Proof.
  unfold resolveGeoTargets.
  destruct (resolveGeoTargets_loop api config cities cache []) as [found cache'] eqn:Hloop.
  destruct (resolveGeoTargets_loop_inv _ _ _ _ _ _ _ Hloop) as (Hlen & Hkeep & Hfrom).
  cbn [fst snd]. repeat split; [simpl in Hlen; lia | exact Hkeep |].
  intros name Hin. destruct (Hfrom name Hin) as [[] | H]. exact H.
Qed.

End KeywordPlannerFacts.

(* ------------------------------------------------------------------ *)
(** ** The guidance computed for the synthesis prompt *)

Module GuidanceFacts.
Import Js Json Types Interfaces OpenAiLlm Coverage JsFacts.

Lemma positive_cpc (c : number) : negb (Qle_bool c 0) = true <-> 0 < c.
Proof.
  rewrite negb_true_iff. split.
  - intros H. apply Qnot_le_lt. intros Hle. apply Qle_bool_iff in Hle. congruence.
  - intros H. destruct (Qle_bool c 0) eqn:Hb; [|reflexivity].
    apply Qle_bool_iff in Hb. exfalso. exact (Qlt_not_le _ _ H Hb).
Qed.

Lemma fold_min_bounds (l : list number) :
  forall x,
    fold_left Math_min l x <= x
    /\ Forall (fun y => fold_left Math_min l x <= y) l
    /\ (0 < x -> Forall (fun y => 0 < y) l -> 0 < fold_left Math_min l x).
Proof.
  induction l as [|a l IH]; intros x; simpl.
  - repeat split; [apply Qle_refl | constructor | auto].
  - destruct (IH (Math_min x a)) as (H1 & H2 & H3). repeat split.
    + eapply Qle_trans; [exact H1 | apply Q.le_min_l].
    + constructor; [eapply Qle_trans; [exact H1 | apply Q.le_min_r] | exact H2].
    + intros Hx Hall. inversion Hall as [|? ? Ha Hl]; subst.
      apply H3; [|exact Hl]. unfold Math_min. now apply Q.min_glb_lt.
Qed.

Lemma fold_max_bounds (l : list number) :
  forall x,
    x <= fold_left Math_max l x
    /\ Forall (fun y => y <= fold_left Math_max l x) l.
Proof.
  induction l as [|a l IH]; intros x; simpl.
  - split; [apply Qle_refl | constructor].
  - destruct (IH (Math_max x a)) as (H1 & H2). split.
    + eapply Qle_trans; [apply Q.le_max_l | exact H1].
    + constructor; [eapply Qle_trans; [apply Q.le_max_r | exact H1] | exact H2].
Qed.

Lemma fold_plus_nonneg (l : list number) :
  forall x, 0 <= x -> Forall (fun y => 0 < y) l -> 0 <= fold_left Qplus l x.
Proof.
  induction l as [|a l IH]; intros x Hx Hall; simpl; [exact Hx|].
  inversion Hall as [|? ? Ha Hl]; subst. apply IH; [lra | exact Hl].
Qed.

(** X23: the guidance written into the synthesis prompt.  It reports
    keyword data exactly when some keyword has a positive cost per click;
    without keyword data every figure is null; with it, the minimum is
    positive, is at most the maximum, every positive cost per click lies
    between the two, and the lower daily-budget suggestion is at most the
    higher one. *)
Theorem guidance_summarises_positive_cpcs (input : LlmMarketAnalysisInput) :
  (hasKeywordData (guidance input) = true
   <-> exists k, In k (in_keywords input) /\ 0 < kd_avgCpc k)
  /\ (hasKeywordData (guidance input) = false ->
      avgCpc (guidance input) = None
      /\ minCpc (guidance input) = None
      /\ maxCpc (guidance input) = None
      /\ suggestedDailyLow (guidance input) = None
      /\ suggestedDailyHigh (guidance input) = None)
  /\ (forall lo hi,
        minCpc (guidance input) = Some lo ->
        maxCpc (guidance input) = Some hi ->
        0 < lo /\ lo <= hi
        /\ forall k, In k (in_keywords input) -> 0 < kd_avgCpc k ->
                     lo <= kd_avgCpc k /\ kd_avgCpc k <= hi)
  /\ (forall daily_low daily_high,
        suggestedDailyLow (guidance input) = Some daily_low ->
        suggestedDailyHigh (guidance input) = Some daily_high ->
        daily_low <= daily_high).
Proof.
  unfold guidance.
  cbn [hasKeywordData avgCpc minCpc maxCpc suggestedDailyLow suggestedDailyHigh].
  set (cpcValues := filter (fun c => negb (Qle_bool c 0))
                           (map kd_avgCpc (in_keywords input))).
  assert (Hmem : forall c, In c cpcValues
                           <-> In c (map kd_avgCpc (in_keywords input)) /\ 0 < c).
  { intros c. unfold cpcValues. rewrite filter_In, positive_cpc. reflexivity. }
  assert (Hpos : Forall (fun y => 0 < y) cpcValues).
  { apply Forall_forall. intros c Hc. now apply Hmem in Hc. }
  split; [|split; [|split]].
  - split.
    + intros Hlen. destruct cpcValues as [|c rest] eqn:Hvalues; [discriminate Hlen|].
      assert (Hc : In c (c :: rest)) by now left.
      apply Hmem in Hc. destruct Hc as [Hin Hc].
      apply in_map_iff in Hin. destruct Hin as (k & <- & Hk). now exists k.
    + intros (k & Hk & Hc).
      assert (Hin : In (kd_avgCpc k) cpcValues).
      { apply Hmem. split; [now apply in_map | exact Hc]. }
      destruct cpcValues; [destruct Hin | reflexivity].
  - intros Hnone. rewrite Hnone. repeat split.
  - intros lo hi Hlo Hhi.
    destruct cpcValues as [|x rest] eqn:Hvalues; [discriminate Hlo|].
    cbn [List.length Nat.ltb Nat.leb min_of max_of] in Hlo, Hhi.
    injection Hlo as <-. injection Hhi as <-.
    destruct (fold_min_bounds rest x) as (Hmin_x & Hmin_all & Hmin_pos).
    destruct (fold_max_bounds rest x) as (Hmax_x & Hmax_all).
    inversion Hpos as [|? ? Hx Hrest]; subst.
    split; [now apply Hmin_pos|].
    split; [eapply Qle_trans; [exact Hmin_x | exact Hmax_x]|].
    intros k Hk Hc.
    assert (Hin : In (kd_avgCpc k) (x :: rest)).
    { apply Hmem. split; [now apply in_map | exact Hc]. }
    rewrite Forall_forall in Hmin_all, Hmax_all.
    destruct Hin as [<- | Hin]; [split; assumption|].
    split; [now apply Hmin_all | now apply Hmax_all].
  - intros daily_low daily_high.
    destruct (0 <? List.length cpcValues)%nat; [|discriminate].
    match goal with
    | |- context [Qeq_bool ?a 0] =>
        set (average := a); destruct (Qeq_bool average 0); [discriminate|]
    end.
    intros [= <-] [= <-]. apply Math_round_mono.
    assert (Haverage : 0 <= average).
    { unfold average. apply Qle_shift_div_l; [reflexivity|].
      setoid_replace (0 * 100) with 0 by ring.
      apply Math_round_nonneg.
      apply Qmult_le_0_compat; [|discriminate].
      unfold Qdiv. apply Qmult_le_0_compat.
      - unfold sum. apply fold_plus_nonneg; [apply Qle_refl | exact Hpos].
      - apply Qinv_le_0_compat. change 0 with (inject_Z 0). rewrite <- Zle_Qle. lia. }
    nra.
Qed.

End GuidanceFacts.

(* ------------------------------------------------------------------ *)
(** ** The auth middleware *)

Module AuthFacts.
Import Js Json Types Runtime Db Usage Routes Auth PlanRoutes Coverage RuntimeFacts.
Local Open Scope js_scope.

Lemma truthy_string_false (s : string) : truthy_string s = false <-> s = EmptyString.
Proof. destruct s; simpl; split; intros H; congruence. Qed.

(** A request the middleware stops: no context is attached, and the
    checks of [accepted] cannot all hold. *)
Ltac stopped :=
  cbn -[slice]; split;
  [ intros H; discriminate H
  | intros [[H _] | [_ (k & h & u & acc & H1 & H2 & H3 & H4 & H5 & H6 & H7 & H8 & H9)]];
    [ discriminate H | try congruence ] ].

(** X24: the auth middleware always answers or calls next, and it lets a
    request through exactly in two cases: DEV_BYPASS_AUTH is "true", where
    every request passes unchecked as the development account; or the
    request carries the configured, non-empty API key and a bearer token
    of a user with an account claim, where the context attached is that
    account and that user.  With no API key configured, nothing passes
    outside the bypass mode. *)
Theorem auth_lets_through_exactly_when (growthApiKey : string) (env : Env)
    (getUser : string -> Promise (option User * option string))
    (headers : Headers) (w : World) (a : AuthContext) :
  (exists outcome,
     fst (createAuthMiddleware growthApiKey env getUser headers w) = Fulfilled outcome)
  /\ (fst (createAuthMiddleware growthApiKey env getUser headers w)
      = Fulfilled (auth_next a)
      <-> (env_is (DEV_BYPASS_AUTH env) "true" = true
           /\ a = mkAuthContext (or_text (DEV_ACCOUNT_ID env) "dev-account-id")
                                (or_text (DEV_USER_ID env) "dev-user-id"))
          \/ (env_is (DEV_BYPASS_AUTH env) "true" = false
              /\ accepted growthApiKey getUser headers a)).
Proof.
  unfold createAuthMiddleware, try_catch, accepted.
  destruct (env_is (DEV_BYPASS_AUTH env) "true").
  { cbn. split; [eexists; reflexivity|]. split.
    - intros [= <-]. left. split; reflexivity.
    - intros [[_ ->] | [H _]]; [reflexivity | discriminate H]. }
  destruct (x_api_key headers) as [apiKey|] eqn:Hkey;
    [|split; [eexists; reflexivity | stopped]].
  destruct (truthy_string apiKey) eqn:Htruthy;
    [|apply truthy_string_false in Htruthy; split; [eexists; reflexivity | stopped]].
  destruct (String.eqb apiKey growthApiKey) eqn:Heq;
    [|apply String.eqb_neq in Heq; split; [eexists; reflexivity | stopped]].
  apply String.eqb_eq in Heq. cbn [negb orb].
  destruct (authorization headers) as [authHeader|] eqn:Hauth;
    [|split; [eexists; reflexivity | stopped]].
  destruct (String.prefix "Bearer " authHeader) eqn:Hprefix;
    [|split; [eexists; reflexivity | stopped]].
  unfold bind, await.
  destruct (getUser (slice 7 authHeader)) as [[[user|] [err|]]|e] eqn:Huser;
    try (split; [eexists; reflexivity | stopped]).
  destruct (claimed_account user) as [account|] eqn:Hclaim;
    [|split; [eexists; reflexivity | stopped]].
  destruct (truthy_string account) eqn:Haccount;
    [|apply truthy_string_false in Haccount; split; [eexists; reflexivity | stopped]].
  split; [eexists; reflexivity|]. cbn -[slice]. split.
  - intros [= <-]. right. split; [reflexivity|].
    exists apiKey, authHeader, user, account.
    repeat split; try assumption; try reflexivity.
    + intros ->. discriminate Htruthy.
    + intros ->. discriminate Haccount.
  - intros [[H _] | [_ (k & h & u & acc & H1 & H2 & H3 & H4 & H5 & H6 & H7 & H8 & H9)]];
      [discriminate H|].
    injection H4 as <-. rewrite Huser in H6. injection H6 as <-.
    rewrite Hclaim in H7. injection H7 as <-. subst a. reflexivity.
Qed.

(** X25: what stands in front of POST /api/analyze.  In bypass mode the
    handler runs for every request, as the development account and
    without the quota being read.  Outside it, a request without the
    configured API key is answered 401 and nothing was logged or
    written. *)
Theorem api_analyze_gatekeeping (growthApiKey : string) (env : Env)
    (getUser : string -> Promise (option User * option string)) (month : Month)
    (deps : MarketAnalysisService.MarketAnalysisServiceDeps)
    (clock : MarketAnalysisService.Clock) (headers : Headers) (body : AnalyzeBody)
    (w : World) :
  (env_is (DEV_BYPASS_AUTH env) "true" = true ->
   api_analyze growthApiKey env getUser month deps clock headers body w
   = post_analyze deps clock
       (Some (mkAuthContext (or_text (DEV_ACCOUNT_ID env) "dev-account-id")
                            (or_text (DEV_USER_ID env) "dev-user-id")))
       body w)
  /\ (env_is (DEV_BYPASS_AUTH env) "true" = false ->
      (forall apiKey, x_api_key headers = Some apiKey ->
                      apiKey = EmptyString \/ apiKey <> growthApiKey) ->
      api_analyze growthApiKey env getUser month deps clock headers body w
      = (Fulfilled (res_json 401 (JObject [("error", JString "Invalid or missing API key")])),
         w)).
Proof.
  unfold api_analyze, api, createAuthMiddleware, gated, createUsageMiddleware, try_catch.
  split.
  - intros Hbypass. rewrite Hbypass. unfold bind at 1. unfold ret at 1.
    unfold bind at 1. unfold ret at 1. reflexivity.
  - intros Hbypass Hkey. rewrite Hbypass. unfold bind at 1.
    destruct (x_api_key headers) as [apiKey|]; [|reflexivity].
    destruct (Hkey apiKey eq_refl) as [-> | Hneq]; [reflexivity|].
    apply String.eqb_neq in Hneq. rewrite Hneq.
    destruct (truthy_string apiKey); reflexivity.
Qed.

Lemma api_analyze_gatekeeping_witness :
  api_analyze "secret" MoreScenarios.env_production MoreScenarios.getUser_alice
    Scenarios.month Scenarios.deps_A Scenarios.clock MoreScenarios.headers_wrong_key
    MoreScenarios.body_A
    (Scenarios.world Scenarios.empty_database Scenarios.no_faults)
  = (Fulfilled (res_json 401 (JObject [("error", JString "Invalid or missing API key")])),
     Scenarios.world Scenarios.empty_database Scenarios.no_faults).
Proof.
  apply (proj2 (api_analyze_gatekeeping "secret" MoreScenarios.env_production
                  MoreScenarios.getUser_alice Scenarios.month Scenarios.deps_A
                  Scenarios.clock MoreScenarios.headers_wrong_key MoreScenarios.body_A
                  (Scenarios.world Scenarios.empty_database Scenarios.no_faults))).
  - reflexivity.
  - intros apiKey [= <-]. right. discriminate.
Defined.

End AuthFacts.

(* ------------------------------------------------------------------ *)
(** ** The plan routes *)

Module PlanRouteFacts.
Import Js Json Types Runtime Db Usage Interfaces PlanGenerationService Routes PlanRoutes
       Spec Coverage RuntimeFacts PlanFacts PlanBookkeepingFacts.
Local Open Scope js_scope.

(** A run of [generatePlan] that returns: the plan is the assembled one
    with the identifier of the save, and the database holds what the two
    writes left. *)
Lemma generatePlan_fulfilled (llm : LlmProvider) (clock : MarketAnalysisService.Clock)
    (request : PlanGenerationRequest) (accountId userId : string) (w w' : World)
    (plan : CampaignPlan) :
  generatePlan llm clock request accountId userId w = (Fulfilled plan, w') ->
  exists db planned summary,
    supabase w = Some db
    /\ plan = plan_with_id (assembled_plan request planned summary clock) (saved_plan_id w)
    /\ supabase w'
       = Some (stored_plan w db request accountId userId
                 (assembled_plan request planned summary clock) clock)
    /\ fault w' = fault w.
Proof.
  unfold generatePlan. unfold bind at 1.
  destruct (select_analysis_single (pr_analysisId request) accountId w)
    as [loaded w1] eqn:Hsel.
  destruct (select_only_logs _ _ _ _ _ Hsel) as [events ->].
  destruct loaded as [[[row|] [err|]]|e0]; try discriminate.
  destruct (select_found _ _ _ _ _ Hsel) as (db & Hdb & _).
  unfold bind at 1. rewrite await_run_eq.
  destruct (build_input (ma_result_data row) request) as [llmInput|e1]; [|discriminate].
  unfold bind at 1. rewrite await_run_eq.
  destruct (generateCampaignPlan llm llmInput) as [llmOutput|e1]; [|discriminate].
  unfold bind at 1. rewrite await_run_eq.
  destruct (campaigns_of llmOutput) as [planned|e1]; [|discriminate].
  unfold bind at 1. rewrite await_run_eq.
  destruct (get llmOutput "summary") as [summary|e1]; [|discriminate].
  unfold saveCampaignPlan, logUsageEvent, stored_plan, saved_plan_id, assembled_plan.
  unfold bind, getDb, get_fault, emit, fresh_uuid, get_db_now, set_database, ret.
  destruct db as [ledger analyses plans].
  run_plan_store Hdb.
  destruct (fault w "growth_campaign_plans" "insert");
    run_plan_store Hdb;
    destruct (fault w "growth_usage_log" "insert");
    run_plan_store Hdb;
    intros [= <- <-];
    eexists; exists planned, summary;
    (split; [reflexivity|]); (split; [reflexivity|]);
    (split; [cbn [supabase logged]; try rewrite Hdb; reflexivity | reflexivity]).
Qed.

(** X26: POST /api/plan always answers, with status 200, 400 or 500.  It
    answers 400 exactly when the request is authenticated and the body
    lacks the analysis id, a selected service, a selected city, or a daily
    budget or hard cap other than zero; then nothing was logged or
    written. *)
Theorem post_plan_answers (llm : LlmProvider) (clock : MarketAnalysisService.Clock)
    (auth : option AuthContext) (body : PlanBody) (w : World) :
  exists status b,
    fst (post_plan_body llm clock auth body w) = Fulfilled (res_json status b)
    /\ (status = 200 \/ status = 400 \/ status = 500)%Z
    /\ (status = 400%Z <-> auth <> None /\ plan_fields_missing body)
    /\ (status = 400%Z -> snd (post_plan_body llm clock auth body w) = w).
Proof.
  unfold post_plan_body, try_catch, plan_fields_missing.
  destruct auth as [a|].
  - unfold bind at 1. unfold auth_of, ret at 1.
    destruct (truthy_text (body_analysisId body)); cbn [negb orb];
      [|eexists; eexists; split; [reflexivity|];
        split; [right; left; reflexivity|]; split; [|reflexivity];
        split; [intros _; split; [discriminate | now left] | reflexivity]].
    destruct (has_length (body_selectedServices body)); cbn [negb orb];
      [|eexists; eexists; split; [reflexivity|];
        split; [right; left; reflexivity|]; split; [|reflexivity];
        split; [intros _; split; [discriminate | right; now left] | reflexivity]].
    destruct (has_length (body_selectedCities body)); cbn [negb orb];
      [|eexists; eexists; split; [reflexivity|];
        split; [right; left; reflexivity|]; split; [|reflexivity];
        split; [intros _; split; [discriminate | right; right; now left] | reflexivity]].
    destruct (truthy_number (body_dailyBudget body)); cbn [negb orb];
      [|eexists; eexists; split; [reflexivity|];
        split; [right; left; reflexivity|]; split; [|reflexivity];
        split; [intros _; split; [discriminate | right; right; right; now left]
               | reflexivity]].
    destruct (truthy_number (body_hardCap body)); cbn [negb orb];
      [|eexists; eexists; split; [reflexivity|];
        split; [right; left; reflexivity|]; split; [|reflexivity];
        split; [intros _; split; [discriminate | right; right; right; now right]
               | reflexivity]].
    unfold bind at 1.
    destruct (generatePlan llm clock (request_of body) (accountId a) (userId a) w)
      as [[plan|e] w1].
    + eexists; eexists; split; [reflexivity|].
      split; [left; reflexivity|]. split; [|discriminate].
      split; [discriminate|]. intros [_ [H|[H|[H|[H|H]]]]]; discriminate H.
    + eexists; eexists; split; [reflexivity|].
      split; [right; right; reflexivity|]. split; [|discriminate].
      split; [discriminate|]. intros [_ [H|[H|[H|[H|H]]]]]; discriminate H.
  - eexists; eexists; split; [reflexivity|].
    split; [right; right; reflexivity|]. split; [|discriminate].
    split; [discriminate|]. intros [H _]. now contradiction H.
Qed.

Lemma select_own_plan (w : World) (db : Database) (row : PlanRow) (account : string) :
  supabase w = Some db ->
  fault w "growth_campaign_plans" "select" = None ->
  filter (fun r => String.eqb (cp_id r) (cp_id row) && String.eqb (cp_account_id r) account)
         (growth_campaign_plans db)
  = (if String.eqb (cp_account_id row) account then [row] else []) ->
  select_plan_single (cp_id row) account w
  = (Fulfilled (if String.eqb (cp_account_id row) account
                then (Some row, None)
                else (None, Some "JSON object requested, multiple (or no) rows returned")),
     logged w [db_query "growth_campaign_plans" "select" account
                 (if String.eqb (cp_account_id row) account then None
                  else Some "JSON object requested, multiple (or no) rows returned")]).
Proof.
  intros Hdb Hfault Hfilter.
  unfold select_plan_single, bind, getDb, get_fault, emit, ret.
  rewrite Hdb, Hfault, Hfilter.
  destruct (String.eqb (cp_account_id row) account); reflexivity.
Qed.

(** X28: a plan that is returned has consumed one unit of the caller's
    monthly quota, the same quota the analyses are counted against, and
    none of any other account's: when the ledger accepts the write, the
    caller's count for a period that has begun is one more than before. *)
Theorem returned_plan_consumes_one_unit (llm : LlmProvider)
    (clock : MarketAnalysisService.Clock) (request : PlanGenerationRequest)
    (accountId userId : string) (w w' : World) (plan : CampaignPlan) (month : Month) :
  generatePlan llm clock request accountId userId w = (Fulfilled plan, w') ->
  fault w "growth_usage_log" "insert" = None ->
  (startOfMonth month <= db_now w)%Z ->
  exists db db',
    supabase w = Some db
    /\ supabase w' = Some db'
    /\ count_usage db' accountId (startOfMonth month)
       = (count_usage db accountId (startOfMonth month) + 1)%Z
    /\ forall other,
         other <> accountId ->
         count_usage db' other (startOfMonth month)
         = count_usage db other (startOfMonth month).
Proof.
  intros Hrun Hfault Hnow.
  destruct (generatePlan_fulfilled _ _ _ _ _ _ _ _ Hrun)
    as (db & planned & summary & Hdb & _ & Hstored & _).
  exists db. eexists. split; [exact Hdb|]. split; [exact Hstored|].
  unfold count_usage, stored_plan. cbn [growth_usage_log]. rewrite Hfault.
  split.
  - rewrite filter_app, length_app. cbn [filter ul_account_id ul_created_at].
    rewrite String.eqb_refl.
    apply Z.leb_le in Hnow. rewrite Hnow. cbn [andb List.length]. lia.
  - intros other Hother.
    rewrite filter_app, length_app. cbn [filter ul_account_id ul_created_at].
    assert (Hneq : String.eqb accountId other = false).
    { apply String.eqb_neq. congruence. }
    rewrite Hneq. cbn [andb List.length]. lia.
Qed.

Lemma returned_plan_consumes_one_unit_witness :
  exists db db',
    supabase (Scenarios.world Scenarios.database_with_analysis Scenarios.no_faults)
    = Some db
    /\ supabase (snd Scenarios.plan_run) = Some db'
    /\ count_usage db' "account-a" (startOfMonth Scenarios.month)
       = (count_usage db "account-a" (startOfMonth Scenarios.month) + 1)%Z
    /\ forall other,
         other <> "account-a" ->
         count_usage db' other (startOfMonth Scenarios.month)
         = count_usage db other (startOfMonth Scenarios.month).
Proof.
  apply (returned_plan_consumes_one_unit Scenarios.plan_llm Scenarios.clock
           Scenarios.plan_request "account-a" "user-a"
           (Scenarios.world Scenarios.database_with_analysis Scenarios.no_faults)
           (snd Scenarios.plan_run) Scenarios.plan_generated Scenarios.month).
  - vm_compute. reflexivity.
  - reflexivity.
  - vm_compute. discriminate.
Defined.

End PlanRouteFacts.

(* ------------------------------------------------------------------ *)
(** ** Sorting and the competitor search *)

Module PlacesFacts.
Import Js Json Types JsArray GooglePlaces Coverage.

Lemma in_firstn {A : Type} (n : nat) (l : list A) (x : A) :
  In x (firstn n l) -> In x l.
Proof.
  revert l. induction n as [|n IH]; intros l H; [destruct H|].
  destruct l as [|y rest]; [destruct H|].
  destruct H as [<- | H]; [now left | right; now apply IH].
Qed.

Section Sorting.
Context {A : Type} (key : A -> number).

Lemma insert_desc_perm (x : A) (l : list A) :
  Permutation (insert_desc key x l) (x :: l).
Proof.
  induction l as [|y rest IH]; simpl; [reflexivity|].
  destruct (Qle_bool (key y) (key x)); [reflexivity|].
  rewrite IH. apply perm_swap.
Qed.

Lemma sort_desc_perm (l : list A) : Permutation (sort_desc key l) l.
Proof.
  induction l as [|x rest IH]; simpl; [reflexivity|].
  rewrite insert_desc_perm. now constructor.
Qed.

Lemma insert_desc_sorted (x : A) (l : list A) :
  StronglySorted (descending key) l -> StronglySorted (descending key) (insert_desc key x l).
Proof.
  induction l as [|y rest IH]; intros Hsorted; simpl.
  - constructor; constructor.
  - inversion Hsorted as [|? ? Hrest Hall]; subst.
    destruct (Qle_bool (key y) (key x)) eqn:Hle.
    + apply Qle_bool_iff in Hle. constructor; [exact Hsorted|].
      constructor; [exact Hle|].
      rewrite Forall_forall in Hall. apply Forall_forall. intros z Hz.
      unfold descending in *. eapply Qle_trans; [apply (Hall z Hz) | exact Hle].
    + constructor; [now apply IH|].
      apply Forall_forall. intros z Hz.
      apply (Permutation_in _ (insert_desc_perm x rest)) in Hz.
      destruct Hz as [<- | Hz].
      * unfold descending. apply Qlt_le_weak. apply Qnot_le_lt. intros H.
        apply Qle_bool_iff in H. congruence.
      * rewrite Forall_forall in Hall. now apply Hall.
Qed.

Lemma sort_desc_sorted (l : list A) : StronglySorted (descending key) (sort_desc key l).
Proof.
  induction l as [|x rest IH]; simpl; [constructor|].
  now apply insert_desc_sorted.
Qed.

Lemma sorted_firstn (n : nat) (l : list A) :
  StronglySorted (descending key) l -> StronglySorted (descending key) (firstn n l).
Proof.
  revert l. induction n as [|n IH]; intros l Hsorted; [constructor|].
  destruct l as [|x rest]; [constructor|].
  inversion Hsorted as [|? ? Hrest Hall]; subst. simpl.
  constructor; [now apply IH|].
  rewrite Forall_forall in Hall. apply Forall_forall. intros z Hz.
  apply Hall. eapply in_firstn. exact Hz.
Qed.

Lemma sorted_split (l1 l2 : list A) :
  StronglySorted (descending key) (l1 ++ l2) ->
  forall a b, In a l1 -> In b l2 -> descending key a b.
Proof.
  induction l1 as [|x rest IH]; intros Hsorted a b Ha Hb; [destruct Ha|].
  simpl in Hsorted. inversion Hsorted as [|? ? Hrest Hall]; subst.
  destruct Ha as [<- | Ha].
  - rewrite Forall_forall in Hall. apply Hall. apply in_or_app. now right.
  - now apply IH.
Qed.

(** The first [n] of the sorted elements are the [n] with the greatest
    keys. *)
Lemma sort_desc_top (n : nat) (l : list A) (x : A) :
  In x l ->
  In x (firstn n (sort_desc key l))
  \/ forall y, In y (firstn n (sort_desc key l)) -> key x <= key y.
Proof.
  intros Hin.
  apply (Permutation_in _ (Permutation_sym (sort_desc_perm l))) in Hin.
  rewrite <- (firstn_skipn n (sort_desc key l)) in Hin.
  apply in_app_or in Hin. destruct Hin as [Hin | Hin]; [now left|].
  right. intros y Hy.
  pose proof (sort_desc_sorted l) as Hsorted.
  rewrite <- (firstn_skipn n (sort_desc key l)) in Hsorted.
  exact (sorted_split _ _ Hsorted y x Hy Hin).
Qed.

End Sorting.

(** What [nearbySearch] makes of a response. *)
Lemma nearbySearch_of_response (api : PlacesApi) (lat lng radiusMeters : number)
    (found : list PlacesCompetitor) :
  nearbySearch api lat lng radiusMeters = Fulfilled found ->
  found = []
  \/ exists status places,
       nearby api lat lng (Math_min radiusMeters MAX_RADIUS_METERS)
       = Fulfilled (status, Some places)
       /\ found = firstn MAX_COMPETITORS (sort_desc reviews (map competitor_of places)).
Proof.
  unfold nearbySearch.
  destruct (nearby api lat lng (Math_min radiusMeters MAX_RADIUS_METERS))
    as [[status [places|]]|e]; [| |discriminate].
  - destruct (negb (String.eqb status "OK") && negb (String.eqb status "ZERO_RESULTS")).
    + intros [= <-]. now left.
    + intros [= <-]. right. exists status, places. split; reflexivity.
  - destruct (negb (String.eqb status "OK") && negb (String.eqb status "ZERO_RESULTS"));
      intros [= <-]; now left.
Qed.

(** X29: the competitor search never rejects and returns at most twenty
    competitors, the most reviewed first (a missing review count counts
    as zero).  They are the most reviewed places of one Nearby Search
    response, asked for a radius of at most 50 km: every other place of
    that response has no more reviews than any competitor returned.
    Without a Places key nothing is returned. *)
Theorem competitors_are_the_most_reviewed (config : Configuration.Config)
    (api : PlacesApi) (zipCode : string) (radiusMiles : option number) :
  exists found,
    getCompetitors config api zipCode radiusMiles = Fulfilled found
    /\ (List.length found <= 20)%nat
    /\ StronglySorted (fun a b => reviews b <= reviews a) found
    /\ (Configuration.googlePlacesApiKey config = "" -> found = [])
    /\ (found = []
        \/ exists lat lng radiusMeters status places,
             radiusMeters <= 50000
             /\ nearby api lat lng radiusMeters = Fulfilled (status, Some places)
             /\ (forall c, In c found -> In c (map competitor_of places))
             /\ (forall place,
                   In place places ->
                   In (competitor_of place) found
                   \/ forall c, In c found -> reviews (competitor_of place) <= reviews c)).
Proof.
  assert (Hnothing : forall P Q : Prop,
            (0 <= 20)%nat
            /\ StronglySorted (fun a b => reviews b <= reviews a) []
            /\ (P -> @nil PlacesCompetitor = [])
            /\ (@nil PlacesCompetitor = [] \/ Q)).
  { intros P Q. split; [lia|]. split; [apply SSorted_nil|].
    split; [reflexivity | now left]. }
  unfold getCompetitors, CompetitorProviders.GooglePlacesCompetitorProvider.
  cbn [Interfaces.getCompetitors].
  destruct (Configuration.googlePlacesApiKey config) as [|c key] eqn:Hkey.
  { exists []. split; [reflexivity | apply Hnothing]. }
  cbn [truthy_string negb]. cbv zeta.
  match goal with
  | |- context [search api zipCode ?r] => set (radiusMeters := r)
  end.
  unfold search.
  destruct (geocodeZip api zipCode) as [[[lat lng]|]|e];
    [|exists []; split; [reflexivity | apply Hnothing] ..].
  destruct (nearbySearch api lat lng radiusMeters) as [found|e] eqn:Hsearch;
    [|exists []; split; [reflexivity | apply Hnothing]].
  exists found. cbn [catch_value]. split; [reflexivity|].
  destruct (nearbySearch_of_response _ _ _ _ _ Hsearch)
    as [-> | (status & places & Hnearby & ->)]; [apply Hnothing|].
  split; [apply firstn_le_length|].
  split; [apply sorted_firstn; apply sort_desc_sorted|].
  split; [discriminate|].
  right. exists lat, lng, (Math_min radiusMeters MAX_RADIUS_METERS), status, places.
  split; [apply Q.le_min_r|]. split; [exact Hnearby|]. split.
  - intros c0 Hin. apply in_firstn in Hin.
    exact (Permutation_in _ (sort_desc_perm reviews _) Hin).
  - intros place Hplace. apply sort_desc_top. now apply in_map.
Qed.

End PlacesFacts.

(* ------------------------------------------------------------------ *)
(** ** The CRM snapshot *)

Module CrmFacts.
Import Js Json Types Runtime Db JsArray Crm Coverage JsFacts RuntimeFacts PlacesFacts.
Local Open Scope js_scope.

Lemma unique_from_spec (l : list string) :
  forall seen,
    NoDup (unique_from seen l)
    /\ forall x, In x (unique_from seen l) -> ~ In x seen.
Proof.
  induction l as [|x rest IH]; intros seen; simpl.
  - split; [constructor | intros x []].
  - destruct (existsb (String.eqb x) seen) eqn:Hseen; [apply IH|].
    destruct (IH (x :: seen)) as [Hnodup Hfresh]. split.
    + constructor; [|exact Hnodup].
      intros Hin. apply (Hfresh x Hin). now left.
    + intros y [<- | Hy].
      * intros Hin.
        assert (Hex : existsb (String.eqb x) seen = true).
        { apply existsb_exists. exists x. split; [exact Hin | apply String.eqb_refl]. }
        congruence.
      * intros Hin. apply (Hfresh y Hy). now right.
Qed.

Lemma serviceTypes_NoDup (q : QuoteRow) : NoDup (serviceTypes q).
Proof.
  unfold serviceTypes, unique.
  match goal with
  | |- context [unique_from [] ?l] =>
      pose proof (proj1 (unique_from_spec l [])) as Hnodup;
      destruct (unique_from [] l)
  end.
  - constructor; [intros [] | constructor].
  - exact Hnodup.
Qed.

Lemma upsert_Forall {V : Type} (P Q : string * V -> Prop) (key : string)
    (update : option V -> V) (m : list (string * V)) :
  Forall P m ->
  (forall e, P e -> Q e) ->
  (forall v, P (key, v) -> Q (key, update (Some v))) ->
  Q (key, update None) ->
  Forall Q (upsert key update m).
Proof.
  intros Hall Hweak Hupdate Hnew. induction Hall as [|[k v] rest Hhead Hrest IH]; simpl.
  - constructor; [exact Hnew | constructor].
  - destruct (String.eqb k key) eqn:Heq.
    + apply String.eqb_eq in Heq. subst k.
      constructor; [now apply Hupdate|].
      eapply Forall_impl; [exact Hweak | exact Hrest].
    + constructor; [now apply Hweak | exact IH].
Qed.

Lemma upsert_not_nil {V : Type} (key : string) (update : option V -> V)
    (m : list (string * V)) : upsert key update m <> [].
Proof. destruct m as [|[k v] rest]; simpl; [|destruct (String.eqb k key)]; discriminate. Qed.

Lemma count_quote_good (n : Z) (m : list (string * Tally)) (q : QuoteRow) :
  (0 <= n)%Z ->
  Forall (fun e => good_tally n (snd e)) m ->
  Forall (fun e => good_tally (n + 1) (snd e)) (count_quote m q).
Proof.
  intros Hn Hall. unfold count_quote.
  pose proof (serviceTypes_NoDup q) as Hnodup.
  set (inv (done : list string) (e : string * Tally) :=
         good_tally (n + 1) (snd e) /\ (~ In (fst e) done -> good_tally n (snd e))).
  assert (Hstart : Forall (inv []) m).
  { eapply Forall_impl; [|exact Hall]. intros e He. split; [|auto].
    destruct He as [[H1 H2] H3]. split; [lia | exact H3]. }
  assert (Hloop : forall types done m0,
            NoDup types -> (forall x, In x types -> ~ In x done) ->
            Forall (inv done) m0 ->
            forall len : nat,
            Forall (fun e => good_tally (n + 1) (snd e))
              (fold_left
                 (fun m1 svc =>
                    upsert svc
                      (fun found =>
                         let entry := match found with
                                      | Some e => e
                                      | None => mkTally 0 0 0
                                      end in
                         if isWon q
                         then mkTally (t_quotes entry + 1) (t_won entry + 1)
                                (t_totalRevenue entry
                                 + revenue q / inject_Z (Z.of_nat len))
                         else mkTally (t_quotes entry + 1) (t_won entry)
                                (t_totalRevenue entry))
                      m1)
                 types m0)).
  { induction types as [|svc rest IH]; intros done m0 Hnd Hfresh Hinv len; simpl.
    - eapply Forall_impl; [|exact Hinv]. intros e [He _]. exact He.
    - inversion Hnd as [|? ? Hnotin Hnd']; subst.
      apply (IH (svc :: done)).
      + exact Hnd'.
      + intros x Hx [<- | Hdone]; [contradiction|].
        apply (Hfresh x); [now right | exact Hdone].
      + apply (upsert_Forall (inv done)).
        * exact Hinv.
        * intros e [He1 He2]. split; [exact He1|].
          intros Hnot. apply He2. intros Hd. apply Hnot. now right.
        * intros v [Hv1 Hv2]. cbn [fst snd] in *.
          assert (Hv : good_tally n v).
          { apply Hv2. apply Hfresh. now left. }
          destruct Hv as [[H1 H2] [H3 H4]].
          split; [|intros Hnot; exfalso; apply Hnot; now left].
          unfold good_tally. destruct (isWon q); simpl; lia.
        * cbn [fst snd].
          split; [|intros Hnot; exfalso; apply Hnot; now left].
          unfold good_tally. destruct (isWon q); simpl; lia. }
  apply (Hloop (serviceTypes q) [] m Hnodup); [intros x _ [] | exact Hstart].
Qed.

Lemma serviceMap_good (rows : list QuoteRow) :
  Forall (fun e => good_tally (Z.of_nat (List.length rows)) (snd e)) (serviceMap rows).
Proof.
  unfold serviceMap.
  assert (Hgen : forall rest m n,
            (0 <= n)%Z ->
            Forall (fun e => good_tally n (snd e)) m ->
            Forall (fun e => good_tally (n + Z.of_nat (List.length rest)) (snd e))
                   (fold_left count_quote rest m)).
  { induction rest as [|q rest IH]; intros m n Hn Hall; simpl fold_left.
    - simpl. now rewrite Z.add_0_r.
    - replace (n + Z.of_nat (List.length (q :: rest)))%Z
        with ((n + 1) + Z.of_nat (List.length rest))%Z by (simpl List.length; lia).
      apply IH; [lia|]. now apply count_quote_good. }
  apply (Hgen rows [] 0%Z); [lia | constructor].
Qed.

Lemma fold_upsert_not_nil {V : Type} (update : string -> option V -> V)
    (keys : list string) :
  forall m, m <> [] -> fold_left (fun m0 key => upsert key (update key) m0) keys m <> [].
Proof.
  induction keys as [|key rest IH]; intros m Hm; simpl; [exact Hm|].
  apply IH. apply upsert_not_nil.
Qed.

Lemma count_quote_not_nil (m : list (string * Tally)) (q : QuoteRow) :
  count_quote m q <> [].
Proof.
  unfold count_quote. cbv zeta.
  assert (Htypes : serviceTypes q <> []).
  { unfold serviceTypes. destruct (unique _); discriminate. }
  generalize (List.length (serviceTypes q)). intros len.
  destruct (serviceTypes q) as [|svc rest]; [contradiction|].
  cbn [fold_left].
  apply (fold_upsert_not_nil
           (fun _ found =>
              if isWon q
              then mkTally (t_quotes match found with
                                     | Some e => e
                                     | None => mkTally 0 0 0
                                     end + 1)
                           (t_won match found with
                                  | Some e => e
                                  | None => mkTally 0 0 0
                                  end + 1)
                           (t_totalRevenue match found with
                                           | Some e => e
                                           | None => mkTally 0 0 0
                                           end
                            + revenue q / inject_Z (Z.of_nat len))
              else mkTally (t_quotes match found with
                                     | Some e => e
                                     | None => mkTally 0 0 0
                                     end + 1)
                           (t_won match found with
                                  | Some e => e
                                  | None => mkTally 0 0 0
                                  end)
                           (t_totalRevenue match found with
                                           | Some e => e
                                           | None => mkTally 0 0 0
                                           end))).
  apply upsert_not_nil.
Qed.

Lemma serviceMap_not_nil (rows : list QuoteRow) : rows <> [] -> serviceMap rows <> [].
Proof.
  unfold serviceMap. intros Hrows.
  assert (Hgen : forall rest m, m <> [] -> fold_left count_quote rest m <> []).
  { induction rest as [|q rest IH]; intros m Hm; simpl; [exact Hm|].
    apply IH. apply count_quote_not_nil. }
  destruct rows as [|q rest]; [contradiction|]. simpl.
  apply Hgen. apply count_quote_not_nil.
Qed.

Lemma breakdown_of_sane (total : Z) (entry : string * Tally) :
  good_tally total (snd entry) -> sane_breakdown (inject_Z total) (breakdown_of entry).
Proof.
  destruct entry as [service [quotes won money]]. cbn [snd].
  intros [[H1 H2] [H3 H4]]. cbn [t_quotes t_won] in *.
  unfold sane_breakdown, breakdown_of.
  cbn [sb_quoteCount sb_winRate t_quotes t_won t_totalRevenue].
  assert (Hpos : (0 <? quotes)%Z = true) by (apply Z.ltb_lt; lia).
  rewrite Hpos.
  assert (Hq : 0 < inject_Z quotes).
  { change 0 with (inject_Z 0). rewrite <- Zlt_Qlt. lia. }
  assert (Hw0 : 0 <= inject_Z won).
  { change 0 with (inject_Z 0). rewrite <- Zle_Qle. lia. }
  assert (Hwq : inject_Z won <= inject_Z quotes) by (rewrite <- Zle_Qle; lia).
  set (x := inject_Z won / inject_Z quotes * 100).
  assert (Hx0 : 0 <= x).
  { unfold x. apply Qmult_le_0_compat; [|discriminate].
    apply Qle_shift_div_l; [exact Hq | lra]. }
  assert (Hx100 : x <= 100).
  { unfold x.
    assert (Hfrac : inject_Z won / inject_Z quotes <= 1).
    { apply Qle_shift_div_r; [exact Hq | lra]. }
    lra. }
  split; [change 1 with (inject_Z 1); rewrite <- Zle_Qle; lia|].
  split; [rewrite <- Zle_Qle; lia|].
  split.
  - apply Qle_shift_div_l; [reflexivity|].
    pose proof (Math_round_nonneg x Hx0). lra.
  - apply Qle_shift_div_r; [reflexivity|].
    pose proof (Math_round_mono x 100 Hx100) as Hmono.
    change (Math_round 100) with (Math_round (inject_Z 100)) in Hmono.
    rewrite Math_round_int in Hmono.
    change (inject_Z 100) with 100 in Hmono. lra.
Qed.

(** X30: the CRM snapshot.  [getCrmSnapshot] reads only, and answers
    [null] exactly when the quotes read fails or returns no quote.  A
    snapshot it returns counts every quote read; its won quotes are at
    most its quotes; its service breakdown is not empty and is in
    descending order of revenue, each entry counting between one and all
    of the quotes with a win rate between 0 and 1; and it names at most
    ten cities, the most quoted first. *)
Theorem crm_snapshot_is_consistent (tables : CrmTables) (lookbackDate : Z)
    (accountId : string) (w : World) (db : Database) :
  supabase w = Some db ->
  exists result,
    fst (getCrmSnapshot tables lookbackDate accountId w) = Fulfilled result
    /\ supabase (snd (getCrmSnapshot tables lookbackDate accountId w)) = Some db
    /\ (result = None
        <-> snd (quotes tables accountId lookbackDate) <> None
            \/ fst (quotes tables accountId lookbackDate) = None
            \/ fst (quotes tables accountId lookbackDate) = Some [])
    /\ forall s,
         result = Some s ->
         exists rows,
           fst (quotes tables accountId lookbackDate) = Some rows
           /\ crm_totalQuotes s = inject_Z (Z.of_nat (List.length rows))
           /\ 0 <= crm_wonQuotes s /\ crm_wonQuotes s <= crm_totalQuotes s
           /\ crm_serviceBreakdown s <> []
           /\ Forall (sane_breakdown (crm_totalQuotes s)) (crm_serviceBreakdown s)
           /\ StronglySorted (fun a b => sb_totalRevenue b <= sb_totalRevenue a)
                             (crm_serviceBreakdown s)
           /\ (List.length (crm_topCities s) <= 10)%nat
           /\ StronglySorted (fun a b => cc_quoteCount b <= cc_quoteCount a)
                             (crm_topCities s).
Proof.
  intros Hdb. unfold getCrmSnapshot, bind, getDb. rewrite Hdb.
  destruct (quotes tables accountId lookbackDate) as [[[|q rest]|] [message|]];
    cbn [fst snd emit ret supabase logged].
  1-3, 5-6: (exists None; split; [reflexivity|]; split; [exact Hdb|]; split;
             [split; [intros _; first [left; discriminate | right; left; reflexivity
                                       | right; right; reflexivity]
                     | reflexivity]
             | intros s Hs; discriminate Hs]).
  exists (Some (snapshot tables (q :: rest))).
  split; [reflexivity|]. split; [exact Hdb|]. split.
  { split; [discriminate|]. intros [H | [H | H]]; [now contradiction H | discriminate..]. }
  intros s [= <-]. exists (q :: rest). split; [reflexivity|].
  set (rows := q :: rest).
  unfold snapshot.
  cbn [crm_totalQuotes crm_wonQuotes crm_serviceBreakdown crm_topCities].
  split; [reflexivity|].
  split; [change 0 with (inject_Z 0); rewrite <- Zle_Qle; lia|].
  split; [rewrite <- Zle_Qle; pose proof (filter_length_le isWon rows); lia|].
  split.
  { unfold serviceBreakdown. intros Hnil.
    pose proof (sort_desc_perm sb_totalRevenue (map breakdown_of (serviceMap rows))) as Hperm.
    rewrite Hnil in Hperm. apply Permutation_nil in Hperm.
    apply map_eq_nil in Hperm.
    revert Hperm. apply serviceMap_not_nil. discriminate. }
  split.
  { unfold serviceBreakdown.
    eapply Permutation_Forall;
      [apply Permutation_sym; apply sort_desc_perm|].
    apply Forall_map. eapply Forall_impl; [|apply serviceMap_good].
    intros entry Hgood. now apply breakdown_of_sane. }
  split; [apply sort_desc_sorted|].
  split; [apply firstn_le_length|].
  apply sorted_firstn. apply sort_desc_sorted.
Qed.

(** Three quotes, two of them won; the first is counted under both of
    its services. *)
Lemma crm_snapshot_is_consistent_witness :
  exists result,
    fst (getCrmSnapshot MoreScenarios.crm_tables 1668464000000 "account-a"
           (Scenarios.world Scenarios.empty_database Scenarios.no_faults))
    = Fulfilled result
    /\ supabase (snd (getCrmSnapshot MoreScenarios.crm_tables 1668464000000 "account-a"
                        (Scenarios.world Scenarios.empty_database Scenarios.no_faults)))
       = Some Scenarios.empty_database
    /\ exists s,
         result = Some s
         /\ crm_totalQuotes s == 3
         /\ crm_wonQuotes s == 2
         /\ map sb_service (crm_serviceBreakdown s) = ["interior"; "exterior"; "Unknown"]
         /\ map cc_city (crm_topCities s) = ["San Diego, CA"].
Proof.
  destruct (crm_snapshot_is_consistent MoreScenarios.crm_tables 1668464000000 "account-a"
              (Scenarios.world Scenarios.empty_database Scenarios.no_faults)
              Scenarios.empty_database eq_refl) as (result & Hrun & Hdb & _).
  exists result. split; [exact Hrun|]. split; [exact Hdb|].
  vm_compute in Hrun. injection Hrun as <-.
  eexists. split; [reflexivity|]. repeat split.
Defined.

End CrmFacts.

(* ------------------------------------------------------------------ *)
(** ** Reading back through the mounted routes *)

Module GatedRouteFacts.
Import Js Json Types Runtime Db Usage Interfaces PlanGenerationService Routes Auth
       PlanRoutes Spec Coverage RuntimeFacts QuotaGateFacts PlanFacts PersistenceFacts
       PlanBookkeepingFacts PlanRouteFacts.
Local Open Scope js_scope.

(** Outside the bypass mode a request that passes the checks goes on with
    its context, and the middleware logs nothing. *)
Lemma auth_accepts (growthApiKey : string) (env : Env)
    (getUser : string -> Promise (option User * option string))
    (headers : Headers) (a : AuthContext) (w : World) :
  env_is (DEV_BYPASS_AUTH env) "true" = false ->
  accepted growthApiKey getUser headers a ->
  createAuthMiddleware growthApiKey env getUser headers w = (Fulfilled (auth_next a), w).
Proof.
  intros Hbypass (apiKey & authHeader & user & account
                  & Hkey & Hne & Heq & Hauth & Hprefix & Huser & Hclaim & Hacc & ->).
  assert (Htruthy : truthy_string apiKey = true).
  { destruct (truthy_string apiKey) eqn:H; [reflexivity|].
    apply AuthFacts.truthy_string_false in H. contradiction. }
  assert (Haccount : truthy_string account = true).
  { destruct (truthy_string account) eqn:H; [reflexivity|].
    apply AuthFacts.truthy_string_false in H. contradiction. }
  apply String.eqb_eq in Heq.
  unfold createAuthMiddleware, try_catch.
  rewrite Hbypass, Hkey, Htruthy, Heq. cbn [negb orb].
  rewrite Hauth, Hprefix. unfold bind, await.
  rewrite Huser, Hclaim, Haccount. reflexivity.
Qed.

Lemma quota_exhausted (used : Z) :
  (Z.max 0 (DEFAULT_MONTHLY_QUOTA - used) <=? 0)%Z = (DEFAULT_MONTHLY_QUOTA <=? used)%Z.
Proof.
  destruct (Z.leb_spec DEFAULT_MONTHLY_QUOTA used) as [H | H].
  - apply Z.leb_le. lia.
  - apply Z.leb_gt. lia.
Qed.

(** Outside the bypass mode, with a ledger that can be read, the usage
    middleware answers 429 when the account has used its quota and lets
    the handler run otherwise. *)
Lemma gated_counts (bypass : option string) (month : Month) (a : AuthContext)
    (handler : M HttpResponse) (w : World) (db : Database) :
  env_is bypass "true" = false ->
  supabase w = Some db ->
  fault w "growth_usage_log" "select" = None ->
  gated bypass month (Some a) handler w
  = if (DEFAULT_MONTHLY_QUOTA <=? count_usage db (accountId a) (startOfMonth month))%Z
    then (Fulfilled
            (res_json 429
               (quota_exceeded_body
                  (mkUsageQuota (count_usage db (accountId a) (startOfMonth month))
                     DEFAULT_MONTHLY_QUOTA 0
                     (Iso (startOfMonth month)) (Iso (endOfMonth month))))),
          logged w [db_query "growth_usage_log" "select" (accountId a) None])
    else handler (logged w [db_query "growth_usage_log" "select" (accountId a) None]).
Proof.
  intros Hbypass Hdb Hfault.
  unfold gated, createUsageMiddleware, try_catch. rewrite Hbypass.
  unfold bind. rewrite (getUsageQuota_counts _ _ _ _ Hdb Hfault).
  cbn [remaining]. rewrite quota_exhausted.
  destruct (DEFAULT_MONTHLY_QUOTA <=? count_usage db (accountId a) (startOfMonth month))%Z;
    reflexivity.
Qed.

(** X10: an analysis that [saveMarketAnalysis] stored under a fresh key
    reads back through GET /api/analyze/:id as it is mounted, behind the
    auth and the usage middleware: outside the bypass mode, for a request
    that passes the auth checks and a ledger that can be read, a caller
    whose account has used its monthly quota is answered 429 with the
    quota; otherwise the account that stored the analysis is answered 200
    with the key as id, the stored members and the creation time, and any
    other account 404. *)
Theorem saved_analysis_reads_back (owner reader : AuthContext)
    (requestData : MarketAnalysisRequest) (resultData : json) (w : World) (db : Database)
    (growthApiKey : string) (env : Env)
    (getUser : string -> Promise (option User * option string))
    (month : Month) (headers : Headers) :
  let key := gen_random_uuid w (uuid_calls w) in
  let used := count_usage db (accountId reader) (startOfMonth month) in
  supabase w = Some db ->
  fault w "growth_market_analyses" "insert" = None ->
  fault w "growth_market_analyses" "select" = None ->
  fault w "growth_usage_log" "select" = None ->
  truthy_string key = true ->
  (forall row, In row (growth_market_analyses db) -> ma_id row <> key) ->
  env_is (DEV_BYPASS_AUTH env) "true" = false ->
  accepted growthApiKey getUser headers reader ->
  exists w1,
    saveMarketAnalysis (accountId owner) (userId owner) requestData resultData w
    = (Fulfilled (Some key), w1)
    /\ fst (api_get_analysis growthApiKey env getUser month headers key w1)
       = Fulfilled
           (if (DEFAULT_MONTHLY_QUOTA <=? used)%Z then
              res_json 429
                (quota_exceeded_body
                   (mkUsageQuota used DEFAULT_MONTHLY_QUOTA 0
                      (Iso (startOfMonth month)) (Iso (endOfMonth month))))
            else if String.eqb (accountId reader) (accountId owner) then
              res_json 200
                (JObject [ ("success", JBool true);
                           ("data",
                            JObject ([("id", JString key)]
                                     ++ spread resultData
                                     ++ [("createdAt", JNumber (inject_Z (db_now w)))])) ])
            else res_json 404 (JObject [("error", JString "Analysis not found")])).
Proof.
  intros key used Hdb Hinsert Hselect Hledger Hkey Hfresh Hbypass Haccepted.
  rewrite (saveMarketAnalysis_run _ _ _ _ _ _ Hdb Hinsert).
  fold key. unfold id_or_null. rewrite Hkey.
  eexists. split; [reflexivity|].
  set (row := mkAnalysisRow key (accountId owner) (userId owner) requestData resultData
                (db_now w)).
  unfold api_get_analysis, api.
  rewrite (bind_run _ _ _ _ _ (auth_accepts _ _ _ _ _ _ Hbypass Haccepted)).
  match goal with
  | |- context [gated _ _ _ _ ?w1] =>
      rewrite (gated_counts (DEV_BYPASS_AUTH env) month reader
                 (get_analysis (Some reader) key) w1 _ Hbypass eq_refl Hledger)
  end.
  change (count_usage _ (accountId reader) (startOfMonth month)) with used.
  destruct (DEFAULT_MONTHLY_QUOTA <=? used)%Z; [reflexivity|].
  destruct (String.eqb (accountId reader) (accountId owner)) eqn:Hsame.
  - apply String.eqb_eq in Hsame.
    unfold get_analysis, try_catch, auth_of.
    unfold bind at 1. unfold ret at 1. rewrite !Hsame.
    match goal with
    | |- context [bind (select_analysis_single _ _) _ ?w2] =>
        pose proof (select_own_row w2 db row eq_refl Hselect Hfresh) as Hsel
    end.
    cbn [ma_id ma_account_id row] in Hsel.
    rewrite (bind_run _ _ _ _ _ Hsel). reflexivity.
  - apply String.eqb_neq in Hsame.
    eapply get_analysis_not_owned; [reflexivity|].
    intros other Hin Hid. cbn [growth_market_analyses] in Hin.
    apply in_app_or in Hin. destruct Hin as [Hin | [<- | []]].
    + destruct (Hfresh other Hin Hid).
    + intros Heq. apply Hsame. symmetry. exact Heq.
Qed.

(** Account-a stores an analysis and reads it back with quota left; with
    ten events of the month in the ledger the same read is answered 429. *)
Lemma saved_analysis_reads_back_witness :
  (exists w1,
     saveMarketAnalysis "account-a" "user-a" Scenarios.request_A
       (JObject [("overview", JObject [])])
       (Scenarios.world Scenarios.database_with_analysis Scenarios.no_faults)
     = (Fulfilled (Some (Scenarios.uuids 0)), w1)
     /\ fst (api_get_analysis "secret" MoreScenarios.env_production
               MoreScenarios.getUser_alice Scenarios.month MoreScenarios.headers_alice
               (Scenarios.uuids 0) w1)
        = Fulfilled (res_json 200
            (JObject [ ("success", JBool true);
                       ("data",
                        JObject ([("id", JString (Scenarios.uuids 0))]
                                 ++ spread (JObject [("overview", JObject [])])
                                 ++ [("createdAt", JNumber (inject_Z 1700000000000))])) ])))
  /\ (exists w1,
        saveMarketAnalysis "account-a" "user-a" Scenarios.request_A
          (JObject [("overview", JObject [])])
          (Scenarios.world MoreScenarios.database_with_ten_events Scenarios.no_faults)
        = (Fulfilled (Some (Scenarios.uuids 0)), w1)
        /\ fst (api_get_analysis "secret" MoreScenarios.env_production
                  MoreScenarios.getUser_alice Scenarios.month MoreScenarios.headers_alice
                  (Scenarios.uuids 0) w1)
           = Fulfilled (res_json 429
               (quota_exceeded_body
                  (mkUsageQuota 10 10 0 (Iso (startOfMonth Scenarios.month))
                                (Iso (endOfMonth Scenarios.month)))))).
Proof.
  assert (Halice : accepted "secret" MoreScenarios.getUser_alice
                     MoreScenarios.headers_alice Scenarios.alice).
  { exists "secret", "Bearer token-of-alice",
      (mkUser "user-a" (Some "account-a") None), "account-a".
    repeat split; try reflexivity; discriminate. }
  split.
  - apply (saved_analysis_reads_back Scenarios.alice Scenarios.alice Scenarios.request_A
             (JObject [("overview", JObject [])])
             (Scenarios.world Scenarios.database_with_analysis Scenarios.no_faults)
             Scenarios.database_with_analysis "secret" MoreScenarios.env_production
             MoreScenarios.getUser_alice Scenarios.month MoreScenarios.headers_alice);
      try reflexivity; [|exact Halice].
    intros row [<- | []]. discriminate.
  - apply (saved_analysis_reads_back Scenarios.alice Scenarios.alice Scenarios.request_A
             (JObject [("overview", JObject [])])
             (Scenarios.world MoreScenarios.database_with_ten_events Scenarios.no_faults)
             MoreScenarios.database_with_ten_events "secret" MoreScenarios.env_production
             MoreScenarios.getUser_alice Scenarios.month MoreScenarios.headers_alice);
      try reflexivity; [|exact Halice].
    intros row [].
Defined.

(** X27: a plan that [generatePlan] returned with an identifier reads back
    through GET /api/plan/:id as it is mounted, behind the auth and the
    usage middleware: outside the bypass mode, for a request that passes
    the auth checks and a ledger that can be read, a caller whose account
    has used its monthly quota (the event of the plan included) is
    answered 429 with the quota; otherwise the owner is answered 200 with
    the identifier, the analysis id, the members of the plan as they were
    stored (before the identifier was attached) and the time of creation,
    and any other account 404. *)
Theorem returned_plan_reads_back (llm : LlmProvider)
    (clock : MarketAnalysisService.Clock) (request : PlanGenerationRequest)
    (owner reader : AuthContext) (w w' : World) (db db' : Database)
    (plan : CampaignPlan) (key : string)
    (growthApiKey : string) (env : Env)
    (getUser : string -> Promise (option User * option string))
    (month : Month) (headers : Headers) :
  let used := count_usage db' (accountId reader) (startOfMonth month) in
  generatePlan llm clock request (accountId owner) (userId owner) w
  = (Fulfilled plan, w') ->
  id plan = Some (Some key) ->
  supabase w = Some db ->
  supabase w' = Some db' ->
  (forall row, In row (growth_campaign_plans db) -> cp_id row <> key) ->
  fault w "growth_campaign_plans" "select" = None ->
  fault w "growth_usage_log" "select" = None ->
  env_is (DEV_BYPASS_AUTH env) "true" = false ->
  accepted growthApiKey getUser headers reader ->
  exists unattached,
    plan = plan_with_id unattached (Some key)
    /\ id unattached = None
    /\ fst (api_get_plan growthApiKey env getUser month headers key w')
       = Fulfilled
           (if (DEFAULT_MONTHLY_QUOTA <=? used)%Z then
              res_json 429
                (quota_exceeded_body
                   (mkUsageQuota used DEFAULT_MONTHLY_QUOTA 0
                      (Iso (startOfMonth month)) (Iso (endOfMonth month))))
            else if String.eqb (accountId owner) (accountId reader) then
              res_json 200
                (JObject
                   [("success", JBool true);
                    ("data",
                     JObject ([("id", JString key);
                               ("analysisId", JString (pr_analysisId request))]
                              ++ spread (CampaignPlan_json unattached)
                              ++ [("createdAt", JNumber (inject_Z (db_now w)))]))])
            else res_json 404 (JObject [("error", JString "Plan not found")])).
Proof.
  intros used Hrun Hid Hdb Hdb' Hfresh Hselect Hledger Hbypass Haccepted.
  destruct (generatePlan_fulfilled _ _ _ _ _ _ _ _ Hrun)
    as (db0 & planned & summary & Hdb0 & Hplan & Hstored & Hfault).
  rewrite Hdb in Hdb0. injection Hdb0 as <-.
  subst plan. cbn [id plan_with_id] in Hid. injection Hid as Hid.
  assert (Hsaved : saved_plan_id w = Some key) by exact Hid.
  unfold saved_plan_id in Hid.
  destruct (fault w "growth_campaign_plans" "insert") eqn:Hinsert; [discriminate Hid|].
  unfold id_or_null in Hid.
  destruct (truthy_string (gen_random_uuid w (uuid_calls w))); [|discriminate Hid].
  injection Hid as Hkey.
  exists (assembled_plan request planned summary clock).
  rewrite Hsaved. split; [reflexivity|]. split; [reflexivity|].
  set (row := mkPlanRow key (accountId owner) (userId owner) (pr_analysisId request)
                (CampaignPlan_json (assembled_plan request planned summary clock))
                (db_now w)).
  assert (Hplans :
    growth_campaign_plans
      (stored_plan w db request (accountId owner) (userId owner)
         (assembled_plan request planned summary clock) clock)
    = (growth_campaign_plans db ++ [row])%list).
  { unfold stored_plan. cbn [growth_campaign_plans]. rewrite Hinsert, Hkey. reflexivity. }
  assert (Hselect' : fault w' "growth_campaign_plans" "select" = None).
  { rewrite Hfault. exact Hselect. }
  assert (Hledger' : fault w' "growth_usage_log" "select" = None).
  { rewrite Hfault. exact Hledger. }
  assert (Hfilter :
    filter (fun r => String.eqb (cp_id r) (cp_id row)
                     && String.eqb (cp_account_id r) (accountId reader))
           (growth_campaign_plans
              (stored_plan w db request (accountId owner) (userId owner)
                 (assembled_plan request planned summary clock) clock))
    = (if String.eqb (cp_account_id row) (accountId reader) then [row] else [])).
  { rewrite Hplans, filter_app. rewrite filter_none.
    - cbn [filter cp_id cp_account_id row app]. rewrite String.eqb_refl.
      destruct (String.eqb (accountId owner) (accountId reader)); reflexivity.
    - intros r Hin. cbn [cp_id row].
      pose proof (Hfresh r Hin) as Hneq. apply String.eqb_neq in Hneq.
      rewrite Hneq. reflexivity. }
  unfold api_get_plan, api.
  rewrite (bind_run _ _ _ _ _ (auth_accepts _ _ _ _ _ _ Hbypass Haccepted)).
  rewrite (gated_counts (DEV_BYPASS_AUTH env) month reader
             (get_plan (Some reader) key) w' db' Hbypass Hdb' Hledger').
  fold used.
  destruct (DEFAULT_MONTHLY_QUOTA <=? used)%Z; [reflexivity|].
  pose proof (select_own_plan
                (logged w' [db_query "growth_usage_log" "select" (accountId reader) None])
                _ row (accountId reader) Hstored Hselect' Hfilter) as Hsel.
  cbn [cp_id cp_account_id row] in Hsel.
  unfold get_plan, try_catch, auth_of.
  unfold bind at 1. unfold ret at 1.
  rewrite (bind_run _ _ _ _ _ Hsel).
  destruct (String.eqb (accountId owner) (accountId reader)); reflexivity.
Qed.

(** Account-a derives a plan and reads it back: one event of the month is
    in the ledger, so the quota lets the request through. *)
Lemma returned_plan_reads_back_witness :
  exists unattached,
    Scenarios.plan_generated = plan_with_id unattached (Some (Scenarios.uuids 0))
    /\ id unattached = None
    /\ fst (api_get_plan "secret" MoreScenarios.env_production
              MoreScenarios.getUser_alice Scenarios.month MoreScenarios.headers_alice
              (Scenarios.uuids 0) (snd Scenarios.plan_run))
       = Fulfilled
           (res_json 200
              (JObject
                 [("success", JBool true);
                  ("data",
                   JObject ([("id", JString (Scenarios.uuids 0));
                             ("analysisId", JString "analysis-1")]
                            ++ spread (CampaignPlan_json unattached)
                            ++ [("createdAt", JNumber (inject_Z 1700000000000))]))])).
Proof.
  apply (returned_plan_reads_back Scenarios.plan_llm Scenarios.clock
           Scenarios.plan_request Scenarios.alice Scenarios.alice
           (Scenarios.world Scenarios.database_with_analysis Scenarios.no_faults)
           (snd Scenarios.plan_run) Scenarios.database_with_analysis
           MoreScenarios.database_after_plan
           Scenarios.plan_generated (Scenarios.uuids 0)
           "secret" MoreScenarios.env_production MoreScenarios.getUser_alice
           Scenarios.month MoreScenarios.headers_alice).
  - vm_compute. reflexivity.
  - reflexivity.
  - reflexivity.
  - vm_compute. reflexivity.
  - intros row [].
  - reflexivity.
  - reflexivity.
  - reflexivity.
  - exists "secret", "Bearer token-of-alice",
      (mkUser "user-a" (Some "account-a") None), "account-a".
    repeat split; try reflexivity; discriminate.
Defined.

End GatedRouteFacts.
